(** * Prompt Graveyard: record cache, query engine and revival ledger

    A shallow embedding of [server/src/services/graveyardService.ts]
    ([GraveyardService] and [RevivalService]) and of the pagination and
    sorting helpers of the controllers, followed by the properties of the
    specification that concern them.

    Conventions of the embedding.
    - A JavaScript [number] is an IEEE-754 binary64 value: Rocq's primitive
      [float].  Comparisons, sums and quotients are the primitive ones, so
      [NaN] and rounding behave as in the source.
    - Integers produced by [parseInt], array indices and clock readings are
      [Z].
    - An object used as a dictionary ([Record<string, T>]) is an association
      list in insertion order, which is the order [Object.keys],
      [Object.values] and [Object.entries] enumerate.
    - [async] methods run in a state-and-exception monad over a [World] that
      holds the two backing files, the clock, the UUID source and the fields
      of the service instance. *)

From Stdlib Require Import List String Ascii ZArith Bool Lia Permutation Sorted.
From Stdlib Require Import Floats Uint63.
Import ListNotations.

#[export] Set Warnings "-inexact-float".

Local Open Scope string_scope.
Local Open Scope Z_scope.

(* ================================================================= *)
(** ** The JavaScript runtime *)

Module JS.

Definition number := float.

(** [a < b] and [a > b] on numbers; both are [false] when either side is
    [NaN]. *)
Definition lt (a b : number) : bool := PrimFloat.ltb a b.
Definition gt (a b : number) : bool := PrimFloat.ltb b a.

(** [a >= b] and [a <= b] on numbers. *)
Definition ge (a b : number) : bool := PrimFloat.leb b a.
Definition le (a b : number) : bool := PrimFloat.leb a b.

(** Truthiness of a number: everything but [0], [-0] and [NaN]. *)
Definition truthy (x : number) : bool :=
  negb (PrimFloat.is_nan x || PrimFloat.is_zero x).

(** [x || 0] for an optional numeric field. *)
Definition or_zero (x : option number) : number :=
  match x with
  | Some v => if truthy v then v else 0%float
  | None => 0%float
  end.

(** Truthiness of an optional string: defined and not empty. *)
Definition truthy_str (x : option string) : bool :=
  match x with
  | Some s => negb (s =? EmptyString)%string
  | None => false
  end.

(** An integer as a number (exact below 2^53, which covers every length
    and count of this development). *)
Definition of_Z (z : Z) : number :=
  match z with
  | Z0 => 0%float
  | Zpos _ => PrimFloat.of_uint63 (Uint63.of_Z z)
  | Zneg p => PrimFloat.opp (PrimFloat.of_uint63 (Uint63.of_Z (Zpos p)))
  end.

Definition of_nat (n : nat) : number := of_Z (Z.of_nat n).

(** [Array.prototype.slice(start, end)]: negative indices count from the
    end, both are clamped to the array, and an empty range gives []. *)
Definition slice {A : Type} (l : list A) (start end_ : Z) : list A :=
  let len := Z.of_nat (List.length l) in
  let from := if start <? 0 then Z.max (len + start) 0 else Z.min start len in
  let to := if end_ <? 0 then Z.max (len + end_) 0 else Z.min end_ len in
  firstn (Z.to_nat (to - from)) (skipn (Z.to_nat from) l).

(** [Array.prototype.sort(cmp)].  The sort is stable (ECMAScript 2019):
    [a] is moved behind [b] only when [cmp a b > 0]; a comparator value
    of [0] or [NaN] leaves the two in their original order.  This is the
    result every conforming engine returns for a consistent comparator.
    For an inconsistent one (a key that is NaN compares equal to
    everything) the language leaves the order to the engine, and this
    definition is one admissible result only: what is stated below about
    the exact position of records assumes a consistent comparator; what
    holds of every rearrangement (permutation, length, membership) and of
    neighbours that were compared directly does not. *)
Fixpoint insert {A : Type} (cmp : A -> A -> number) (x : A) (l : list A)
  : list A :=
  match l with
  | [] => [x]
  | y :: t => if gt (cmp x y) 0%float then y :: insert cmp x t else x :: l
  end.

Definition sort {A : Type} (cmp : A -> A -> number) (l : list A) : list A :=
  fold_right (insert cmp) [] l.

(** [Array.prototype.find] and [findIndex]. *)
Definition find {A : Type} (p : A -> bool) (l : list A) : option A :=
  List.find p l.

Fixpoint findIndex {A : Type} (p : A -> bool) (l : list A) : option nat :=
  match l with
  | [] => None
  | x :: t => if p x then Some O else option_map S (findIndex p t)
  end.

(** [a[i]] for a numeric index: [undefined] outside [0 .. length-1]. *)
Definition index {A : Type} (l : list A) (i : Z) : option A :=
  if i <? 0 then None else nth_error l (Z.to_nat i).

(** [a[i] = f(a[i])] for an index inside the array. *)
Fixpoint update_at {A : Type} (i : nat) (f : A -> A) (l : list A) : list A :=
  match l, i with
  | [], _ => []
  | x :: t, O => f x :: t
  | x :: t, S j => x :: update_at j f t
  end.

(** [Math.ceil(n / d)] for an array length [n] and an integer [d]; the
    ceiling of a quotient in (-1, 0], which a negative [d] gives, is the
    negative zero. *)
Definition ceil_div (n : nat) (d : Z) : number :=
  if d =? 0 then (if (n =? 0)%nat then PrimFloat.nan else PrimFloat.infinity)
  else
    let q := - ((- Z.of_nat n) / d) in
    if (q =? 0) && (d <? 0) then PrimFloat.neg_zero else of_Z q.

(** *** [parseInt] with no radix argument *)

Definition is_space (c : ascii) : bool :=
  let n := nat_of_ascii c in
  ((n =? 32) || (n =? 9) || (n =? 10) || (n =? 11) || (n =? 12) || (n =? 13))%nat.

Fixpoint trim_start (s : string) : string :=
  match s with
  | String c t => if is_space c then trim_start t else s
  | EmptyString => s
  end.

(** The value of [c] as a digit in base [radix], if it is one. *)
Definition digit (radix : Z) (c : ascii) : option Z :=
  let n := Z.of_nat (nat_of_ascii c) in
  let v :=
    if (48 <=? n) && (n <=? 57) then Some (n - 48)
    else if (97 <=? n) && (n <=? 122) then Some (n - 87)
    else if (65 <=? n) && (n <=? 90) then Some (n - 55)
    else None in
  match v with
  | Some d => if d <? radix then Some d else None
  | None => None
  end.

(** The longest prefix of digits, read left to right; [None] when there
    is no digit at all. *)
Fixpoint digits (radix : Z) (acc : option Z) (s : string) : option Z :=
  match s with
  | String c t =>
      match digit radix c with
      | Some d =>
          digits radix (Some (match acc with Some a => a * radix + d | None => d end)) t
      | None => acc
      end
  | EmptyString => acc
  end.

Definition strip_sign (s : string) : Z * string :=
  match s with
  | String "-"%char t => (-1, t)
  | String "+"%char t => (1, t)
  | _ => (1, s)
  end.

Definition strip_hex (s : string) : Z * string :=
  match s with
  | String "0"%char (String "x"%char t) => (16, t)
  | String "0"%char (String "X"%char t) => (16, t)
  | _ => (10, s)
  end.

(** [parseInt(s)]; [None] stands for [NaN], and [undefined] is read
    through its string form, which has no digit.  Strings are ASCII here,
    so only the six ASCII blanks are skipped, and the value is the exact
    integer, which is the number the engine returns below 2^53. *)
Definition parseInt (s : option string) : option Z :=
  match s with
  | None => None
  | Some str =>
      let '(sign, body) := strip_sign (trim_start str) in
      let '(radix, body) := strip_hex body in
      option_map (Z.mul sign) (digits radix None body)
  end.

(** [parseInt(s) || d]: the default replaces [NaN] and [0]. *)
Definition parseInt_or (s : option string) (d : Z) : Z :=
  match parseInt s with
  | Some 0 | None => d
  | Some n => n
  end.

End JS.

(* ================================================================= *)
(** ** Data model ([types/graveyard.ts]) *)

Definition number : Type := JS.number.

Record SpookyMetric := {
  value : number;
  normalized_score : number;
  category : string;
  weight : number
}.

Record LLMResponse := {
  response : option string;
  latency_ms : option number;
  cost_usd : option number;
  llm_timestamp : string;
  model : option string;
  error : option string
}.

Record ZombieStatus := {
  is_zombie : bool;
  overall_score : number;
  severity : string;
  visual_theme : string;
  revival_priority : string;
  failed_critical_metrics : list string;
  reason : string
}.

Record RevivalSuggestion := {
  improved_prompt : string;
  strategy : string;
  technique : string;
  reasoning : string;
  confidence_score : number;
  expected_improvements : list (string * number)
}.

Record EvaluationResult := {
  prompt_id : string;
  file_path : string;
  prompt_text : string;
  timestamp : string;
  llm_responses : list (string * LLMResponse);
  metrics : list (string * SpookyMetric);
  zombie_status : ZombieStatus;
  revival_suggestions : list RevivalSuggestion
}.

Record PromptSummary := {
  ps_prompt_id : string;
  ps_file_path : string;
  ps_prompt_text : string;
  ps_timestamp : string;
  ps_overall_score : number;
  ps_is_zombie : bool;
  ps_severity : string;
  ps_total_cost : number;
  ps_avg_latency : number;
  ps_llm_count : nat
}.

Record GraveyardStats := {
  total_prompts : nat;
  zombie_count : nat;
  zombie_rate : number;
  avg_score : number;
  total_cost : number;
  avg_latency : number;
  revival_success_rate : number;
  severity_breakdown : list (string * nat);
  recent_activity : list PromptSummary
}.

Record RevivalRequest := {
  req_prompt_id : string;
  suggestion_index : Z;
  user_feedback : option string
}.

(** The [message] of a [RevivalResponse].  The source builds one of six
    texts; the constructor records which, with the interpolated value. *)
Inductive Message :=
| MsgNotFound                       (* Prompt not found in the graveyard *)
| MsgAlreadyAlive                   (* This prompt is already alive! No revival needed. *)
| MsgSuggestionNotFound (i : Z)     (* Revival suggestion i not found *)
| MsgRevived (strategy : string)    (* Revival ritual successful! ... with strategy *)
| MsgResisted                       (* Revival ritual failed. The zombie resisted ... *)
| MsgInterrupted.                   (* The revival ritual was interrupted by dark forces. *)

Record RevivalResponse := {
  success : bool;
  message : Message;
  original_prompt : string;
  resp_improved_prompt : string;
  resp_expected_improvements : list (string * number);
  revival_id : string
}.

Inductive SortOrder := asc | desc.

Record PaginationParams := {
  page : Z;
  limit : Z;
  sort_by : option string;
  sort_order : option SortOrder
}.

Record FilterParams := {
  f_is_zombie : option bool;
  f_severity : option string;
  min_score : option number;
  max_score : option number;
  date_from : option string;
  date_to : option string;
  llm_provider : option string
}.

(** The private [RevivalAttempt] interface of the revival service. *)
Inductive RevivalStatus := Pending | Success | Failed.

Record RevivalAttempt := {
  ra_revival_id : string;
  ra_prompt_id : string;
  ra_original_prompt : string;
  ra_improved_prompt : string;
  ra_suggestion_index : Z;
  ra_strategy : string;
  ra_confidence_score : number;
  ra_expected_improvements : list (string * number);
  ra_timestamp : string;
  ra_user_feedback : option string;
  status : RevivalStatus
}.

(** [attempt.status = s] on an attempt object. *)
Definition set_status (s : RevivalStatus) (a : RevivalAttempt) : RevivalAttempt :=
  {| ra_revival_id := ra_revival_id a;
     ra_prompt_id := ra_prompt_id a;
     ra_original_prompt := ra_original_prompt a;
     ra_improved_prompt := ra_improved_prompt a;
     ra_suggestion_index := ra_suggestion_index a;
     ra_strategy := ra_strategy a;
     ra_confidence_score := ra_confidence_score a;
     ra_expected_improvements := ra_expected_improvements a;
     ra_timestamp := ra_timestamp a;
     ra_user_feedback := ra_user_feedback a;
     status := s |}.

(** What the code needs from [Date]: the time value of a timestamp string,
    [new Date(s).getTime()], which is [NaN] for a string that is no date;
    and the ISO string of a clock reading, [new Date(ms).toISOString()]. *)
Class DateRuntime := {
  Date_getTime : string -> number;
  Date_toISOString : Z -> string
}.

(** [parseFloat], which the controllers apply to the score bounds of a
    query string; [NaN] for a string that does not start with a number. *)
Class NumberRuntime := {
  parseFloat : string -> number
}.

(* ================================================================= *)
(** ** The world and the monad of [async] methods *)

(** One line of [results.json] once blank lines are dropped: [JSON.parse]
    either yields a record or throws.  A line that parses to a JSON value
    which is no record ([null], a number, an object without the fields)
    is outside the declared type [EvaluationResult] and has no
    counterpart here: the methods below are modelled on snapshots of
    records. *)
Inductive Line :=
| Parsed (r : EvaluationResult)
| Garbled.

(** The text of [revival_log.json]: a document [JSON.parse] rejects, or
    the serialised array of attempts. *)
Inductive LedgerText :=
| Corrupt
| Stored (log : list RevivalAttempt).

Inductive Error :=
| ENOENT                  (* errno: no such file *)
| EIO                     (* any other errno: permission, I/O, ... *)
| SyntaxError             (* thrown by JSON.parse *)
| GraveyardAccessError.   (* new Error('Failed to access the graveyard records') *)

Record World := {
  (* data/results.json: [None] when the file does not exist *)
  source : option (list Line);
  (* which accesses to results.json fail with an errno other than ENOENT,
     and how many accesses were made so far *)
  source_fault : nat -> bool;
  source_reads : nat;
  (* data/revival_log.json *)
  ledger : option LedgerText;
  ledger_fault : nat -> bool;
  ledger_ops : nat;
  (* Date.now() and uuidv4() *)
  now : Z;
  uuid_gen : nat -> string;
  uuid_count : nat;
  (* the fields of the GraveyardService instance *)
  cachedResults : list EvaluationResult;
  lastCacheUpdate : Z
}.

Definition with_source_reads (n : nat) (w : World) : World :=
  {| source := source w; source_fault := source_fault w; source_reads := n;
     ledger := ledger w; ledger_fault := ledger_fault w; ledger_ops := ledger_ops w;
     now := now w; uuid_gen := uuid_gen w; uuid_count := uuid_count w;
     cachedResults := cachedResults w; lastCacheUpdate := lastCacheUpdate w |}.

Definition with_ledger (l : option LedgerText) (w : World) : World :=
  {| source := source w; source_fault := source_fault w; source_reads := source_reads w;
     ledger := l; ledger_fault := ledger_fault w; ledger_ops := ledger_ops w;
     now := now w; uuid_gen := uuid_gen w; uuid_count := uuid_count w;
     cachedResults := cachedResults w; lastCacheUpdate := lastCacheUpdate w |}.

Definition with_ledger_ops (n : nat) (w : World) : World :=
  {| source := source w; source_fault := source_fault w; source_reads := source_reads w;
     ledger := ledger w; ledger_fault := ledger_fault w; ledger_ops := n;
     now := now w; uuid_gen := uuid_gen w; uuid_count := uuid_count w;
     cachedResults := cachedResults w; lastCacheUpdate := lastCacheUpdate w |}.

Definition with_now (t : Z) (w : World) : World :=
  {| source := source w; source_fault := source_fault w; source_reads := source_reads w;
     ledger := ledger w; ledger_fault := ledger_fault w; ledger_ops := ledger_ops w;
     now := t; uuid_gen := uuid_gen w; uuid_count := uuid_count w;
     cachedResults := cachedResults w; lastCacheUpdate := lastCacheUpdate w |}.

Definition with_uuid_count (n : nat) (w : World) : World :=
  {| source := source w; source_fault := source_fault w; source_reads := source_reads w;
     ledger := ledger w; ledger_fault := ledger_fault w; ledger_ops := ledger_ops w;
     now := now w; uuid_gen := uuid_gen w; uuid_count := n;
     cachedResults := cachedResults w; lastCacheUpdate := lastCacheUpdate w |}.

Definition with_cachedResults (rs : list EvaluationResult) (w : World) : World :=
  {| source := source w; source_fault := source_fault w; source_reads := source_reads w;
     ledger := ledger w; ledger_fault := ledger_fault w; ledger_ops := ledger_ops w;
     now := now w; uuid_gen := uuid_gen w; uuid_count := uuid_count w;
     cachedResults := rs; lastCacheUpdate := lastCacheUpdate w |}.

Definition with_lastCacheUpdate (t : Z) (w : World) : World :=
  {| source := source w; source_fault := source_fault w; source_reads := source_reads w;
     ledger := ledger w; ledger_fault := ledger_fault w; ledger_ops := ledger_ops w;
     now := now w; uuid_gen := uuid_gen w; uuid_count := uuid_count w;
     cachedResults := cachedResults w; lastCacheUpdate := t |}.

(** The environment replaces results.json (or removes it). *)
Definition with_source (src : option (list Line)) (w : World) : World :=
  {| source := src; source_fault := source_fault w; source_reads := source_reads w;
     ledger := ledger w; ledger_fault := ledger_fault w; ledger_ops := ledger_ops w;
     now := now w; uuid_gen := uuid_gen w; uuid_count := uuid_count w;
     cachedResults := cachedResults w; lastCacheUpdate := lastCacheUpdate w |}.

(** The environment changes which accesses to results.json fail. *)
Definition with_source_fault (f : nat -> bool) (w : World) : World :=
  {| source := source w; source_fault := f; source_reads := source_reads w;
     ledger := ledger w; ledger_fault := ledger_fault w; ledger_ops := ledger_ops w;
     now := now w; uuid_gen := uuid_gen w; uuid_count := uuid_count w;
     cachedResults := cachedResults w; lastCacheUpdate := lastCacheUpdate w |}.

(** A computation either returns a value or throws, and leaves a world. *)
Inductive Outcome (A : Type) :=
| Return (a : A)
| Throw (e : Error).
Arguments Return {A} a.
Arguments Throw {A} e.

Definition M (A : Type) : Type := World -> Outcome A * World.

Definition ret {A : Type} (a : A) : M A := fun w => (Return a, w).

Definition throw {A : Type} (e : Error) : M A := fun w => (Throw e, w).

Definition bind {A B : Type} (m : M A) (k : A -> M B) : M B :=
  fun w =>
    match m w with
    | (Return a, w') => k a w'
    | (Throw e, w') => (Throw e, w')
    end.

(** [try { m } catch (e) { h e }] *)
Definition try_catch {A : Type} (m : M A) (h : Error -> M A) : M A :=
  fun w =>
    match m w with
    | (Return a, w') => (Return a, w')
    | (Throw e, w') => h e w'
    end.

Definition gets {A : Type} (f : World -> A) : M A := fun w => (Return (f w), w).

Definition modify (f : World -> World) : M unit := fun w => (Return tt, f w).

Declare Scope js_scope.
Delimit Scope js_scope with js.
Notation "x <- m ;; k" := (bind m (fun x => k))
  (at level 100, m at next level, right associativity) : js_scope.
Notation "m ;;; k" := (bind m (fun _ => k))
  (at level 100, right associativity) : js_scope.
Local Open Scope js_scope.

(** *** The effects the services perform *)

(** [Date.now()] *)
Definition Date_now : M Z := gets now.

(** [uuidv4()] *)
Definition uuidv4 : M string :=
  fun w => (Return (uuid_gen w (uuid_count w)), with_uuid_count (S (uuid_count w)) w).

(** [fs.readFile(resultsPath, 'utf-8')], already split into its non-blank
    lines. *)
Definition readFile_results : M (list Line) :=
  fun w =>
    let w' := with_source_reads (S (source_reads w)) w in
    if source_fault w (source_reads w) then (Throw EIO, w')
    else match source w with
         | None => (Throw ENOENT, w')
         | Some ls => (Return ls, w')
         end.

(** [fs.readFile(revivalLogPath, 'utf-8')] *)
Definition readFile_revivalLog : M LedgerText :=
  fun w =>
    let w' := with_ledger_ops (S (ledger_ops w)) w in
    if ledger_fault w (ledger_ops w) then (Throw EIO, w')
    else match ledger w with
         | None => (Throw ENOENT, w')
         | Some t => (Return t, w')
         end.

(** [fs.writeFile(revivalLogPath, JSON.stringify(log, null, 2), 'utf-8')].
    A write that fails is taken to leave the file as it was. *)
Definition writeFile_revivalLog (log : list RevivalAttempt) : M unit :=
  fun w =>
    let w' := with_ledger_ops (S (ledger_ops w)) w in
    if ledger_fault w (ledger_ops w) then (Throw EIO, w')
    else (Return tt, with_ledger (Some (Stored log)) w').

(** [JSON.parse] of one line of results.json and of the ledger text. *)
Definition JSON_parse_line (l : Line) : M EvaluationResult :=
  match l with
  | Parsed r => ret r
  | Garbled => throw SyntaxError
  end.

Definition JSON_parse_log (t : LedgerText) : M (list RevivalAttempt) :=
  match t with
  | Stored log => ret log
  | Corrupt => throw SyntaxError
  end.

(** [lines.map(f)] for an [f] that may throw: the first throw aborts the
    whole map. *)
Fixpoint mapM {A B : Type} (f : A -> M B) (l : list A) : M (list B) :=
  match l with
  | [] => ret []
  | x :: t => y <- f x ;; ys <- mapM f t ;; ret (y :: ys)
  end.

(* ================================================================= *)
(** ** [GraveyardService] *)

Module GraveyardService.
Section WithDate.
Context `{DateRuntime}.

Definition cacheTimeout : Z := 30000.

Definition loadResultsFromFile : M unit :=
  try_catch
    (lines <- readFile_results ;;
     results <- mapM JSON_parse_line lines ;;
     modify (with_cachedResults results))
    (fun e =>
       match e with
       | ENOENT => modify (with_cachedResults [])
       | _ => throw GraveyardAccessError
       end).

Definition refreshCacheIfNeeded : M unit :=
  t <- Date_now ;;
  last <- gets lastCacheUpdate ;;
  if t - last >? cacheTimeout
  then (loadResultsFromFile ;;; modify (with_lastCacheUpdate t))
  else ret tt.

Definition getAllResults : M (list EvaluationResult) :=
  refreshCacheIfNeeded ;;; gets cachedResults.

Definition getResultById (promptId : string) : M (option EvaluationResult) :=
  results <- getAllResults ;;
  ret (JS.find (fun result => (prompt_id result =? promptId)%string) results).

(** [Object.values(r.llm_responses).reduce((s, resp) => s + (resp.cost_usd || 0), 0)],
    an expression the source repeats wherever it needs a record's cost. *)
Definition responsesCost (r : EvaluationResult) : number :=
  fold_left (fun sum resp => (sum + JS.or_zero (cost_usd resp))%float)
            (map snd (llm_responses r)) 0%float.

Definition calculateAverageLatency (results : list EvaluationResult) : number :=
  if (List.length results =? 0)%nat then 0%float
  else
    let totalLatency :=
      fold_left
        (fun sum result =>
           let responseLatencies :=
             map (fun resp => match latency_ms resp with
                              | Some l => l
                              | None => PrimFloat.nan
                              end)
                 (filter (fun resp => match latency_ms resp with
                                      | Some _ => true
                                      | None => false
                                      end)
                         (map snd (llm_responses result))) in
           let avgLatency :=
             if (0 <? List.length responseLatencies)%nat
             then (fold_left PrimFloat.add responseLatencies 0
                   / JS.of_nat (List.length responseLatencies))%float
             else 0%float in
           (sum + avgLatency)%float)
        results 0%float in
    (totalLatency / JS.of_nat (List.length results))%float.

Definition calculateRevivalSuccessRate (results : list EvaluationResult) : number :=
  let zombiesWithSuggestions :=
    filter (fun r => is_zombie (zombie_status r)
                     && (0 <? List.length (revival_suggestions r))%nat) results in
  if (0 <? List.length zombiesWithSuggestions)%nat then 0.65%float else 0%float.

Definition mapToPromptSummary (result : EvaluationResult) : PromptSummary :=
  let totalCost := responsesCost result in
  let avgLatency := calculateAverageLatency [result] in
  let llmCount := List.length (map fst (llm_responses result)) in
  {| ps_prompt_id := prompt_id result;
     ps_file_path := file_path result;
     ps_prompt_text := prompt_text result;
     ps_timestamp := timestamp result;
     ps_overall_score := overall_score (zombie_status result);
     ps_is_zombie := is_zombie (zombie_status result);
     ps_severity := severity (zombie_status result);
     ps_total_cost := totalCost;
     ps_avg_latency := avgLatency;
     ps_llm_count := llmCount |}.

Definition getEmptyStats : GraveyardStats :=
  {| total_prompts := 0;
     zombie_count := 0;
     zombie_rate := 0%float;
     avg_score := 0%float;
     total_cost := 0%float;
     avg_latency := 0%float;
     revival_success_rate := 0%float;
     severity_breakdown := [];
     recent_activity := [] |}.

(** [acc[k] = (acc[k] || 0) + 1] on a counter object, as a list of its
    own entries in insertion order.  The list stands for the object when
    the keys are not property names inherited from [Object.prototype]
    (such a key reads as present before it is counted) and up to the
    order of enumeration (an object lists integer-like keys first). *)
Fixpoint bump (k : string) (acc : list (string * nat)) : list (string * nat) :=
  match acc with
  | [] => [(k, 1%nat)]
  | (k', n) :: t => if (k' =? k)%string then (k', S n) :: t else (k', n) :: bump k t
  end.

(** The comparator [new Date(b.timestamp).getTime() - new Date(a.timestamp).getTime()]. *)
Definition newestFirst (a b : string) : number :=
  (Date_getTime b - Date_getTime a)%float.

Definition getGraveyardStats : M GraveyardStats :=
  results <- getAllResults ;;
  if (List.length results =? 0)%nat then ret getEmptyStats
  else
    let zombieResults := filter (fun r => is_zombie (zombie_status r)) results in
    let totalCost :=
      fold_left (fun sum r => (sum + responsesCost r)%float) results 0%float in
    let avgLatency := calculateAverageLatency results in
    let avgScore :=
      (fold_left (fun sum r => (sum + overall_score (zombie_status r))%float)
                 results 0
       / JS.of_nat (List.length results))%float in
    let severityBreakdown :=
      fold_left (fun acc result => bump (severity (zombie_status result)) acc)
                zombieResults [] in
    let recentActivity :=
      map mapToPromptSummary
          (JS.slice
             (JS.sort (fun a b => newestFirst (timestamp a) (timestamp b)) results)
             0 10) in
    ret {| total_prompts := List.length results;
           zombie_count := List.length zombieResults;
           zombie_rate := (JS.of_nat (List.length zombieResults)
                           / JS.of_nat (List.length results))%float;
           avg_score := avgScore;
           total_cost := totalCost;
           avg_latency := avgLatency;
           revival_success_rate := calculateRevivalSuccessRate results;
           severity_breakdown := severityBreakdown;
           recent_activity := recentActivity |}.

(** The callback of [applyFilters]: a chain of early [return false]. *)
Definition passesFilters (filters : FilterParams) (result : EvaluationResult) : bool :=
  if match f_is_zombie filters with
     | Some z => negb (Bool.eqb (is_zombie (zombie_status result)) z)
     | None => false
     end
  then false
  else if match f_severity filters with
          | Some s => negb (s =? EmptyString)%string
                      && negb (severity (zombie_status result) =? s)%string
          | None => false
          end
  then false
  else if match min_score filters with
          | Some m => JS.lt (overall_score (zombie_status result)) m
          | None => false
          end
  then false
  else if match max_score filters with
          | Some m => JS.gt (overall_score (zombie_status result)) m
          | None => false
          end
  then false
  else if JS.truthy_str (date_from filters)
          && match date_from filters with
             | Some d => JS.lt (Date_getTime (timestamp result)) (Date_getTime d)
             | None => false
             end
  then false
  else if JS.truthy_str (date_to filters)
          && match date_to filters with
             | Some d => JS.gt (Date_getTime (timestamp result)) (Date_getTime d)
             | None => false
             end
  then false
  else if JS.truthy_str (llm_provider filters)
          && match llm_provider filters with
             | Some p =>
                 negb (existsb (fun k => (k =? p)%string)
                               (map fst (llm_responses result)))
             | None => false
             end
  then false
  else true.

Definition applyFilters (results : list EvaluationResult) (filters : FilterParams)
  : list EvaluationResult :=
  filter (passesFilters filters) results.

(** The comparator of [sortResults]. *)
Definition comparator (sortBy : string) (order : SortOrder)
           (a b : EvaluationResult) : number :=
  let compareValues (aValue bValue : number) : number :=
    match order with
    | asc => if JS.lt aValue bValue then (-1)%float
             else if JS.gt aValue bValue then 1%float else 0%float
    | desc => if JS.gt aValue bValue then (-1)%float
              else if JS.lt aValue bValue then 1%float else 0%float
    end in
  if (sortBy =? "score")%string then
    compareValues (overall_score (zombie_status a)) (overall_score (zombie_status b))
  else if (sortBy =? "timestamp")%string then
    compareValues (Date_getTime (timestamp a)) (Date_getTime (timestamp b))
  else if (sortBy =? "cost")%string then
    compareValues (responsesCost a) (responsesCost b)
  else if (sortBy =? "latency")%string then
    compareValues (calculateAverageLatency [a]) (calculateAverageLatency [b])
  else 0%float.

Definition sortResults (results : list EvaluationResult) (sortBy : string)
           (order : SortOrder) : list EvaluationResult :=
  JS.sort (comparator sortBy order) results.

(** The object [getZombiePrompts] resolves to. *)
Record ZombiePage := {
  zombies : list PromptSummary;
  total : nat;
  zp_page : Z;
  totalPages : number
}.

Definition getZombiePrompts (filters : option FilterParams)
           (pagination : option PaginationParams) : M ZombiePage :=
  results <- getAllResults ;;
  let zombies0 := filter (fun r => is_zombie (zombie_status r)) results in
  let zombies1 :=
    match filters with
    | Some f => applyFilters zombies0 f
    | None => zombies0
    end in
  let total := List.length zombies1 in
  let zombies2 :=
    match pagination with
    | Some p =>
        let sorted :=
          match sort_by p with
          | Some by_ =>
              if negb (by_ =? EmptyString)%string
              then sortResults zombies1 by_
                     (match sort_order p with Some o => o | None => desc end)
              else zombies1
          | None => zombies1
          end in
        let startIndex := (page p - 1) * limit p in
        JS.slice sorted startIndex (startIndex + limit p)
    | None => zombies1
    end in
  ret {| zombies := map mapToPromptSummary zombies2;
         total := total;
         zp_page := match pagination with
                    | Some p => if page p =? 0 then 1 else page p
                    | None => 1
                    end;
         totalPages := match pagination with
                       | Some p => JS.ceil_div total (limit p)
                       | None => 1%float
                       end |}.

(** The object [getLivingPrompts] resolves to. *)
Record LivingPage := {
  living : list PromptSummary;
  lp_total : nat;
  lp_page : Z;
  lp_totalPages : number
}.

Definition getLivingPrompts (pagination : option PaginationParams) : M LivingPage :=
  results <- getAllResults ;;
  let living0 := filter (fun r => negb (is_zombie (zombie_status r))) results in
  let total := List.length living0 in
  let living1 :=
    match pagination with
    | Some p =>
        let sorted :=
          match sort_by p with
          | Some by_ =>
              if negb (by_ =? EmptyString)%string
              then sortResults living0 by_
                     (match sort_order p with Some o => o | None => desc end)
              else living0
          | None => living0
          end in
        let startIndex := (page p - 1) * limit p in
        JS.slice sorted startIndex (startIndex + limit p)
    | None => living0
    end in
  ret {| living := map mapToPromptSummary living1;
         lp_total := total;
         lp_page := match pagination with
                    | Some p => if page p =? 0 then 1 else page p
                    | None => 1
                    end;
         lp_totalPages := match pagination with
                          | Some p => JS.ceil_div total (limit p)
                          | None => 1%float
                          end |}.

End WithDate.
End GraveyardService.

(* ================================================================= *)
(** ** [RevivalService] *)

Module RevivalService.
Section WithDate.
Context `{DateRuntime}.

Definition loadRevivalLog : M (list RevivalAttempt) :=
  try_catch
    (fileContent <- readFile_revivalLog ;; JSON_parse_log fileContent)
    (fun e =>
       match e with
       | ENOENT => ret []
       | _ => throw e
       end).

Definition logRevivalAttempt (attempt : RevivalAttempt) : M unit :=
  try_catch
    (revivalLog <- loadRevivalLog ;;
     writeFile_revivalLog (revivalLog ++ [attempt]))
    (fun e => throw e).

Definition updateRevivalStatus (revivalId : string) (st : RevivalStatus) : M unit :=
  try_catch
    (revivalLog <- loadRevivalLog ;;
     match JS.findIndex (fun attempt => (ra_revival_id attempt =? revivalId)%string)
                        revivalLog with
     | Some attemptIndex =>
         writeFile_revivalLog (JS.update_at attemptIndex (set_status st) revivalLog)
     | None => ret tt
     end)
    (fun _ => ret tt).

Definition revivePrompt (request : RevivalRequest) : M RevivalResponse :=
  try_catch
    (zombieResult <- GraveyardService.getResultById (req_prompt_id request) ;;
     match zombieResult with
     | None =>
         ret {| success := false;
                message := MsgNotFound;
                original_prompt := EmptyString;
                resp_improved_prompt := EmptyString;
                resp_expected_improvements := [];
                revival_id := EmptyString |}
     | Some zombieResult =>
         if negb (is_zombie (zombie_status zombieResult)) then
           ret {| success := false;
                  message := MsgAlreadyAlive;
                  original_prompt := prompt_text zombieResult;
                  resp_improved_prompt := EmptyString;
                  resp_expected_improvements := [];
                  revival_id := EmptyString |}
         else
           match JS.index (revival_suggestions zombieResult)
                          (suggestion_index request) with
           | None =>
               ret {| success := false;
                      message := MsgSuggestionNotFound (suggestion_index request);
                      original_prompt := prompt_text zombieResult;
                      resp_improved_prompt := EmptyString;
                      resp_expected_improvements := [];
                      revival_id := EmptyString |}
           | Some suggestion =>
               id <- uuidv4 ;;
               t <- Date_now ;;
               let revivalAttempt :=
                 {| ra_revival_id := id;
                    ra_prompt_id := req_prompt_id request;
                    ra_original_prompt := prompt_text zombieResult;
                    ra_improved_prompt := improved_prompt suggestion;
                    ra_suggestion_index := suggestion_index request;
                    ra_strategy := strategy suggestion;
                    ra_confidence_score := confidence_score suggestion;
                    ra_expected_improvements := expected_improvements suggestion;
                    ra_timestamp := Date_toISOString t;
                    ra_user_feedback := user_feedback request;
                    status := Pending |} in
               logRevivalAttempt revivalAttempt ;;;
               let simulatedSuccess :=
                 JS.gt (confidence_score suggestion) 0.6%float in
               let revivalAttempt :=
                 set_status (if simulatedSuccess then Success else Failed)
                            revivalAttempt in
               updateRevivalStatus (ra_revival_id revivalAttempt)
                                   (status revivalAttempt) ;;;
               ret {| success := simulatedSuccess;
                      message := if simulatedSuccess
                                 then MsgRevived (strategy suggestion)
                                 else MsgResisted;
                      original_prompt := prompt_text zombieResult;
                      resp_improved_prompt := improved_prompt suggestion;
                      resp_expected_improvements := expected_improvements suggestion;
                      revival_id := ra_revival_id revivalAttempt |}
           end
     end)
    (fun _ =>
       ret {| success := false;
              message := MsgInterrupted;
              original_prompt := EmptyString;
              resp_improved_prompt := EmptyString;
              resp_expected_improvements := [];
              revival_id := EmptyString |}).

Definition getRevivalHistory (promptId : string) : M (list RevivalAttempt) :=
  try_catch
    (revivalLog <- loadRevivalLog ;;
     ret (filter (fun attempt => (ra_prompt_id attempt =? promptId)%string) revivalLog))
    (fun _ => ret []).

(** The object [getRevivalStats] resolves to. *)
Record RevivalStats := {
  total_attempts : nat;
  successful_revivals : nat;
  success_rate : number;
  most_successful_strategy : string;
  recent_revivals : list RevivalAttempt
}.

Definition is_success (attempt : RevivalAttempt) : bool :=
  match status attempt with
  | Success => true
  | _ => false
  end.

Definition getRevivalStats : M RevivalStats :=
  try_catch
    (revivalLog <- loadRevivalLog ;;
     let totalAttempts := List.length revivalLog in
     let successfulRevivals := List.length (filter is_success revivalLog) in
     let successRate :=
       if (0 <? totalAttempts)%nat
       then (JS.of_nat successfulRevivals / JS.of_nat totalAttempts)%float
       else 0%float in
     let strategyStats :=
       fold_left (fun acc attempt =>
                    if is_success attempt
                    then GraveyardService.bump (ra_strategy attempt) acc
                    else acc)
                 revivalLog [] in
     let mostSuccessfulStrategy :=
       match JS.sort (fun x y => (JS.of_nat (snd y) - JS.of_nat (snd x))%float)
                     strategyStats with
       | (name, _) :: _ => if (name =? EmptyString)%string then "none" else name
       | [] => "none"
       end in
     let recentRevivals :=
       JS.slice
         (JS.sort (fun a b => GraveyardService.newestFirst (ra_timestamp a) (ra_timestamp b))
                  revivalLog)
         0 10 in
     ret {| total_attempts := totalAttempts;
            successful_revivals := successfulRevivals;
            success_rate := successRate;
            most_successful_strategy := mostSuccessfulStrategy;
            recent_revivals := recentRevivals |})
    (fun _ =>
       ret {| total_attempts := 0;
              successful_revivals := 0;
              success_rate := 0%float;
              most_successful_strategy := "none";
              recent_revivals := [] |}).

End WithDate.
End RevivalService.

(* ================================================================= *)
(** ** The controllers' query helpers *)

(** The fields of [req.query] that [parsePagination] reads; a field is
    [None] when the parameter is not in the query string. *)
Record Query := {
  q_page : option string;
  q_limit : option string;
  q_sort_by : option string;
  q_sort_order : option string
}.

(** The fields of [req.query] that [parseFilters] reads. *)
Record FilterQuery := {
  q_is_zombie : option string;
  q_severity : option string;
  q_min_score : option string;
  q_max_score : option string;
  q_date_from : option string;
  q_date_to : option string;
  q_llm_provider : option string
}.

(** The [pagination] object of a controller's reply. *)
Record Paging := {
  pg_page : Z;
  pg_limit : Z;
  pg_total : nat;
  pg_totalPages : number
}.

(** What a handler sends: the data it passes to [createApiResponse] with
    status 200, or an error reply with its status code.  A handler's
    [catch] branch calls [handleControllerError], which answers 500 for
    an error that carries no status of its own. *)
Inductive Reply (A : Type) :=
| Sent (data : A)
| Refused (statusCode : Z).
Arguments Sent {A} data.
Arguments Refused {A} statusCode.

(** [Object.keys(filters).length > 0] *)
Definition hasKeys (filters : FilterParams) : bool :=
  match f_is_zombie filters with Some _ => true | None => false end
  || match f_severity filters with Some _ => true | None => false end
  || match min_score filters with Some _ => true | None => false end
  || match max_score filters with Some _ => true | None => false end
  || match date_from filters with Some _ => true | None => false end
  || match date_to filters with Some _ => true | None => false end
  || match llm_provider filters with Some _ => true | None => false end.

(** A query-string field that is kept when it is truthy. *)
Definition keepTruthy (x : option string) : option string :=
  if JS.truthy_str x then x else None.

(* ================================================================= *)
(** ** [utils/apiHelpers.ts] *)

Module ApiHelpers.

Definition parseNumericQuery (value : option string) (defaultValue : Z)
           (min max : option Z) : Z :=
  match JS.parseInt value with
  | None => defaultValue
  | Some parsed =>
      let result :=
        match min with
        | Some lo => if parsed <? lo then lo else parsed
        | None => parsed
        end in
      match max with
      | Some hi => if result >? hi then hi else result
      | None => result
      end
  end.

End ApiHelpers.

Module PromptsController.

Definition parsePagination (query : Query) : PaginationParams :=
  {| page := JS.parseInt_or (q_page query) 1;
     limit := Z.min (JS.parseInt_or (q_limit query) 20) 100;
     sort_by := Some (match q_sort_by query with
                      | Some s => if JS.truthy_str (Some s) then s else "timestamp"
                      | None => "timestamp"
                      end);
     sort_order := Some (match q_sort_order query with
                         | Some o => if (o =? "asc")%string then asc else desc
                         | None => desc
                         end) |}.

Definition parseFilters `{NumberRuntime} (query : FilterQuery) : FilterParams :=
  {| f_is_zombie := option_map (fun v => (v =? "true")%string) (q_is_zombie query);
     f_severity := keepTruthy (q_severity query);
     min_score := option_map parseFloat (q_min_score query);
     max_score := option_map parseFloat (q_max_score query);
     date_from := keepTruthy (q_date_from query);
     date_to := keepTruthy (q_date_to query);
     llm_provider := keepTruthy (q_llm_provider query) |}.

(** The callback of the filter that [getAllPrompts] writes inline. *)
Definition passesInline (filters : FilterParams) (result : EvaluationResult) : bool :=
  if match f_is_zombie filters with
     | Some z => negb (Bool.eqb (is_zombie (zombie_status result)) z)
     | None => false
     end
  then false
  else if match f_severity filters with
          | Some s => negb (s =? EmptyString)%string
                      && negb (severity (zombie_status result) =? s)%string
          | None => false
          end
  then false
  else if match min_score filters with
          | Some m => JS.lt (overall_score (zombie_status result)) m
          | None => false
          end
  then false
  else if match max_score filters with
          | Some m => JS.gt (overall_score (zombie_status result)) m
          | None => false
          end
  then false
  else true.

(** The data of GET /api/prompts. *)
Record PromptsData := {
  prompts : list EvaluationResult;
  prompts_pagination : Paging
}.

Definition getAllPrompts `{NumberRuntime} (query : Query) (fquery : FilterQuery)
  : M (Reply PromptsData) :=
  try_catch
    (let filters := parseFilters fquery in
     let pagination := parsePagination query in
     results <- GraveyardService.getAllResults ;;
     let filteredResults :=
       if hasKeys filters then filter (passesInline filters) results else results in
     let total := List.length filteredResults in
     let startIndex := (page pagination - 1) * limit pagination in
     let paginatedResults :=
       JS.slice filteredResults startIndex (startIndex + limit pagination) in
     ret (Sent {| prompts := paginatedResults;
                  prompts_pagination :=
                    {| pg_page := page pagination;
                       pg_limit := limit pagination;
                       pg_total := total;
                       pg_totalPages := JS.ceil_div total (limit pagination) |} |}))
    (fun _ => ret (Refused 500)).

End PromptsController.

Module ResultsController.
Section WithDate.
Context `{DateRuntime}.

Definition parsePagination (query : Query) : PaginationParams :=
  {| page := JS.parseInt_or (q_page query) 1;
     limit := Z.min (JS.parseInt_or (q_limit query) 20) 100;
     sort_by := Some (match q_sort_by query with
                      | Some s => if JS.truthy_str (Some s) then s else "timestamp"
                      | None => "timestamp"
                      end);
     sort_order := Some (match q_sort_order query with
                         | Some o => if (o =? "asc")%string then asc else desc
                         | None => desc
                         end) |}.

Definition calculateAverageLatency (results : list EvaluationResult) : number :=
  if (List.length results =? 0)%nat then 0%float
  else
    let totalLatency :=
      fold_left
        (fun sum result =>
           let responseLatencies :=
             map (fun resp => match latency_ms resp with
                              | Some l => l
                              | None => PrimFloat.nan
                              end)
                 (filter (fun resp => match latency_ms resp with
                                      | Some _ => true
                                      | None => false
                                      end)
                         (map snd (llm_responses result))) in
           let avgLatency :=
             if (0 <? List.length responseLatencies)%nat
             then (fold_left PrimFloat.add responseLatencies 0
                   / JS.of_nat (List.length responseLatencies))%float
             else 0%float in
           (sum + avgLatency)%float)
        results 0%float in
    (totalLatency / JS.of_nat (List.length results))%float.

(** The comparator of the controller's own [sortResults]. *)
Definition comparator (sortBy : string) (order : SortOrder)
           (a b : EvaluationResult) : number :=
  let compareValues (aValue bValue : number) : number :=
    match order with
    | asc => if JS.lt aValue bValue then (-1)%float
             else if JS.gt aValue bValue then 1%float else 0%float
    | desc => if JS.gt aValue bValue then (-1)%float
              else if JS.lt aValue bValue then 1%float else 0%float
    end in
  if (sortBy =? "score")%string then
    compareValues (overall_score (zombie_status a)) (overall_score (zombie_status b))
  else if (sortBy =? "timestamp")%string then
    compareValues (Date_getTime (timestamp a)) (Date_getTime (timestamp b))
  else if (sortBy =? "cost")%string then
    compareValues
      (fold_left (fun sum resp => (sum + JS.or_zero (cost_usd resp))%float)
                 (map snd (llm_responses a)) 0%float)
      (fold_left (fun sum resp => (sum + JS.or_zero (cost_usd resp))%float)
                 (map snd (llm_responses b)) 0%float)
  else if (sortBy =? "latency")%string then
    compareValues (calculateAverageLatency [a]) (calculateAverageLatency [b])
  else 0%float.

Definition sortResults (results : list EvaluationResult) (sortBy : string)
           (order : SortOrder) : list EvaluationResult :=
  JS.sort (comparator sortBy order) results.

Context `{NumberRuntime}.

Definition parseFilters (query : FilterQuery) : FilterParams :=
  {| f_is_zombie := option_map (fun v => (v =? "true")%string) (q_is_zombie query);
     f_severity := keepTruthy (q_severity query);
     min_score := option_map parseFloat (q_min_score query);
     max_score := option_map parseFloat (q_max_score query);
     date_from := None;
     date_to := None;
     llm_provider := keepTruthy (q_llm_provider query) |}.

(** The callback of the controller's own [applyFilters]. *)
Definition passesFilters (filters : FilterParams) (result : EvaluationResult) : bool :=
  if match f_is_zombie filters with
     | Some z => negb (Bool.eqb (is_zombie (zombie_status result)) z)
     | None => false
     end
  then false
  else if match f_severity filters with
          | Some s => negb (s =? EmptyString)%string
                      && negb (severity (zombie_status result) =? s)%string
          | None => false
          end
  then false
  else if match min_score filters with
          | Some m => JS.lt (overall_score (zombie_status result)) m
          | None => false
          end
  then false
  else if match max_score filters with
          | Some m => JS.gt (overall_score (zombie_status result)) m
          | None => false
          end
  then false
  else if JS.truthy_str (llm_provider filters)
          && match llm_provider filters with
             | Some p =>
                 negb (existsb (fun k => (k =? p)%string)
                               (map fst (llm_responses result)))
             | None => false
             end
  then false
  else true.

Definition applyFilters (results : list EvaluationResult) (filters : FilterParams)
  : list EvaluationResult :=
  filter (passesFilters filters) results.

(** The data of GET /api/results. *)
Record ResultsData := {
  results : list EvaluationResult;
  results_pagination : Paging;
  filters_applied : FilterParams;
  sort_applied : option string * option SortOrder
}.

Definition getAllResults (query : Query) (fquery : FilterQuery)
  : M (Reply ResultsData) :=
  try_catch
    (let pagination := parsePagination query in
     let filters := parseFilters fquery in
     allResults <- GraveyardService.getAllResults ;;
     let filteredResults :=
       if hasKeys filters then applyFilters allResults filters else allResults in
     let sortedResults :=
       if JS.truthy_str (sort_by pagination)
       then sortResults filteredResults
              (match sort_by pagination with Some b => b | None => EmptyString end)
              (match sort_order pagination with Some o => o | None => desc end)
       else filteredResults in
     let total := List.length sortedResults in
     let startIndex := (page pagination - 1) * limit pagination in
     let paginatedResults :=
       JS.slice sortedResults startIndex (startIndex + limit pagination) in
     ret (Sent {| results := paginatedResults;
                  results_pagination :=
                    {| pg_page := page pagination;
                       pg_limit := limit pagination;
                       pg_total := total;
                       pg_totalPages := JS.ceil_div total (limit pagination) |};
                  filters_applied := filters;
                  sort_applied := (sort_by pagination, sort_order pagination) |}))
    (fun _ => ret (Refused 500)).

(** The data of GET /api/results/by-date. *)
Record DateRangeData := {
  date_range : string * string;
  dr_results : list EvaluationResult;
  dr_pagination : Paging
}.

Definition getResultsByDateRange (start_date end_date : option string) (query : Query)
  : M (Reply DateRangeData) :=
  try_catch
    (let pagination := parsePagination query in
     match keepTruthy start_date, keepTruthy end_date with
     | Some start_, Some end_ =>
         allResults <- GraveyardService.getAllResults ;;
         let startDateTime := Date_getTime start_ in
         let endDateTime := Date_getTime end_ in
         let dateFilteredResults :=
           filter (fun result =>
                     JS.ge (Date_getTime (timestamp result)) startDateTime
                     && JS.le (Date_getTime (timestamp result)) endDateTime)
                  allResults in
         let total := List.length dateFilteredResults in
         let startIndex := (page pagination - 1) * limit pagination in
         let paginatedResults :=
           JS.slice dateFilteredResults startIndex (startIndex + limit pagination) in
         ret (Sent {| date_range := (start_, end_);
                      dr_results := paginatedResults;
                      dr_pagination :=
                        {| pg_page := page pagination;
                           pg_limit := limit pagination;
                           pg_total := total;
                           pg_totalPages := JS.ceil_div total (limit pagination) |} |})
     | _, _ => ret (Refused 400)
     end)
    (fun _ => ret (Refused 500)).

(** One entry of [calculateProviderStats]; [success_rate] is [None] until
    the second loop assigns it. *)
Record ProviderStats := {
  total_calls : nat;
  successful_calls : nat;
  failed_calls : nat;
  total_cost : number;
  total_latency : number;
  avg_cost : number;
  avg_latency : number;
  success_rate : option number
}.

Definition newProviderStats : ProviderStats :=
  {| total_calls := 0; successful_calls := 0; failed_calls := 0;
     total_cost := 0%float; total_latency := 0%float;
     avg_cost := 0%float; avg_latency := 0%float; success_rate := None |}.

(** The body of the inner loop, for one response of the provider. *)
Definition recordCall (response : LLMResponse) (stats : ProviderStats) : ProviderStats :=
  if JS.truthy_str (error response)
  then {| total_calls := S (total_calls stats);
          successful_calls := successful_calls stats;
          failed_calls := S (failed_calls stats);
          total_cost := total_cost stats;
          total_latency := total_latency stats;
          avg_cost := avg_cost stats;
          avg_latency := avg_latency stats;
          success_rate := success_rate stats |}
  else {| total_calls := S (total_calls stats);
          successful_calls := S (successful_calls stats);
          failed_calls := failed_calls stats;
          total_cost := (total_cost stats + JS.or_zero (cost_usd response))%float;
          total_latency := (total_latency stats + JS.or_zero (latency_ms response))%float;
          avg_cost := avg_cost stats;
          avg_latency := avg_latency stats;
          success_rate := success_rate stats |}.

(** [providerStats[provider]] created when missing, then updated.  As
    for [bump], the list stands for the object when no provider is a
    property name inherited from [Object.prototype], for which
    [!providerStats[provider]] is false before any entry exists. *)
Fixpoint tally (provider : string) (response : LLMResponse)
         (acc : list (string * ProviderStats)) : list (string * ProviderStats) :=
  match acc with
  | [] => [(provider, recordCall response newProviderStats)]
  | (k, st) :: t =>
      if (k =? provider)%string then (k, recordCall response st) :: t
      else (k, st) :: tally provider response t
  end.

(** The second loop: averages over the successful calls, and the rate. *)
Definition finish (stats : ProviderStats) : ProviderStats :=
  {| total_calls := total_calls stats;
     successful_calls := successful_calls stats;
     failed_calls := failed_calls stats;
     total_cost := total_cost stats;
     total_latency := total_latency stats;
     avg_cost := if (0 <? successful_calls stats)%nat
                 then (total_cost stats / JS.of_nat (successful_calls stats))%float
                 else avg_cost stats;
     avg_latency := if (0 <? successful_calls stats)%nat
                    then (total_latency stats / JS.of_nat (successful_calls stats))%float
                    else avg_latency stats;
     success_rate := Some (JS.of_nat (successful_calls stats)
                           / JS.of_nat (total_calls stats))%float |}.

Definition calculateProviderStats (results : list EvaluationResult)
  : list (string * ProviderStats) :=
  let providerStats :=
    fold_left
      (fun acc result =>
         fold_left (fun acc' entry => tally (fst entry) (snd entry) acc')
                   (llm_responses result) acc)
      results [] in
  map (fun kv => (fst kv, finish (snd kv))) providerStats.

End WithDate.
End ResultsController.

(* ================================================================= *)
(** ** The specification's vocabulary *)

(** These definitions follow the wording of the specification; the
    theorems below compare them with the functions embedded above. *)

Module Spec.
Section WithDate.
Context `{DateRuntime}.

(** The arithmetic mean of a sequence of numbers. *)
Definition mean (xs : list number) : number :=
  (fold_left PrimFloat.add xs 0 / JS.of_nat (List.length xs))%float.

(** The provider latencies of a record that reported a value. *)
Definition reportedLatencies (r : EvaluationResult) : list number :=
  flat_map (fun kv => match latency_ms (snd kv) with
                      | Some l => [l]
                      | None => []
                      end)
           (llm_responses r).

(** A record's own mean latency; 0 when no provider reported one. *)
Definition recordMeanLatency (r : EvaluationResult) : number :=
  match reportedLatencies r with
  | [] => 0%float
  | ls => mean ls
  end.

(** The two-level average: the mean, across records, of each record's
    own mean. *)
Definition twoLevelMeanLatency (results : list EvaluationResult) : number :=
  mean (map recordMeanLatency results).

(** The flat mean of every reported provider latency. *)
Definition flatMeanLatency (results : list EvaluationResult) : number :=
  mean (flat_map reportedLatencies results).

(** A predicate of the filter that is absent imposes no constraint.  A
    string-valued predicate counts as supplied when it is a non-empty
    string. *)
Definition whenSupplied {A : Type} (o : option A) (p : A -> bool) : bool :=
  match o with
  | Some v => p v
  | None => true
  end.

Definition whenSuppliedStr (o : option string) (p : string -> bool) : bool :=
  match o with
  | Some s => if (s =? EmptyString)%string then true else p s
  | None => true
  end.

(** The conjunction of the supplied predicates: zombie flag, exact
    severity, inclusive score range, inclusive timestamp range, and
    "has a response from provider P". *)
Definition satisfies (f : FilterParams) (r : EvaluationResult) : bool :=
  whenSupplied (f_is_zombie f) (fun z => Bool.eqb (is_zombie (zombie_status r)) z)
  && whenSuppliedStr (f_severity f) (fun s => (severity (zombie_status r) =? s)%string)
  && whenSupplied (min_score f) (fun m => JS.ge (overall_score (zombie_status r)) m)
  && whenSupplied (max_score f) (fun m => JS.le (overall_score (zombie_status r)) m)
  && whenSuppliedStr (date_from f)
       (fun d => JS.ge (Date_getTime (timestamp r)) (Date_getTime d))
  && whenSuppliedStr (date_to f)
       (fun d => JS.le (Date_getTime (timestamp r)) (Date_getTime d))
  && whenSuppliedStr (llm_provider f)
       (fun p => existsb (fun k => (k =? p)%string) (map fst (llm_responses r))).

(** The numbers a supplied predicate compares are numbers: where a score
    bound is supplied, neither it nor the record's score is [NaN]; where
    a date is supplied, it and the record's timestamp are dates. *)
Definition isNumber (x : number) : bool := negb (PrimFloat.is_nan x).

Definition comparable (f : FilterParams) (r : EvaluationResult) : bool :=
  whenSupplied (min_score f)
    (fun m => isNumber (overall_score (zombie_status r)) && isNumber m)
  && whenSupplied (max_score f)
       (fun m => isNumber (overall_score (zombie_status r)) && isNumber m)
  && whenSuppliedStr (date_from f)
       (fun d => isNumber (Date_getTime (timestamp r)) && isNumber (Date_getTime d))
  && whenSuppliedStr (date_to f)
       (fun d => isNumber (Date_getTime (timestamp r)) && isNumber (Date_getTime d)).

Definition satisfiesSupplied (filters : option FilterParams)
           (r : EvaluationResult) : bool :=
  match filters with
  | Some f => satisfies f r
  | None => true
  end.

(** What [getZombiePrompts] filters its snapshot down to, before it
    sorts and cuts. *)
Definition filteredZombies (filters : option FilterParams)
           (results : list EvaluationResult) : list EvaluationResult :=
  match filters with
  | Some f =>
      GraveyardService.applyFilters
        (filter (fun r => is_zombie (zombie_status r)) results) f
  | None => filter (fun r => is_zombie (zombie_status r)) results
  end.

(** The zombie records that satisfy the supplied predicates. *)
Definition matchingZombies (filters : option FilterParams)
           (results : list EvaluationResult) : list EvaluationResult :=
  filter (fun r => is_zombie (zombie_status r) && satisfiesSupplied filters r)
         results.

(** The filtered-and-sorted sequence a page is cut from: sorted by the
    named field when one is given (descending unless an order is
    given), in snapshot order otherwise. *)
Definition sortedFor (pagination : option PaginationParams)
           (filtered : list EvaluationResult) : list EvaluationResult :=
  match pagination with
  | Some p =>
      match sort_by p with
      | Some by_ =>
          if (by_ =? EmptyString)%string then filtered
          else GraveyardService.sortResults filtered by_
                 (match sort_order p with Some o => o | None => desc end)
      | None => filtered
      end
  | None => filtered
  end.



(** The resolution rule of a revival attempt. *)
Definition resolution (s : RevivalSuggestion) : RevivalStatus :=
  if JS.gt (confidence_score s) 0.6%float then Success else Failed.

(** The sort fields the query engine recognises. *)
Definition recognised (sortBy : string) : bool :=
  (sortBy =? "score")%string || (sortBy =? "timestamp")%string
  || (sortBy =? "cost")%string || (sortBy =? "latency")%string.

(** The entries of the ledger file, when it holds a readable log. *)
Definition entries (w : World) : list RevivalAttempt :=
  match ledger w with
  | Some (Stored log) => log
  | _ => []
  end.

(** The ledger can take an append: the file is absent or holds a log,
    and neither the read nor the write of the append fails. *)
Definition appendable (w : World) : bool :=
  negb (ledger_fault w (ledger_ops w))
  && negb (ledger_fault w (S (ledger_ops w)))
  && match ledger w with
     | Some Corrupt => false
     | _ => true
     end.

(** The status update of an attempt cannot be persisted: after the two
    accesses of the append, the read or the write of the update fails. *)
Definition updateFails (w : World) : bool :=
  ledger_fault w (S (S (ledger_ops w)))
  || ledger_fault w (S (S (S (ledger_ops w)))).

(** Reading the ledger's backing store fails with a storage or parse
    error: the access fails, or the document does not parse. *)
Definition ledgerUnreadable (w : World) : bool :=
  ledger_fault w (ledger_ops w)
  || match ledger w with
     | Some Corrupt => true
     | _ => false
     end.

(** The pending attempt that [revivePrompt] creates for suggestion [s] of
    record [r], under identifier [id] at clock reading [t]. *)
Definition attemptOf (req : RevivalRequest) (r : EvaluationResult)
           (s : RevivalSuggestion) (id : string) (t : Z) : RevivalAttempt :=
  {| ra_revival_id := id;
     ra_prompt_id := req_prompt_id req;
     ra_original_prompt := prompt_text r;
     ra_improved_prompt := improved_prompt s;
     ra_suggestion_index := suggestion_index req;
     ra_strategy := strategy s;
     ra_confidence_score := confidence_score s;
     ra_expected_improvements := expected_improvements s;
     ra_timestamp := Date_toISOString t;
     ra_user_feedback := user_feedback req;
     status := Pending |}.

(** The outcome handed to the caller once the attempt is resolved. *)
Definition resolvedOutcome (r : EvaluationResult) (s : RevivalSuggestion)
           (id : string) : RevivalResponse :=
  {| success := JS.gt (confidence_score s) 0.6%float;
     message := if JS.gt (confidence_score s) 0.6%float
                then MsgRevived (strategy s) else MsgResisted;
     original_prompt := prompt_text r;
     resp_improved_prompt := improved_prompt s;
     resp_expected_improvements := expected_improvements s;
     revival_id := id |}.

(** The structured outcome of a request that is turned down: the record
    is alive, or the suggestion index points at nothing. *)
Definition declinedOutcome (r : EvaluationResult) (m : Message) : RevivalResponse :=
  {| success := false;
     message := m;
     original_prompt := prompt_text r;
     resp_improved_prompt := EmptyString;
     resp_expected_improvements := [];
     revival_id := EmptyString |}.

(** The outcome of a call that was cut short by an exception. *)
Definition interruptedOutcome : RevivalResponse :=
  {| success := false;
     message := MsgInterrupted;
     original_prompt := EmptyString;
     resp_improved_prompt := EmptyString;
     resp_expected_improvements := [];
     revival_id := EmptyString |}.

(** The all-zero statistics of the ledger. *)
Definition noRevivalStats : RevivalService.RevivalStats :=
  {| RevivalService.total_attempts := 0;
     RevivalService.successful_revivals := 0;
     RevivalService.success_rate := 0%float;
     RevivalService.most_successful_strategy := "none";
     RevivalService.recent_revivals := [] |}.

(** Request [req] in world [w] names a zombie record [r] and an index
    within its suggestions, at which [s] stands. *)
Definition reaches (req : RevivalRequest) (w : World)
           (r : EvaluationResult) (s : RevivalSuggestion) : Prop :=
  (exists w1,
      GraveyardService.getResultById (req_prompt_id req) w = (Return (Some r), w1))
  /\ is_zombie (zombie_status r) = true
  /\ JS.index (revival_suggestions r) (suggestion_index req) = Some s.

(** Request [req] in world [w] reaches suggestion [s]: the record is
    found, it is a zombie, the index is within bounds, and the ledger can
    take the new attempt. *)
Definition revivable (req : RevivalRequest) (w : World)
           (r : EvaluationResult) (s : RevivalSuggestion) : Prop :=
  (exists w1,
      GraveyardService.getResultById (req_prompt_id req) w = (Return (Some r), w1))
  /\ is_zombie (zombie_status r) = true
  /\ JS.index (revival_suggestions r) (suggestion_index req) = Some s
  /\ appendable w = true.

(** The cached snapshot is still within the staleness window at clock
    reading [t]; otherwise it is stale. *)
Definition fresh (t : Z) (w : World) : Prop :=
  t - lastCacheUpdate w <= GraveyardService.cacheTimeout.

Definition stale (t : Z) (w : World) : Prop :=
  GraveyardService.cacheTimeout < t - lastCacheUpdate w.

(** Every line of the log parses, and to which records. *)
Fixpoint parseAll (ls : list Line) : option (list EvaluationResult) :=
  match ls with
  | [] => Some []
  | Parsed r :: t => option_map (cons r) (parseAll t)
  | Garbled :: t => None
  end.

(** What the next read of the backing source will find: no source at
    all; a source that cannot be read (permission, I/O) or that holds a
    line that does not parse; or a well-formed log. *)
Inductive SourceState :=
| SourceAbsent
| SourceBroken
| SourceHolds (records : list EvaluationResult).

Definition sourceState (w : World) : SourceState :=
  if source_fault w (source_reads w) then SourceBroken
  else match source w with
       | None => SourceAbsent
       | Some ls => match parseAll ls with
                    | Some rs => SourceHolds rs
                    | None => SourceBroken
                    end
       end.

(** *** Vocabulary of the further properties *)

(** Two elements the sort may leave next to each other, in this order:
    the comparator does not put the first after the second. *)
Definition notAfter {A : Type} (cmp : A -> A -> number) (a b : A) : Prop :=
  JS.gt (cmp a b) 0%float = false.

(** The value [sortResults] compares for a recognised field. *)
Definition sortKey (sortBy : string) (r : EvaluationResult) : number :=
  if (sortBy =? "score")%string then overall_score (zombie_status r)
  else if (sortBy =? "timestamp")%string then Date_getTime (timestamp r)
  else if (sortBy =? "cost")%string then GraveyardService.responsesCost r
  else GraveyardService.calculateAverageLatency [r].

(** Two neighbours of a sorted sequence are in order: ascending, the first
    is not greater than the second; descending, it is not smaller. *)
Definition inOrder (order : SortOrder) (a b : number) : Prop :=
  match order with
  | asc => JS.gt a b = false
  | desc => JS.lt a b = false
  end.

(** The comparator of [sortResults] is consistent on a list: for a
    recognised field every value compared is a number, so that the
    comparator is a total preorder on the list and the language fixes the
    result of a stable sort.  (A NaN value compares equal to everything,
    and the order then depends on the engine.) *)
Definition consistentOn (sortBy : string) (results : list EvaluationResult) : Prop :=
  recognised sortBy = true ->
  forall r, In r results -> isNumber (sortKey sortBy r) = true.

(** The property names every object inherits from [Object.prototype].  A
    counter kept in a plain object reads them as present before anything
    is counted, so a key is counted as written only when it is none of
    them. *)
Definition inheritedNames : list string :=
  ["__proto__"; "constructor"; "hasOwnProperty"; "isPrototypeOf";
   "propertyIsEnumerable"; "toLocaleString"; "toString"; "valueOf";
   "__defineGetter__"; "__defineSetter__"; "__lookupGetter__";
   "__lookupSetter__"].

Definition plainKey (k : string) : bool :=
  negb (existsb (String.eqb k) inheritedNames).

(** The items of a zombie page, nothing for a call that threw. *)
Definition itemsOf (run : Outcome GraveyardService.ZombiePage * World)
  : list PromptSummary :=
  match fst run with
  | Return out => GraveyardService.zombies out
  | Throw _ => []
  end.

(** The page numbers 1 .. n. *)
Definition pagesUpTo (n : nat) : list Z := map Z.of_nat (seq 1 n).

(** The total of the counts of a counter object, and the count it holds
    for a key (0 when the key is absent). *)
Definition sumCounts (acc : list (string * nat)) : nat :=
  fold_right (fun kv n => (snd kv + n)%nat) 0%nat acc.

Fixpoint countFor (k : string) (acc : list (string * nat)) : nat :=
  match acc with
  | [] => 0%nat
  | (k', n) :: t => if (k' =? k)%string then n else countFor k t
  end.

(** A ledger entry with its status blanked: what an attempt is apart from
    its status. *)
Definition apartFromStatus (a : RevivalAttempt) : RevivalAttempt :=
  set_status Pending a.

(** The identifier the next [uuidv4()] returns is carried by no entry of
    the ledger. *)
Definition freshId (w : World) : bool :=
  forallb (fun a => negb (ra_revival_id a =? uuid_gen w (uuid_count w))%string)
          (entries w).

(** A filter without its dates, and without its dates and provider. *)
Definition withoutDates (f : FilterParams) : FilterParams :=
  {| f_is_zombie := f_is_zombie f; f_severity := f_severity f;
     min_score := min_score f; max_score := max_score f;
     date_from := None; date_to := None; llm_provider := llm_provider f |}.

Definition withoutDatesAndProvider (f : FilterParams) : FilterParams :=
  {| f_is_zombie := f_is_zombie f; f_severity := f_severity f;
     min_score := min_score f; max_score := max_score f;
     date_from := None; date_to := None; llm_provider := None |}.

(** The outcome for a prompt id that no record carries. *)
Definition notFoundOutcome : RevivalResponse :=
  {| success := false;
     message := MsgNotFound;
     original_prompt := EmptyString;
     resp_improved_prompt := EmptyString;
     resp_expected_improvements := [];
     revival_id := EmptyString |}.

(** The number of provider responses held by a list of records, and the
    number of calls a table of provider statistics accounts for. *)
Definition responseCount (results : list EvaluationResult) : nat :=
  List.length (flat_map llm_responses results).

Definition callsTotal (stats : list (string * ResultsController.ProviderStats)) : nat :=
  fold_right (fun kv n => (ResultsController.total_calls (snd kv) + n)%nat) 0%nat stats.

(** The calls of an entry are its successes and its failures, and there
    is at least one. *)
Definition balanced (st : ResultsController.ProviderStats) : Prop :=
  ResultsController.total_calls st
  = (ResultsController.successful_calls st + ResultsController.failed_calls st)%nat
  /\ (1 <= ResultsController.total_calls st)%nat.

End WithDate.
End Spec.

(* ================================================================= *)
(** ** Sample data *)

Module Sample.

Definition stamp : string := "2024-01-15T10:30:00.000Z".

(** A [Date] that knows the timestamp of the sample records. *)
Definition date : DateRuntime :=
  {| Date_getTime := fun s =>
       if (s =? stamp)%string then 1705314600000%float else PrimFloat.nan;
     Date_toISOString := fun _ => stamp |}.

Definition reply (latency cost : option number) : LLMResponse :=
  {| response := Some "ok"; latency_ms := latency; cost_usd := cost;
     llm_timestamp := stamp; model := None; error := None |}.

Definition advice (confidence : number) : RevivalSuggestion :=
  {| improved_prompt := "Explain recursion with one worked example.";
     strategy := "clarity";
     technique := "add_specificity";
     reasoning := "the prompt is too vague";
     confidence_score := confidence;
     expected_improvements := [("clarity", 0.25%float)] |}.

Definition record (id : string) (score : number) (sev : string) (zombie : bool)
           (replies : list (string * LLMResponse))
           (advices : list RevivalSuggestion) : EvaluationResult :=
  {| prompt_id := id; file_path := "prompts/sample.txt";
     prompt_text := "explain recursion"; timestamp := stamp;
     llm_responses := replies; metrics := [];
     zombie_status :=
       {| is_zombie := zombie; overall_score := score; severity := sev;
          visual_theme := "fog"; revival_priority := "medium";
          failed_critical_metrics := []; reason := EmptyString |};
     revival_suggestions := advices |}.

(** A zombie with three reported latencies and a confident suggestion. *)
Definition shambler : EvaluationResult :=
  record "shambler" 0.57%float "shambling_zombie" true
         [("openai", reply (Some 100%float) (Some 0.5%float));
          ("anthropic", reply (Some 200%float) None);
          ("cohere", reply (Some 300%float) (Some 0.25%float))]
         [advice 0.75%float].

(** A zombie whose only suggestion is below the threshold. *)
Definition doubter : EvaluationResult :=
  record "doubter" 0.57%float "shambling_zombie" true
         [("openai", reply None None)]
         [advice 0.4%float].

(** A living record with one reported latency. *)
Definition survivor : EvaluationResult :=
  record "survivor" 0.84%float "alive" false
         [("openai", reply (Some 500%float) (Some 1%float))]
         [].

Definition no_fault : nat -> bool := fun _ => false.
Definition always_fault : nat -> bool := fun _ => true.
(** Only the access number [n] fails. *)
Definition fault_at (n : nat) : nat -> bool := fun k => (k =? n)%nat.

Definition world (src : option (list Line)) (src_fault : nat -> bool)
           (led : option LedgerText) (led_fault : nat -> bool)
           (clock : Z) (cache : list EvaluationResult) (last : Z) : World :=
  {| source := src; source_fault := src_fault; source_reads := 0;
     ledger := led; ledger_fault := led_fault; ledger_ops := 0;
     now := clock; uuid_gen := fun n => String (ascii_of_nat (97 + n)) "-uuid";
     uuid_count := 0;
     cachedResults := cache; lastCacheUpdate := last |}.

Definition graveyard : list EvaluationResult := [shambler; survivor; doubter].

(** A freshly started service over a three-record results file. *)
Definition started : World :=
  world (Some (map Parsed graveyard)) no_fault None no_fault 1705314600000 [] 0.

(** A service that cached [graveyard] at time 1000 and is asked again at
    time 2000. *)
Definition warm : World :=
  world (Some (map Parsed graveyard)) no_fault None no_fault 2000 graveyard 1000.

(** The cache holds [graveyard] from time 1000, it is now 60000, and
    results.json cannot be read any more. *)
Definition haunted : World :=
  world (Some (map Parsed graveyard)) always_fault None no_fault 60000 graveyard 1000.

(** As [haunted], but the file can be read and its second line is not
    JSON. *)
Definition garbled : World :=
  world (Some [Parsed shambler; Garbled]) no_fault None no_fault 60000 graveyard 1000.

(** As [haunted], but results.json is gone. *)
Definition emptied : World :=
  world None no_fault None no_fault 60000 graveyard 1000.

(** An attempt on [shambler] that was resolved earlier. *)
Definition earlier : RevivalAttempt :=
  {| ra_revival_id := "z-uuid"; ra_prompt_id := "shambler";
     ra_original_prompt := "explain recursion";
     ra_improved_prompt := "Explain recursion with one worked example.";
     ra_suggestion_index := 0; ra_strategy := "clarity";
     ra_confidence_score := 0.75%float;
     ra_expected_improvements := [("clarity", 0.25%float)];
     ra_timestamp := stamp; ra_user_feedback := None; status := Success |}.

(** The ledger holds [earlier], but revival_log.json cannot be read. *)
Definition cursed : World :=
  world (Some (map Parsed graveyard)) no_fault
        (Some (Stored [earlier])) always_fault 1705314600000 [] 0.

(** The ledger holds [earlier]; the append of the next attempt goes
    through, then the write of its status update fails. *)
Definition flaky : World :=
  world (Some (map Parsed graveyard)) no_fault
        (Some (Stored [earlier])) (fault_at 3) 1705314600000 [] 0.

(** The ledger file is there but the append cannot write to it. *)
Definition sealed : World :=
  world (Some (map Parsed graveyard)) no_fault
        (Some (Stored [earlier])) (fault_at 1) 1705314600000 [] 0.

Definition onlyLiving : FilterParams :=
  {| f_is_zombie := Some false; f_severity := None; min_score := None;
     max_score := None; date_from := None; date_to := None;
     llm_provider := None |}.

Definition shamblingOnly : FilterParams :=
  {| f_is_zombie := Some true; f_severity := Some "shambling_zombie";
     min_score := Some 0.5%float; max_score := Some 0.6%float;
     date_from := Some stamp; date_to := Some stamp;
     llm_provider := Some "openai" |}.

Definition byScore (page_ limit_ : Z) : PaginationParams :=
  {| page := page_; limit := limit_; sort_by := Some "score";
     sort_order := Some asc |}.

Definition filterNone : FilterParams :=
  {| f_is_zombie := None; f_severity := None; min_score := None;
     max_score := None; date_from := None; date_to := None;
     llm_provider := None |}.

Definition request (id : string) (i : Z) : RevivalRequest :=
  {| req_prompt_id := id; suggestion_index := i; user_feedback := None |}.

Definition query (page_ limit_ : option string) : Query :=
  {| q_page := page_; q_limit := limit_; q_sort_by := None; q_sort_order := None |}.

(** The same request, asking for an ascending sort by score. *)
Definition sortedQuery (page_ limit_ : option string) : Query :=
  {| q_page := page_; q_limit := limit_;
     q_sort_by := Some "score"; q_sort_order := Some "asc" |}.

(** A [parseFloat] that knows the one bound the sample requests use. *)
Definition number : NumberRuntime :=
  {| parseFloat := fun s =>
       if (s =? "0.5")%string then 0.5%float else PrimFloat.nan |}.

(** The filter part of a query string: is_zombie, one value for both
    dates, and a provider. *)
Definition ask (zombie day provider : option string) : FilterQuery :=
  {| q_is_zombie := zombie; q_severity := None;
     q_min_score := None; q_max_score := None;
     q_date_from := day; q_date_to := day; q_llm_provider := provider |}.

End Sample.

(* ================================================================= *)
(** ** Facts about the runtime *)

Section RuntimeFacts.
Context {A : Type}.

Lemma insert_Permutation (cmp : A -> A -> number) (x : A) (l : list A) :
  Permutation (JS.insert cmp x l) (x :: l).
Proof.
  induction l as [|y t IH]; simpl.
  - apply Permutation_refl.
  - destruct (JS.gt (cmp x y) 0%float).
    + eapply perm_trans; [apply perm_skip, IH | apply perm_swap].
    + apply Permutation_refl.
Qed.

Lemma sort_Permutation (cmp : A -> A -> number) (l : list A) :
  Permutation (JS.sort cmp l) l.
Proof.
  induction l as [|x t IH]; simpl.
  - apply perm_nil.
  - eapply perm_trans; [apply insert_Permutation | apply perm_skip, IH].
Qed.

Lemma sort_length (cmp : A -> A -> number) (l : list A) :
  List.length (JS.sort cmp l) = List.length l.
Proof. apply Permutation_length, sort_Permutation. Qed.

(** A comparator that calls every pair equal leaves the array as it is. *)
Lemma sort_all_equal (cmp : A -> A -> number) (l : list A) :
  (forall a b, cmp a b = 0%float) -> JS.sort cmp l = l.
Proof.
  intros Hcmp. induction l as [|x t IH]; [reflexivity|].
  change (JS.insert cmp x (JS.sort cmp t) = x :: t). rewrite IH.
  destruct t as [|y t']; simpl; [reflexivity|].
  rewrite Hcmp. reflexivity.
Qed.

(** [slice] with a start and a size that are not negative is the window
    of that size at that start. *)
Lemma slice_window (l : list A) (a n : Z) :
  0 <= a -> 0 <= n ->
  JS.slice l a (a + n) = firstn (Z.to_nat n) (skipn (Z.to_nat a) l).
Proof.
  intros Ha Hn. unfold JS.slice.
  destruct (a <? 0) eqn:Ea; [apply Z.ltb_lt in Ea; lia|].
  destruct (a + n <? 0) eqn:Ean; [apply Z.ltb_lt in Ean; lia|].
  set (len := Z.of_nat (List.length l)).
  destruct (Z_le_gt_dec a len) as [Hle|Hgt].
  - rewrite (Z.min_l a len) by lia.
    destruct (Z_le_gt_dec (a + n) len) as [Hle'|Hgt'].
    + rewrite Z.min_l by lia. f_equal. lia.
    + rewrite Z.min_r by lia.
      rewrite (firstn_all2 (n := Z.to_nat n)).
      * apply firstn_all2. rewrite length_skipn. unfold len. lia.
      * rewrite length_skipn. unfold len in *. lia.
  - rewrite (Z.min_r a len) by lia.
    rewrite (Z.min_r (a + n) len) by lia.
    rewrite Z.sub_diag. simpl.
    rewrite (skipn_all2 (n := Z.to_nat a)) by (unfold len in *; lia).
    now rewrite firstn_nil.
Qed.

(** Whatever its arguments, [slice] returns a contiguous run of the array. *)
Lemma slice_contiguous (l : list A) (a b : Z) :
  exists start count, JS.slice l a b = firstn count (skipn start l).
Proof. unfold JS.slice. eauto. Qed.

Lemma fold_left_add_map (f : A -> number) (l : list A) (acc : number) :
  fold_left (fun sum x => (sum + f x)%float) l acc
  = fold_left PrimFloat.add (map f l) acc.
Proof.
  revert acc. induction l as [|x t IH]; intros acc; simpl; [reflexivity|].
  apply IH.
Qed.

Lemma fold_left_ext_in {B : Type} (f g : B -> A -> B) (l : list A) (acc : B) :
  (forall b x, In x l -> f b x = g b x) ->
  fold_left f l acc = fold_left g l acc.
Proof.
  revert acc. induction l as [|x t IH]; intros acc Hfg; simpl; [reflexivity|].
  rewrite Hfg by (left; reflexivity).
  apply IH. intros b y Hy. apply Hfg. right. exact Hy.
Qed.

Lemma update_at_In (f : A -> A) (l : list A) (i : nat) (a x : A) :
  nth_error l i = Some x -> x <> a -> In a l -> In a (JS.update_at i f l).
Proof.
  revert i. induction l as [|y t IH]; intros i Hn Hx Hin; [destruct Hin|].
  destruct i as [|j]; simpl in *.
  - injection Hn as ->. destruct Hin as [->|Hin]; [congruence | now right].
  - destruct Hin as [->|Hin]; [now left | right; eauto].
Qed.

Lemma findIndex_Some (p : A -> bool) (l : list A) (i : nat) :
  JS.findIndex p l = Some i -> exists x, nth_error l i = Some x /\ p x = true.
Proof.
  revert i. induction l as [|y t IH]; intros i Hi; simpl in *; [discriminate|].
  destruct (p y) eqn:Ey.
  - injection Hi as <-. exists y. now split.
  - destruct (JS.findIndex p t) as [j|]; simpl in Hi; [|discriminate].
    injection Hi as <-. apply IH. reflexivity.
Qed.

End RuntimeFacts.

(** *** Order on numbers *)

Lemma SFcompare_antisym (x y : SpecFloat.spec_float) (c : comparison) :
  SpecFloat.SFcompare x y = Some c -> SpecFloat.SFcompare y x = Some (CompOpp c).
Proof.
  destruct x as [sx|sx| |sx mx ex], y as [sy|sy| |sy my ey]; simpl;
    try discriminate;
    try (intros [= <-]; repeat match goal with b : bool |- _ => destruct b end;
         reflexivity).
  intros [= <-]. f_equal.
  pose proof (Pos.compare_cont_antisym mx my Eq) as Hm. simpl in Hm.
  destruct sx, sy; simpl; try reflexivity;
    rewrite (Z.compare_antisym ex ey); destruct (ex ?= ey)%Z; simpl;
    try reflexivity; rewrite <- Hm;
    try rewrite CompOpp_involutive; reflexivity.
Qed.

Lemma isNumber_compare (x : number) :
  Spec.isNumber x = true ->
  SpecFloat.SFcompare (Prim2SF x) (Prim2SF x) = Some Eq.
Proof.
  unfold Spec.isNumber, PrimFloat.is_nan. rewrite negb_involutive.
  rewrite FloatAxioms.eqb_spec. unfold SpecFloat.SFeqb.
  destruct (SpecFloat.SFcompare (Prim2SF x) (Prim2SF x)) as [[]|]; congruence.
Qed.

Lemma numbers_compare (x y : number) :
  Spec.isNumber x = true -> Spec.isNumber y = true ->
  exists c, SpecFloat.SFcompare (Prim2SF x) (Prim2SF y) = Some c.
Proof.
  intros Hx%isNumber_compare Hy%isNumber_compare.
  destruct (Prim2SF x), (Prim2SF y); simpl in *; try discriminate; eauto.
Qed.

(** On numbers, "not below" is "at least" and "not above" is "at most". *)
Lemma not_lt_ge (x y : number) :
  Spec.isNumber x = true -> Spec.isNumber y = true ->
  negb (JS.lt x y) = JS.ge x y.
Proof.
  intros Hx Hy. unfold JS.lt, JS.ge.
  rewrite FloatAxioms.ltb_spec, FloatAxioms.leb_spec.
  unfold SpecFloat.SFltb, SpecFloat.SFleb.
  destruct (numbers_compare x y Hx Hy) as [c Hc].
  rewrite Hc, (SFcompare_antisym _ _ _ Hc). now destruct c.
Qed.

Lemma not_gt_le (x y : number) :
  Spec.isNumber x = true -> Spec.isNumber y = true ->
  negb (JS.gt x y) = JS.le x y.
Proof. intros Hx Hy. unfold JS.gt, JS.le. apply (not_lt_ge y x Hy Hx). Qed.

(* ================================================================= *)
(** ** The record cache *)

Section CacheFacts.
Context `{DateRuntime}.
Import GraveyardService.

Lemma mapM_parse (ls : list Line) (w : World) :
  mapM JSON_parse_line ls w
  = match Spec.parseAll ls with
    | Some rs => (Return rs, w)
    | None => (Throw SyntaxError, w)
    end.
Proof.
  induction ls as [|l t IH]; simpl; [reflexivity|].
  destruct l as [r|]; simpl; [|reflexivity].
  unfold bind at 1. simpl. unfold bind at 1. rewrite IH.
  destruct (Spec.parseAll t); reflexivity.
Qed.

(** One refresh, by what the source holds. *)
Lemma loadResultsFromFile_spec (w : World) :
  loadResultsFromFile w
  = let w' := with_source_reads (S (source_reads w)) w in
    match Spec.sourceState w with
    | Spec.SourceAbsent => (Return tt, with_cachedResults [] w')
    | Spec.SourceBroken => (Throw GraveyardAccessError, w')
    | Spec.SourceHolds rs => (Return tt, with_cachedResults rs w')
    end.
Proof.
  unfold loadResultsFromFile, try_catch, bind, readFile_results, Spec.sourceState.
  destruct (source_fault w (source_reads w)); [reflexivity|].
  destruct (source w) as [ls|]; [|reflexivity].
  rewrite mapM_parse. destruct (Spec.parseAll ls); reflexivity.
Qed.

Lemma getAllResults_fresh (w : World) :
  Spec.fresh (now w) w -> getAllResults w = (Return (cachedResults w), w).
Proof.
  unfold Spec.fresh. intros Hf.
  unfold getAllResults, refreshCacheIfNeeded, bind, Date_now, gets.
  assert (E : (now w - lastCacheUpdate w >? cacheTimeout) = false)
    by (rewrite Z.gtb_ltb; apply Z.ltb_ge; exact Hf).
  rewrite E. reflexivity.
Qed.

Lemma getAllResults_stale (w : World) :
  Spec.stale (now w) w ->
  getAllResults w
  = match loadResultsFromFile w with
    | (Return _, w1) => (Return (cachedResults w1), with_lastCacheUpdate (now w) w1)
    | (Throw e, w1) => (Throw e, w1)
    end.
Proof.
  unfold Spec.stale. intros Hs.
  unfold getAllResults, refreshCacheIfNeeded, bind, Date_now, gets.
  assert (E : (now w - lastCacheUpdate w >? cacheTimeout) = true)
    by (rewrite Z.gtb_ltb; apply Z.ltb_lt; exact Hs).
  rewrite E. destruct (loadResultsFromFile w) as [[u|e] w1]; reflexivity.
Qed.

(** Reading the cache never touches the ledger, the clock or the UUID
    source. *)
Lemma getAllResults_frame (w : World) :
  let w' := snd (getAllResults w) in
  ledger w' = ledger w /\ ledger_fault w' = ledger_fault w
  /\ ledger_ops w' = ledger_ops w /\ now w' = now w
  /\ uuid_gen w' = uuid_gen w /\ uuid_count w' = uuid_count w.
Proof.
  destruct (Z_le_gt_dec (now w - lastCacheUpdate w) cacheTimeout) as [Hf|Hs].
  - rewrite getAllResults_fresh by exact Hf. simpl. repeat split.
  - rewrite getAllResults_stale by (unfold Spec.stale; lia).
    rewrite loadResultsFromFile_spec.
    destruct (Spec.sourceState w); simpl; repeat split.
Qed.

Lemma getResultById_spec (promptId : string) (w : World) :
  getResultById promptId w
  = match getAllResults w with
    | (Return results, w1) =>
        (Return (JS.find (fun r => (prompt_id r =? promptId)%string) results), w1)
    | (Throw e, w1) => (Throw e, w1)
    end.
Proof.
  unfold getResultById, bind, ret.
  destruct (getAllResults w) as [[rs|e] w1]; reflexivity.
Qed.

Lemma getResultById_frame (promptId : string) (w : World) :
  let w' := snd (getResultById promptId w) in
  ledger w' = ledger w /\ ledger_fault w' = ledger_fault w
  /\ ledger_ops w' = ledger_ops w /\ now w' = now w
  /\ uuid_gen w' = uuid_gen w /\ uuid_count w' = uuid_count w.
Proof.
  rewrite getResultById_spec. pose proof (getAllResults_frame w) as Hf.
  destruct (getAllResults w) as [[rs|e] w1]; exact Hf.
Qed.

(** A call that succeeded, repeated while its snapshot is within the
    window, returns the same sequence and leaves the world as it is. *)
Lemma getAllResults_repeat (w w1 : World) (rs : list EvaluationResult) (t : Z) :
  getAllResults w = (Return rs, w1) ->
  Spec.fresh t w1 ->
  getAllResults (with_now t w1) = (Return rs, with_now t w1).
Proof.
  intros Hcall Hfresh.
  rewrite getAllResults_fresh by exact Hfresh. simpl. f_equal. f_equal.
  destruct (Z_le_gt_dec (now w - lastCacheUpdate w) cacheTimeout) as [Hf|Hs].
  - rewrite getAllResults_fresh in Hcall by exact Hf. congruence.
  - rewrite getAllResults_stale in Hcall by (unfold Spec.stale; lia).
    destruct (loadResultsFromFile w) as [[u|e] w2]; [|discriminate].
    injection Hcall as <- <-. reflexivity.
Qed.

(** C4.  When the cached snapshot is within the 30-second staleness
    window at both clock readings, two successive [getAllResults] calls
    return the cached sequence itself, element for element and in the
    same order, and neither call reads the backing source or changes the
    cache. *)
Theorem getAllResults_idempotent_within_window (w : World) (t1 t2 : Z) :
  Spec.fresh t1 w -> Spec.fresh t2 w ->
  let first := getAllResults (with_now t1 w) in
  let second := getAllResults (with_now t2 (snd first)) in
  fst first = Return (cachedResults w)
  /\ fst second = fst first
  /\ source_reads (snd second) = source_reads w
  /\ cachedResults (snd second) = cachedResults w
  /\ lastCacheUpdate (snd second) = lastCacheUpdate w.
Proof.
  intros H1 H2. cbv zeta.
  rewrite (getAllResults_fresh (with_now t1 w)) by exact H1. simpl.
  rewrite (getAllResults_fresh (with_now t2 (with_now t1 w))) by exact H2.
  simpl. repeat split.
Qed.

(** C5, as the code has it.  A refresh of a stale cache (a) installs an
    empty snapshot and returns zero records when the source is absent;
    (b) when the source is unreadable or holds a line that does not
    parse, makes [getAllResults] itself throw the storage error, leaving
    the snapshot and its time stamp untouched, so that every later call,
    at the same or a later clock reading, reads the source again instead
    of returning the retained snapshot; and (c) replaces the snapshot
    whole when the source is well formed. *)
Theorem refresh_outcome (w : World) :
  Spec.stale (now w) w ->
  let call := getAllResults w in
  match Spec.sourceState w with
  | Spec.SourceAbsent =>
      fst call = Return [] /\ cachedResults (snd call) = []
  | Spec.SourceBroken =>
      fst call = Throw GraveyardAccessError
      /\ cachedResults (snd call) = cachedResults w
      /\ lastCacheUpdate (snd call) = lastCacheUpdate w
      /\ forall t, now w <= t ->
           let again := getAllResults (with_now t (snd call)) in
           source_reads (snd again) = S (S (source_reads w))
           /\ (Spec.sourceState (with_now t (snd call)) = Spec.SourceBroken ->
               fst again = Throw GraveyardAccessError)
  | Spec.SourceHolds rs =>
      fst call = Return rs /\ cachedResults (snd call) = rs
      /\ lastCacheUpdate (snd call) = now w
  end.
Proof.
  intros Hs. cbv zeta.
  rewrite (getAllResults_stale w Hs), loadResultsFromFile_spec. cbv zeta.
  destruct (Spec.sourceState w) as [| |rs] eqn:Est; simpl.
  - now split.
  - repeat split. 
    + set (w1 := with_now t (with_source_reads (S (source_reads w)) w)).
      assert (Hs1 : Spec.stale (now w1) w1)
        by (unfold Spec.stale in *; simpl; lia).
      rewrite (getAllResults_stale w1 Hs1), loadResultsFromFile_spec. cbv zeta.
      destruct (Spec.sourceState w1); reflexivity.
    + intros Hb.
      set (w1 := with_now t (with_source_reads (S (source_reads w)) w)) in *.
      assert (Hs1 : Spec.stale (now w1) w1)
        by (unfold Spec.stale in *; simpl; lia).
      rewrite (getAllResults_stale w1 Hs1), loadResultsFromFile_spec. cbv zeta.
      rewrite Hb. reflexivity.
  - now repeat split.
Qed.

End CacheFacts.

(* ================================================================= *)
(** ** The query engine and the aggregates *)

Section QueryFacts.
Context `{DateRuntime}.
Import GraveyardService.

Lemma early_return (c rest : bool) :
  (if c then false else rest) = negb c && rest.
Proof. now destruct c. Qed.

(** The chain of early returns is the conjunction of the supplied
    predicates, on records and bounds whose numbers are numbers. *)
Lemma passesFilters_satisfies (f : FilterParams) (r : EvaluationResult) :
  Spec.comparable f r = true -> passesFilters f r = Spec.satisfies f r.
Proof.
  unfold Spec.comparable, passesFilters, Spec.satisfies.
  intros Hc.
  apply andb_prop in Hc as [Hc Hto]. apply andb_prop in Hc as [Hc Hfrom].
  apply andb_prop in Hc as [Hmin Hmax].
  rewrite !early_return, andb_true_r, !andb_assoc.
  repeat f_equal.
  - destruct (f_is_zombie f) as [z|]; simpl; [|reflexivity].
    apply negb_involutive.
  - destruct (f_severity f) as [s0|]; simpl; [|reflexivity].
    destruct (s0 =? EmptyString)%string; simpl; [reflexivity | apply negb_involutive].
  - destruct (min_score f) as [m|]; simpl in *; [|reflexivity].
    apply andb_prop in Hmin as [Hs Hm]. now apply not_lt_ge.
  - destruct (max_score f) as [m|]; simpl in *; [|reflexivity].
    apply andb_prop in Hmax as [Hs Hm]. now apply not_gt_le.
  - destruct (date_from f) as [d|]; simpl in *; [|reflexivity].
    destruct (d =? EmptyString)%string; simpl; [reflexivity|].
    apply andb_prop in Hfrom as [Ht Hd]. now apply not_lt_ge.
  - destruct (date_to f) as [d|]; simpl in *; [|reflexivity].
    destruct (d =? EmptyString)%string; simpl; [reflexivity|].
    apply andb_prop in Hto as [Ht Hd]. now apply not_gt_le.
  - destruct (llm_provider f) as [p|]; simpl; [|reflexivity].
    destruct (p =? EmptyString)%string; simpl; [reflexivity | apply negb_involutive].
Qed.

Lemma filter_andb {A : Type} (p q : A -> bool) (l : list A) :
  filter q (filter p l) = filter (fun x => p x && q x) l.
Proof.
  induction l as [|x t IH]; simpl; [reflexivity|].
  destruct (p x); simpl; [destruct (q x)|]; now rewrite IH.
Qed.

Lemma filteredZombies_matching (filters : option FilterParams)
      (results : list EvaluationResult) :
  (forall f r, filters = Some f -> In r results -> Spec.comparable f r = true) ->
  Spec.filteredZombies filters results = Spec.matchingZombies filters results.
Proof.
  intros Hc. unfold Spec.filteredZombies, Spec.matchingZombies, applyFilters.
  destruct filters as [f|]; simpl.
  - rewrite filter_andb. apply filter_ext_in. intros r Hr.
    rewrite (passesFilters_satisfies f r) by now apply Hc.
    reflexivity.
  - apply filter_ext. intros r. now rewrite andb_true_r.
Qed.


(** [getZombiePrompts] once the snapshot is in hand. *)
Lemma getZombiePrompts_spec (filters : option FilterParams)
      (pagination : option PaginationParams)
      (w w1 : World) (results : list EvaluationResult) :
  getAllResults w = (Return results, w1) ->
  exists out,
    getZombiePrompts filters pagination w = (Return out, w1)
    /\ total out = List.length (Spec.filteredZombies filters results)
    /\ zombies out
       = map mapToPromptSummary
             (match pagination with
              | Some p =>
                  JS.slice (Spec.sortedFor pagination (Spec.filteredZombies filters results))
                           ((page p - 1) * limit p)
                           ((page p - 1) * limit p + limit p)
              | None => Spec.filteredZombies filters results
              end).
Proof.
  intros Hcall. unfold getZombiePrompts, bind. rewrite Hcall.
  eexists. split; [reflexivity|]. simpl. split; [reflexivity|].
  f_equal. destruct pagination as [p|]; [|reflexivity].
  unfold Spec.sortedFor. f_equal.
  destruct (sort_by p) as [b|]; [|reflexivity].
  now destruct (b =? EmptyString)%string.
Qed.

(** C2, as the code has it.  [getZombiePrompts] restricts the snapshot
    to zombies before it applies the filter: on records and bounds whose
    scores and dates are numbers, its [total] is the number of zombie
    records of the snapshot that satisfy every supplied predicate (a
    predicate that is absent, or given as the empty string, imposes no
    constraint), counted before sorting and pagination; and its items
    are the summaries of a contiguous run of the filtered-and-sorted
    sequence of those zombies. *)
Theorem getZombiePrompts_total_and_items
        (filters : option FilterParams) (pagination : option PaginationParams)
        (w w1 : World) (results : list EvaluationResult) :
  getAllResults w = (Return results, w1) ->
  (forall f r, filters = Some f -> In r results -> Spec.comparable f r = true) ->
  exists out,
    getZombiePrompts filters pagination w = (Return out, w1)
    /\ total out = List.length (Spec.matchingZombies filters results)
    /\ exists start count,
         zombies out
         = map mapToPromptSummary
               (firstn count
                  (skipn start
                     (Spec.sortedFor pagination
                        (Spec.matchingZombies filters results)))).
Proof.
  intros Hcall Hc.
  destruct (getZombiePrompts_spec filters pagination w w1 results Hcall)
    as (out & Hout & Htotal & Hitems).
  rewrite (filteredZombies_matching filters results Hc) in Htotal, Hitems.
  exists out. split; [exact Hout|]. split; [exact Htotal|].
  rewrite Hitems. destruct pagination as [p|].
  - destruct (slice_contiguous
                (Spec.sortedFor (Some p) (Spec.matchingZombies filters results))
                ((page p - 1) * limit p) ((page p - 1) * limit p + limit p))
      as (start & count & Hs).
    exists start, count. now rewrite Hs.
  - exists 0%nat, (List.length (Spec.matchingZombies filters results)).
    simpl. now rewrite firstn_all.
Qed.



(** C10.  A [sort_by] outside score, timestamp, cost and latency makes
    the comparator answer "equal" for every pair, in the service and in
    the results controller alike, and sorting then returns the sequence
    in its original order. *)
Theorem sortResults_unrecognised_field
        (results : list EvaluationResult) (sortBy : string) (order : SortOrder) :
  Spec.recognised sortBy = false ->
  (forall a b, comparator sortBy order a b = 0%float)
  /\ sortResults results sortBy order = results
  /\ (forall a b, ResultsController.comparator sortBy order a b = 0%float)
  /\ ResultsController.sortResults results sortBy order = results.
Proof.
  unfold Spec.recognised. intros Hr.
  repeat (apply orb_false_elim in Hr as [Hr ?]).
  assert (Hc : forall a b, comparator sortBy order a b = 0%float)
    by (intros a b; unfold comparator;
        repeat match goal with E : (_ =? _)%string = false |- _ =>
                                 rewrite E; clear E end; reflexivity).
  assert (Hc' : forall a b, ResultsController.comparator sortBy order a b = 0%float)
    by (intros a b; unfold ResultsController.comparator;
        repeat match goal with E : (_ =? _)%string = false |- _ =>
                                 rewrite E; clear E end; reflexivity).
  repeat split; try assumption.
  - apply sort_all_equal, Hc.
  - apply sort_all_equal, Hc'.
Qed.

Lemma responseLatencies_reported (r : EvaluationResult) :
  map (fun resp => match latency_ms resp with
                   | Some l => l
                   | None => PrimFloat.nan
                   end)
      (filter (fun resp => match latency_ms resp with
                           | Some _ => true
                           | None => false
                           end)
              (map snd (llm_responses r)))
  = Spec.reportedLatencies r.
Proof.
  unfold Spec.reportedLatencies.
  induction (llm_responses r) as [|[k resp] t IH]; simpl; [reflexivity|].
  destruct (latency_ms resp) eqn:E; simpl; rewrite ?E, IH; reflexivity.
Qed.

Lemma calculateAverageLatency_two_level (results : list EvaluationResult) :
  results <> [] ->
  calculateAverageLatency results = Spec.twoLevelMeanLatency results.
Proof.
  intros Hne. unfold calculateAverageLatency, Spec.twoLevelMeanLatency, Spec.mean.
  destruct results as [|r0 rest]; [congruence|].
  change (List.length (r0 :: rest) =? 0)%nat with false. cbv iota.
  rewrite length_map. f_equal.
  rewrite <- fold_left_add_map.
  apply fold_left_ext_in. intros sum r _. f_equal.
  rewrite responseLatencies_reported. unfold Spec.recordMeanLatency.
  destruct (Spec.reportedLatencies r); reflexivity.
Qed.

(** C8.  On a non-empty snapshot the [avg_latency] of
    [getGraveyardStats] is the mean, across records, of each record's
    own mean over the latencies its providers reported, a record with no
    reported latency counting for 0. *)
Theorem getGraveyardStats_two_level_latency
        (w w1 : World) (results : list EvaluationResult) :
  getAllResults w = (Return results, w1) ->
  results <> [] ->
  exists stats,
    getGraveyardStats w = (Return stats, w1)
    /\ avg_latency stats = Spec.twoLevelMeanLatency results.
Proof.
  intros Hcall Hne. unfold getGraveyardStats, bind. rewrite Hcall.
  destruct results as [|r0 rest]; [congruence|].
  change (List.length (r0 :: rest) =? 0)%nat with false. cbv iota.
  eexists. split; [reflexivity|]. simpl avg_latency.
  now apply calculateAverageLatency_two_level.
Qed.

End QueryFacts.

(* ================================================================= *)
(** ** The revival ledger *)

Section LedgerFacts.
Context `{DateRuntime}.
Import GraveyardService RevivalService.

(** Closes a goal [exists e w', m w = (Throw e, w') /\ ledger w' = ledger w]
    once the run of [m] is exposed. *)
Ltac thrown := do 2 eexists; split; [reflexivity | simpl; congruence].

Lemma loadRevivalLog_spec (w : World) :
  loadRevivalLog w
  = let w' := with_ledger_ops (S (ledger_ops w)) w in
    if ledger_fault w (ledger_ops w) then (Throw EIO, w')
    else match ledger w with
         | None => (Return [], w')
         | Some Corrupt => (Throw SyntaxError, w')
         | Some (Stored log) => (Return log, w')
         end.
Proof.
  unfold loadRevivalLog, try_catch, bind, readFile_revivalLog.
  destruct (ledger_fault w (ledger_ops w)); [reflexivity|].
  destruct (ledger w) as [[|log]|]; reflexivity.
Qed.

(** The reader of the ledger surfaces a failed read. *)
Lemma loadRevivalLog_unreadable (w : World) :
  Spec.ledgerUnreadable w = true ->
  exists e w', loadRevivalLog w = (Throw e, w') /\ ledger w' = ledger w.
Proof.
  unfold Spec.ledgerUnreadable. rewrite loadRevivalLog_spec. cbv zeta.
  destruct (ledger_fault w (ledger_ops w)); simpl; [thrown|].
  destruct (ledger w) as [[|log]|] eqn:El; try discriminate. thrown.
Qed.

Lemma logRevivalAttempt_appendable (a : RevivalAttempt) (w : World) :
  Spec.appendable w = true ->
  exists w',
    logRevivalAttempt a w = (Return tt, w')
    /\ ledger w' = Some (Stored (Spec.entries w ++ [a]))
    /\ ledger_fault w' = ledger_fault w
    /\ ledger_ops w' = S (S (ledger_ops w)).
Proof.
  unfold Spec.appendable, Spec.entries. intros Ha.
  apply andb_prop in Ha as [Ha Hl]. apply andb_prop in Ha as [Hr Hw].
  apply negb_true_iff in Hr, Hw.
  unfold logRevivalAttempt, try_catch, bind. rewrite loadRevivalLog_spec.
  cbv zeta. rewrite Hr.
  destruct (ledger w) as [[|log]|]; try discriminate;
    unfold writeFile_revivalLog; simpl; rewrite Hw; eexists;
    (split; [reflexivity|]); simpl; auto.
Qed.

Lemma logRevivalAttempt_refused (a : RevivalAttempt) (w : World) :
  Spec.appendable w = false ->
  exists e w', logRevivalAttempt a w = (Throw e, w') /\ ledger w' = ledger w.
Proof.
  unfold Spec.appendable. intros Ha.
  unfold logRevivalAttempt, try_catch, bind. rewrite loadRevivalLog_spec.
  cbv zeta.
  destruct (ledger_fault w (ledger_ops w)) eqn:Hr; simpl in *; [thrown|].
  destruct (ledger_fault w (S (ledger_ops w))) eqn:Hw; simpl in *.
  - destruct (ledger w) as [[|log]|] eqn:El; unfold writeFile_revivalLog; simpl;
      rewrite ?Hw; thrown.
  - destruct (ledger w) as [[|log]|] eqn:El; try discriminate. thrown.
Qed.

(** [updateRevivalStatus] swallows every exception. *)
Lemma updateRevivalStatus_returns (id : string) (st : RevivalStatus) (w : World) :
  fst (updateRevivalStatus id st w) = Return tt.
Proof.
  unfold updateRevivalStatus, try_catch, bind. rewrite loadRevivalLog_spec.
  cbv zeta.
  destruct (ledger_fault w (ledger_ops w)); [reflexivity|].
  destruct (ledger w) as [[|log]|]; simpl; try reflexivity.
  destruct (JS.findIndex _ log); simpl; [|reflexivity].
  unfold writeFile_revivalLog; simpl.
  destruct (ledger_fault w (S (ledger_ops w))); reflexivity.
Qed.

(** What an update leaves in the file: the file as it was, or the log
    with [set_status] applied at the first entry that carries the
    identifier. *)
Lemma updateRevivalStatus_ledger (id : string) (st : RevivalStatus) (w : World) :
  ledger (snd (updateRevivalStatus id st w)) = ledger w
  \/ exists log i,
       ledger w = Some (Stored log)
       /\ JS.findIndex (fun a => (ra_revival_id a =? id)%string) log = Some i
       /\ ledger (snd (updateRevivalStatus id st w))
          = Some (Stored (JS.update_at i (set_status st) log)).
Proof.
  unfold updateRevivalStatus, try_catch, bind. rewrite loadRevivalLog_spec.
  cbv zeta.
  destruct (ledger_fault w (ledger_ops w)); [now left|].
  destruct (ledger w) as [[|log]|] eqn:El; simpl; try (now left).
  destruct (JS.findIndex _ log) as [i|] eqn:Ei; simpl; [|now left].
  unfold writeFile_revivalLog; simpl.
  destruct (ledger_fault w (S (ledger_ops w))); simpl; [now left|].
  right. exists log, i. auto.
Qed.

(** An update whose read or write fails leaves the file as it was. *)
Lemma updateRevivalStatus_failed (id : string) (st : RevivalStatus) (w : World) :
  ledger_fault w (ledger_ops w) || ledger_fault w (S (ledger_ops w)) = true ->
  ledger (snd (updateRevivalStatus id st w)) = ledger w.
Proof.
  intros Hf.
  unfold updateRevivalStatus, try_catch, bind. rewrite loadRevivalLog_spec.
  cbv zeta.
  destruct (ledger_fault w (ledger_ops w)); [reflexivity|]. simpl in Hf.
  destruct (ledger w) as [[|log]|] eqn:El; simpl; try (now rewrite El).
  destruct (JS.findIndex _ log); simpl; [|now rewrite El].
  unfold writeFile_revivalLog; simpl. rewrite Hf. simpl. now rewrite El.
Qed.

(** What [getRevivalHistory] resolves to depends on the ledger file and
    its faults alone. *)
Lemma getRevivalHistory_ledger_only (promptId : string) (w w' : World) :
  ledger w' = ledger w -> ledger_fault w' = ledger_fault w ->
  ledger_ops w' = ledger_ops w ->
  fst (getRevivalHistory promptId w') = fst (getRevivalHistory promptId w).
Proof.
  intros Hl Hf Ho. unfold getRevivalHistory, try_catch, bind.
  rewrite !loadRevivalLog_spec. cbv zeta. rewrite Hl, Hf, Ho.
  destruct (ledger_fault w (ledger_ops w)); [reflexivity|].
  destruct (ledger w) as [[|log]|]; reflexivity.
Qed.

(** [revivePrompt] once the record is in hand. *)
Lemma revivePrompt_found (req : RevivalRequest) (w w1 : World)
      (r : EvaluationResult) :
  getResultById (req_prompt_id req) w = (Return (Some r), w1) ->
  revivePrompt req w
  = if negb (is_zombie (zombie_status r))
    then (Return (Spec.declinedOutcome r MsgAlreadyAlive), w1)
    else
      match JS.index (revival_suggestions r) (suggestion_index req) with
      | None =>
          (Return (Spec.declinedOutcome
                     r (MsgSuggestionNotFound (suggestion_index req))), w1)
      | Some s =>
          let id := uuid_gen w1 (uuid_count w1) in
          let w2 := with_uuid_count (S (uuid_count w1)) w1 in
          match logRevivalAttempt (Spec.attemptOf req r s id (now w1)) w2 with
          | (Return _, w3) =>
              (Return (Spec.resolvedOutcome r s id),
               snd (updateRevivalStatus id (Spec.resolution s) w3))
          | (Throw _, w3) => (Return Spec.interruptedOutcome, w3)
          end
      end.
Proof.
  intros Hfind. unfold revivePrompt, try_catch. unfold bind at 1.
  rewrite Hfind.
  destruct (is_zombie (zombie_status r)); simpl; [|reflexivity].
  destruct (JS.index (revival_suggestions r) (suggestion_index req)) as [s|];
    [|reflexivity].
  unfold bind, uuidv4, Date_now, gets. simpl.
  fold (Spec.attemptOf req r s (uuid_gen w1 (uuid_count w1)) (now w1)).
  destruct (logRevivalAttempt _ _) as [[u|e] w3]; [|reflexivity].
  fold (Spec.resolution s).
  pose proof (updateRevivalStatus_returns
                (uuid_gen w1 (uuid_count w1)) (Spec.resolution s) w3) as Hu.
  destruct (updateRevivalStatus _ _ w3) as [[u'|e'] w4]; simpl in Hu;
    [reflexivity | discriminate].
Qed.

(** When the lookup finds no record, or throws, the call ends in the
    world the lookup left. *)
Lemma revivePrompt_lost (req : RevivalRequest) (w : World) :
  (forall r, fst (getResultById (req_prompt_id req) w) <> Return (Some r)) ->
  snd (revivePrompt req w) = snd (getResultById (req_prompt_id req) w).
Proof.
  intros Hno. unfold revivePrompt, try_catch. unfold bind at 1.
  destruct (getResultById (req_prompt_id req) w) as [[[r|]|e] w2];
    simpl in *; [|reflexivity|reflexivity].
  now destruct (Hno r).
Qed.

Lemma appendable_ext (w w' : World) :
  ledger w' = ledger w -> ledger_fault w' = ledger_fault w ->
  ledger_ops w' = ledger_ops w ->
  Spec.appendable w' = Spec.appendable w.
Proof. unfold Spec.appendable. now intros -> -> ->. Qed.

Lemma entries_ext (w w' : World) :
  ledger w' = ledger w -> Spec.entries w' = Spec.entries w.
Proof. unfold Spec.entries. now intros ->. Qed.

(** A request that reaches its suggestion returns the resolved outcome,
    and leaves the pending attempt appended unless the status update
    went through. *)
Lemma revivable_run (req : RevivalRequest) (w : World)
      (r : EvaluationResult) (s : RevivalSuggestion) :
  Spec.revivable req w r s ->
  let id := uuid_gen w (uuid_count w) in
  exists w3 w',
    revivePrompt req w = (Return (Spec.resolvedOutcome r s id), w')
    /\ w' = snd (updateRevivalStatus id (Spec.resolution s) w3)
    /\ ledger w3 = Some (Stored (Spec.entries w ++ [Spec.attemptOf req r s id (now w)]))
    /\ ledger_fault w3 = ledger_fault w
    /\ ledger_ops w3 = S (S (ledger_ops w)).
Proof.
  intros ((w1 & Hfind) & Hz & Hs & Ha) id.
  pose proof (getResultById_frame (req_prompt_id req) w) as Hframe.
  rewrite Hfind in Hframe. simpl in Hframe.
  destruct Hframe as (Hl & Hf & Ho & Hn & Hg & Hc).
  rewrite (revivePrompt_found req w w1 r Hfind), Hz, Hs. simpl. cbv zeta.
  rewrite Hg, Hc, Hn. fold id.
  set (w2 := with_uuid_count (S (uuid_count w)) w1).
  assert (Ha2 : Spec.appendable w2 = true)
    by (rewrite <- Ha; apply appendable_ext; assumption).
  destruct (logRevivalAttempt_appendable
              (Spec.attemptOf req r s id (now w)) w2 Ha2)
    as (w3 & Hlog & Hl3 & Hf3 & Ho3).
  rewrite Hlog. exists w3. eexists. split; [reflexivity|].
  split; [reflexivity|].
  rewrite Hl3, Hf3, Ho3. simpl.
  rewrite (entries_ext w w2) by exact Hl. rewrite Hf, Ho. auto.
Qed.

Lemma findIndex_last {A : Type} (p : A -> bool) (old : list A) (a : A) :
  forallb (fun x => negb (p x)) old = true -> p a = true ->
  JS.findIndex p (old ++ [a]) = Some (List.length old).
Proof.
  intros Hold Ha. induction old as [|x t IH]; simpl in *.
  - now rewrite Ha.
  - apply andb_prop in Hold as [Hx Ht]. apply negb_true_iff in Hx.
    rewrite Hx, (IH Ht). reflexivity.
Qed.

Lemma update_at_last {A : Type} (f : A -> A) (old : list A) (a : A) :
  JS.update_at (List.length old) f (old ++ [a]) = (old ++ [f a])%list.
Proof. induction old as [|x t IH]; simpl; [reflexivity | now rewrite IH]. Qed.

(** An update that meets no fault rewrites the first entry that carries
    the identifier. *)
Lemma updateRevivalStatus_done (id : string) (st : RevivalStatus) (w : World)
      (log : list RevivalAttempt) (i : nat) :
  ledger w = Some (Stored log) ->
  ledger_fault w (ledger_ops w) = false ->
  ledger_fault w (S (ledger_ops w)) = false ->
  JS.findIndex (fun a => (ra_revival_id a =? id)%string) log = Some i ->
  let w' := snd (updateRevivalStatus id st w) in
  ledger w' = Some (Stored (JS.update_at i (set_status st) log))
  /\ ledger_fault w' = ledger_fault w
  /\ ledger_ops w' = S (S (ledger_ops w)).
Proof.
  intros Hl Hr Hw Hi. unfold updateRevivalStatus, try_catch, bind.
  rewrite loadRevivalLog_spec. cbv zeta. rewrite Hr, Hl, Hi.
  unfold writeFile_revivalLog. simpl. rewrite Hw. simpl. auto.
Qed.

(** The full run of a request that meets no fault and draws a fresh
    identifier. *)
Lemma revivable_run_through (req : RevivalRequest) (w : World)
      (r : EvaluationResult) (s : RevivalSuggestion) :
  Spec.revivable req w r s ->
  Spec.updateFails w = false ->
  Spec.freshId w = true ->
  let id := uuid_gen w (uuid_count w) in
  let attempt := Spec.attemptOf req r s id (now w) in
  exists w',
    revivePrompt req w = (Return (Spec.resolvedOutcome r s id), w')
    /\ ledger w' = Some (Stored (Spec.entries w
                                 ++ [set_status (Spec.resolution s) attempt]))
    /\ ledger_fault w' = ledger_fault w
    /\ ledger_ops w' = S (S (S (S (ledger_ops w)))).
Proof.
  intros Hr Hu Hfresh id attempt.
  destruct (revivable_run req w r s Hr)
    as (w3 & w' & Hrun & Hw' & Hl3 & Hf3 & Ho3).
  fold id in Hrun, Hw', Hl3. fold attempt in Hl3.
  unfold Spec.updateFails in Hu. apply orb_false_elim in Hu as [Hu1 Hu2].
  assert (Hi : JS.findIndex (fun a => (ra_revival_id a =? id)%string)
                            (Spec.entries w ++ [attempt])
               = Some (List.length (Spec.entries w))).
  { apply findIndex_last; [exact Hfresh | apply String.eqb_refl]. }
  assert (Hr3 : ledger_fault w3 (ledger_ops w3) = false)
    by now rewrite Hf3, Ho3.
  assert (Hw3 : ledger_fault w3 (S (ledger_ops w3)) = false)
    by now rewrite Hf3, Ho3.
  pose proof (updateRevivalStatus_done id (Spec.resolution s) w3 _ _
                                       Hl3 Hr3 Hw3 Hi) as Hdone.
  cbv zeta in Hdone. destruct Hdone as (Hl' & Hf' & Ho').
  exists w'. split; [exact Hrun|]. rewrite Hw'.
  rewrite Hl', Hf', Ho', update_at_last, Hf3, Ho3. auto.
Qed.

(** C1.  For a zombie record and an index within its suggestions the
    confidence score decides only when the ledger takes the pending
    attempt.  Then [revivePrompt] returns success exactly when the
    suggestion's confidence score is strictly above 0.6 and failure
    otherwise, under the identifier it drew; any other call that reaches
    the same suggestion, in any world, resolves the same way; and the
    ledger holds the previous entries followed by the attempt, with the
    same resolution as its status when the status update is persisted
    (and the identifier is new to the ledger), still pending when it is
    not.  When the ledger does not take the attempt, the call returns the
    outcome of the catch-all handler, a failure whatever the score, and
    the entries of the ledger are as before. *)
Theorem revivePrompt_resolves_by_confidence
        (req : RevivalRequest) (w : World)
        (r : EvaluationResult) (s : RevivalSuggestion) :
  Spec.reaches req w r s ->
  let id := uuid_gen w (uuid_count w) in
  let attempt := Spec.attemptOf req r s id (now w) in
  exists resp w',
    revivePrompt req w = (Return resp, w')
    /\ (Spec.appendable w = true ->
        success resp = JS.gt (confidence_score s) 0.6%float
        /\ (success resp = true <-> Spec.resolution s = Success)
        /\ (success resp = false <-> Spec.resolution s = Failed)
        /\ message resp <> MsgInterrupted
        /\ revival_id resp = id
        /\ (Spec.updateFails w = false -> Spec.freshId w = true ->
            Spec.entries w'
            = (Spec.entries w ++ [set_status (Spec.resolution s) attempt])%list
            /\ status (set_status (Spec.resolution s) attempt)
               = (if success resp then Success else Failed))
        /\ (Spec.updateFails w = true ->
            Spec.entries w' = (Spec.entries w ++ [attempt])%list
            /\ status attempt = Pending)
        /\ forall req' v r' resp' v',
             Spec.revivable req' v r' s ->
             revivePrompt req' v = (Return resp', v') ->
             success resp' = success resp /\ message resp' = message resp)
    /\ (Spec.appendable w = false ->
        resp = Spec.interruptedOutcome
        /\ Spec.entries w' = Spec.entries w).
Proof.
  intros Hreach id attempt.
  destruct (Spec.appendable w) eqn:Ha.
  - assert (Hr : Spec.revivable req w r s).
    { destruct Hreach as (Hfind & Hz & Hs). unfold Spec.revivable. auto. }
    destruct (revivable_run req w r s Hr)
      as (w3 & w' & Hrun & Hw' & Hl3 & Hf3 & Ho3).
    fold id in Hrun, Hw', Hl3. fold attempt in Hl3.
    exists (Spec.resolvedOutcome r s id), w'.
    split; [exact Hrun|]. split; [intros _ | discriminate].
    split; [reflexivity|].
    assert (Hsame : forall req' v r' resp' v',
               Spec.revivable req' v r' s ->
               revivePrompt req' v = (Return resp', v') ->
               success resp' = success (Spec.resolvedOutcome r s id)
               /\ message resp' = message (Spec.resolvedOutcome r s id)).
    { intros req' v r' resp' v' Hr' Hrun'.
      destruct (revivable_run req' v r' s Hr') as (v3 & v'' & Hrun'' & _).
      rewrite Hrun'' in Hrun'. injection Hrun' as <- _. now split. }
    assert (Hthrough : Spec.updateFails w = false -> Spec.freshId w = true ->
              Spec.entries w'
              = (Spec.entries w ++ [set_status (Spec.resolution s) attempt])%list
              /\ status (set_status (Spec.resolution s) attempt)
                 = (if success (Spec.resolvedOutcome r s id)
                    then Success else Failed)).
    { intros Hu Hfresh.
      destruct (revivable_run_through req w r s Hr Hu Hfresh)
        as (w'' & Hrun'' & Hl'' & _).
      fold id in Hrun'', Hl''. fold attempt in Hl''.
      rewrite Hrun in Hrun''. injection Hrun'' as <-.
      unfold Spec.entries at 1. rewrite Hl''. split; reflexivity. }
    assert (Hpending : Spec.updateFails w = true ->
              Spec.entries w' = (Spec.entries w ++ [attempt])%list
              /\ status attempt = Pending).
    { intros Hu. split; [|reflexivity].
      unfold Spec.entries at 1.
      rewrite Hw', updateRevivalStatus_failed; [now rewrite Hl3|].
      rewrite Hf3, Ho3. exact Hu. }
    split; [|split; [|split; [|split; [reflexivity|
      split; [exact Hthrough | split; [exact Hpending | exact Hsame]]]]]];
      unfold Spec.resolution; simpl;
      destruct (JS.gt (confidence_score s) 0.6%float);
      try split; congruence.
  - destruct Hreach as ((w1 & Hfind) & Hz & Hs).
    pose proof (getResultById_frame (req_prompt_id req) w) as Hframe.
    rewrite Hfind in Hframe. simpl in Hframe.
    destruct Hframe as (Hl & Hf & Ho & _).
    set (w2 := with_uuid_count (S (uuid_count w1)) w1).
    assert (Ha2 : Spec.appendable w2 = false)
      by (rewrite <- Ha; apply appendable_ext; assumption).
    destruct (logRevivalAttempt_refused
                (Spec.attemptOf req r s (uuid_gen w1 (uuid_count w1)) (now w1))
                w2 Ha2)
      as (e & w3 & Hlog & Hl3).
    exists Spec.interruptedOutcome, w3. split.
    + rewrite (revivePrompt_found req w w1 r Hfind), Hz, Hs. simpl. cbv zeta.
      fold w2. rewrite Hlog. reflexivity.
    + split; [discriminate|]. intros _. split; [reflexivity|].
      apply entries_ext. rewrite Hl3. exact Hl.
Qed.

(** C6.  On a record that is not a zombie [revivePrompt] returns the
    "already alive" outcome, and on a zombie with a suggestion index at
    or beyond the number of its suggestions the "suggestion not found"
    outcome; either is a returned value with [success = false], and in
    both cases the ledger file is not accessed: what [getRevivalHistory]
    resolves to is the same after the call as before. *)
Theorem revivePrompt_declines_without_ledger_entry
        (req : RevivalRequest) (w w1 : World) (r : EvaluationResult) :
  getResultById (req_prompt_id req) w = (Return (Some r), w1) ->
  is_zombie (zombie_status r) = false
  \/ Z.of_nat (List.length (revival_suggestions r)) <= suggestion_index req ->
  let m := if is_zombie (zombie_status r)
           then MsgSuggestionNotFound (suggestion_index req)
           else MsgAlreadyAlive in
  revivePrompt req w = (Return (Spec.declinedOutcome r m), w1)
  /\ success (Spec.declinedOutcome r m) = false
  /\ ledger w1 = ledger w
  /\ ledger_ops w1 = ledger_ops w
  /\ forall promptId,
       fst (getRevivalHistory promptId w1) = fst (getRevivalHistory promptId w).
Proof.
  intros Hfind Hcase m.
  pose proof (getResultById_frame (req_prompt_id req) w) as Hframe.
  rewrite Hfind in Hframe. simpl in Hframe.
  destruct Hframe as (Hl & Hf & Ho & _).
  split.
  - rewrite (revivePrompt_found req w w1 r Hfind). subst m.
    destruct (is_zombie (zombie_status r)); simpl; [|reflexivity].
    destruct Hcase as [Hz|Hlen]; [discriminate|].
    unfold JS.index.
    destruct (suggestion_index req <? 0) eqn:Eneg; [reflexivity|].
    apply Z.ltb_ge in Eneg.
    assert (Hnone : nth_error (revival_suggestions r)
                              (Z.to_nat (suggestion_index req)) = None)
      by (apply nth_error_None; lia).
    now rewrite Hnone.
  - split; [reflexivity|]. split; [exact Hl|]. split; [exact Ho|].
    intros promptId. now apply getRevivalHistory_ledger_only.
Qed.

(** C7, as the code has it.  When the read of the ledger's backing store
    fails with a storage or parse error, [loadRevivalLog] throws, but
    [getRevivalHistory] catches the exception and resolves to the empty
    list, and [getRevivalStats] catches it and resolves to the all-zero
    statistics: neither surfaces the error to its caller. *)
Theorem ledger_read_failure_is_swallowed (promptId : string) (w : World) :
  Spec.ledgerUnreadable w = true ->
  (exists e, fst (loadRevivalLog w) = Throw e)
  /\ fst (getRevivalHistory promptId w) = Return []
  /\ fst (getRevivalStats w) = Return Spec.noRevivalStats.
Proof.
  intros Hu.
  destruct (loadRevivalLog_unreadable w Hu) as (e & w' & Hload & _).
  split; [exists e; now rewrite Hload|].
  unfold getRevivalHistory, getRevivalStats, try_catch, bind.
  rewrite Hload. now split.
Qed.

(** An entry of the ledger survives every later [revivePrompt] whose
    fresh identifier is not the entry's own. *)
Lemma stored_entry_stays (req : RevivalRequest) (v : World) (a : RevivalAttempt) :
  In a (Spec.entries v) ->
  uuid_gen v (uuid_count v) <> ra_revival_id a ->
  In a (Spec.entries (snd (revivePrompt req v))).
Proof.
  intros Hin Hid.
  pose proof (getResultById_frame (req_prompt_id req) v) as Hframe.
  destruct (getResultById (req_prompt_id req) v) as [[[r|]|e] v1] eqn:Hfind;
    simpl in Hframe; destruct Hframe as (Hl & Hf & Ho & Hn & Hg & Hc).
  - rewrite (revivePrompt_found req v v1 r Hfind).
    destruct (negb (is_zombie (zombie_status r))); simpl;
      [now rewrite (entries_ext v v1 Hl)|].
    destruct (JS.index (revival_suggestions r) (suggestion_index req)) as [s|];
      simpl; [|now rewrite (entries_ext v v1 Hl)].
    cbv zeta. rewrite Hg, Hc.
    set (id := uuid_gen v (uuid_count v)) in *.
    set (w2 := with_uuid_count (S (uuid_count v)) v1).
    set (att := Spec.attemptOf req r s id (now v1)).
    assert (He2 : Spec.entries w2 = Spec.entries v)
      by (apply entries_ext; exact Hl).
    destruct (Spec.appendable w2) eqn:Ha.
    + destruct (logRevivalAttempt_appendable att w2 Ha)
        as (w3 & Hlog & Hl3 & _).
      rewrite Hlog. simpl.
      assert (Hin3 : In a (Spec.entries v ++ [att]))
        by (apply in_or_app; now left).
      destruct (updateRevivalStatus_ledger id (Spec.resolution s) w3)
        as [Hsame|(log & i & Hlog3 & Hi & Hupd)].
      * unfold Spec.entries at 1. rewrite Hsame, Hl3, He2. exact Hin3.
      * unfold Spec.entries at 1. rewrite Hupd.
        rewrite Hl3, He2 in Hlog3. injection Hlog3 as <-.
        destruct (findIndex_Some _ _ _ Hi) as (x & Hx & Hpx).
        apply (update_at_In _ _ _ _ x Hx); [|exact Hin3].
        intros ->. apply String.eqb_eq in Hpx. now apply Hid.
    + destruct (logRevivalAttempt_refused att w2 Ha) as (e & w3 & Hlog & Hl3).
      rewrite Hlog. simpl. rewrite (entries_ext w2 w3 Hl3), He2. exact Hin.
  - rewrite (revivePrompt_lost req v); rewrite Hfind; simpl;
      [now rewrite (entries_ext v v1 Hl) | discriminate].
  - rewrite (revivePrompt_lost req v); rewrite Hfind; simpl;
      [now rewrite (entries_ext v v1 Hl) | discriminate].
Qed.

(** The read operations of the ledger never write the file. *)
Lemma ledger_readers_do_not_write (promptId : string) (v : World) :
  ledger (snd (getRevivalHistory promptId v)) = ledger v
  /\ ledger (snd (getRevivalStats v)) = ledger v.
Proof.
  unfold getRevivalHistory, getRevivalStats, try_catch, bind.
  rewrite !loadRevivalLog_spec. cbv zeta.
  destruct (ledger_fault v (ledger_ops v)); [now split|].
  destruct (ledger v) as [[|log]|] eqn:El; simpl; rewrite ?El; now split.
Qed.

(** C9.  When the status update of an attempt cannot be persisted,
    [revivePrompt] still returns the resolved outcome, not the failure;
    the ledger file keeps the attempt as it was appended, with status
    [Pending]; and that entry is still there, still pending, after any
    later [revivePrompt] that draws a different identifier, while the
    read operations of the ledger never rewrite the file. *)
Theorem revivePrompt_outcome_survives_failed_update
        (req : RevivalRequest) (w : World)
        (r : EvaluationResult) (s : RevivalSuggestion) :
  Spec.revivable req w r s ->
  Spec.updateFails w = true ->
  let id := uuid_gen w (uuid_count w) in
  let attempt := Spec.attemptOf req r s id (now w) in
  exists w',
    revivePrompt req w = (Return (Spec.resolvedOutcome r s id), w')
    /\ success (Spec.resolvedOutcome r s id) = JS.gt (confidence_score s) 0.6%float
    /\ ledger w' = Some (Stored (Spec.entries w ++ [attempt]))
    /\ status attempt = Pending
    /\ (forall req' v,
          In attempt (Spec.entries v) ->
          uuid_gen v (uuid_count v) <> id ->
          In attempt (Spec.entries (snd (revivePrompt req' v))))
    /\ (forall promptId v,
          Spec.entries (snd (getRevivalHistory promptId v)) = Spec.entries v
          /\ Spec.entries (snd (getRevivalStats v)) = Spec.entries v).
Proof.
  intros Hr Hfail id attempt.
  destruct (revivable_run req w r s Hr)
    as (w3 & w' & Hrun & Hw' & Hl3 & Hf3 & Ho3).
  exists w'. split; [exact Hrun|]. split; [reflexivity|].
  split; [|split; [reflexivity|split]].
  - rewrite Hw', updateRevivalStatus_failed; [exact Hl3|].
    rewrite Hf3, Ho3. exact Hfail.
  - intros req' v Hin Hid. now apply stored_entry_stays.
  - intros promptId v.
    destruct (ledger_readers_do_not_write promptId v) as [Hh Hs].
    split; apply entries_ext; assumption.
Qed.

End LedgerFacts.

(* ================================================================= *)
(** ** Worked instances *)

(** Everything below is evaluated on the sample data, with the sample
    [Date]. *)

Section Instances.
Import GraveyardService RevivalService.
#[local] Existing Instance Sample.date.

Example parseInt_reads_a_prefix : JS.parseInt (Some " 42px") = Some 42.
Proof. reflexivity. Qed.

Example parseInt_keeps_the_sign : JS.parseInt (Some "-5") = Some (-5).
Proof. reflexivity. Qed.

Example parseInt_reads_hex : JS.parseInt (Some "0x1f") = Some 31.
Proof. reflexivity. Qed.

Example parseInt_of_no_digit : JS.parseInt (Some "abc") = None.
Proof. reflexivity. Qed.

Example slice_with_negative_end : JS.slice [1; 2; 3; 4; 5; 6] 0 (-5) = [1].
Proof. reflexivity. Qed.

Example sort_is_ascending_for_a_difference :
  JS.sort (fun a b => (a - b)%float) [3; 1; 2]%float = [1; 2; 3]%float.
Proof. reflexivity. Qed.

(** The two-level average is not the flat mean: a record with three
    latencies of mean 200 and a record with one latency of 500 average
    to 350, while the four latencies together average to 275. *)
Example two_level_mean_is_not_flat_mean :
  Spec.twoLevelMeanLatency [Sample.shambler; Sample.survivor] = 350%float
  /\ Spec.flatMeanLatency [Sample.shambler; Sample.survivor] = 275%float
  /\ calculateAverageLatency [Sample.shambler; Sample.survivor] = 350%float.
Proof. repeat split; reflexivity. Qed.

(** The concrete scenarios of the specification: a suggestion of
    confidence 0.75 revives, one of confidence 0.4 does not. *)
Example confident_suggestion_revives :
  fst (revivePrompt (Sample.request "shambler" 0) Sample.started)
  = Return (Spec.resolvedOutcome Sample.shambler (Sample.advice 0.75%float) "a-uuid")
  /\ success (Spec.resolvedOutcome Sample.shambler (Sample.advice 0.75%float) "a-uuid")
     = true.
Proof. split; reflexivity. Qed.

Example doubtful_suggestion_fails :
  fst (revivePrompt (Sample.request "doubter" 0) Sample.started)
  = Return (Spec.resolvedOutcome Sample.doubter (Sample.advice 0.4%float) "a-uuid")
  /\ success (Spec.resolvedOutcome Sample.doubter (Sample.advice 0.4%float) "a-uuid")
     = false.
Proof. split; reflexivity. Qed.

(** When the append cannot be written the call ends in the catch-all
    handler, whatever the confidence. *)
Example sealed_ledger_interrupts :
  fst (revivePrompt (Sample.request "shambler" 0) Sample.sealed)
  = Return Spec.interruptedOutcome.
Proof. reflexivity. Qed.

Lemma revivePrompt_resolves_by_confidence_witness :
  Spec.reaches (Sample.request "shambler" 0) Sample.started
               Sample.shambler (Sample.advice 0.75%float)
  /\ exists resp w',
      revivePrompt (Sample.request "shambler" 0) Sample.started = (Return resp, w')
      /\ success resp = true
      /\ map status (Spec.entries w') = [Success].
Proof.
  assert (Hr : Spec.reaches (Sample.request "shambler" 0) Sample.started
                            Sample.shambler (Sample.advice 0.75%float)).
  { split; [eexists; reflexivity | split; reflexivity]. }
  split; [exact Hr|].
  pose proof (revivePrompt_resolves_by_confidence _ _ _ _ Hr) as Hw.
  cbv zeta in Hw.
  destruct Hw as (resp & w' & Hrun & Htaken & _).
  destruct (Htaken eq_refl) as (Hs & _ & _ & _ & _ & Hthrough & _).
  destruct (Hthrough eq_refl eq_refl) as [Hentries _].
  exists resp, w'. split; [exact Hrun|]. split; [rewrite Hs; reflexivity|].
  rewrite Hentries. reflexivity.
Defined.

(** Against C1 as stated: [shambler] is a zombie, index 0 is within its
    suggestions and the confidence 0.75 is above 0.6, but the ledger file
    cannot be written; the call answers with the failure of the catch-all
    handler and no attempt, resolved or pending, is stored. *)
Lemma unwritable_ledger_overrides_confidence :
  Spec.reaches (Sample.request "shambler" 0) Sample.sealed
               Sample.shambler (Sample.advice 0.75%float)
  /\ JS.gt (confidence_score (Sample.advice 0.75%float)) 0.6%float = true
  /\ Spec.resolution (Sample.advice 0.75%float) = Success
  /\ exists resp w',
      revivePrompt (Sample.request "shambler" 0) Sample.sealed = (Return resp, w')
      /\ success resp = false
      /\ message resp = MsgInterrupted
      /\ Spec.entries w' = Spec.entries Sample.sealed
      /\ ~ Spec.revivable (Sample.request "shambler" 0) Sample.sealed
                          Sample.shambler (Sample.advice 0.75%float).
Proof.
  split; [split; [eexists; reflexivity | split; reflexivity]|].
  do 2 (split; [reflexivity|]).
  do 2 eexists. split; [reflexivity|]. do 3 (split; [reflexivity|]).
  intros (_ & _ & _ & Ha). discriminate Ha.
Qed.

(** Against C2 as stated: asked for the records that are not zombies,
    over a snapshot that holds one, the query counts none. *)
Lemma getZombiePrompts_total_ignores_living :
  fst (getAllResults Sample.started) = Return Sample.graveyard
  /\ List.length (filter (Spec.satisfies Sample.onlyLiving) Sample.graveyard) = 1%nat
  /\ exists out,
      fst (getZombiePrompts (Some Sample.onlyLiving) None Sample.started) = Return out
      /\ total out = 0%nat
      /\ total out
         <> List.length (filter (Spec.satisfies Sample.onlyLiving) Sample.graveyard).
Proof.
  split; [reflexivity|]. split; [reflexivity|].
  eexists. split; [reflexivity|]. split; [reflexivity | discriminate].
Qed.

Lemma getZombiePrompts_total_and_items_witness :
  getAllResults Sample.started
  = (Return Sample.graveyard, snd (getAllResults Sample.started))
  /\ exists out,
      fst (getZombiePrompts (Some Sample.shamblingOnly)
                            (Some (Sample.byScore 1 1)) Sample.started)
      = Return out
      /\ total out
         = List.length (Spec.matchingZombies (Some Sample.shamblingOnly)
                                             Sample.graveyard).
Proof.
  assert (Hcall : getAllResults Sample.started
                  = (Return Sample.graveyard, snd (getAllResults Sample.started)))
    by reflexivity.
  split; [exact Hcall|].
  destruct (getZombiePrompts_total_and_items
              (Some Sample.shamblingOnly) (Some (Sample.byScore 1 1))
              Sample.started _ Sample.graveyard Hcall)
    as (out & Hout & Htotal & _).
  - intros f r [= <-] [<-|[<-|[<-|[]]]]; reflexivity.
  - exists out. rewrite Hout. now split.
Defined.



Lemma getAllResults_idempotent_within_window_witness :
  Spec.fresh 2000 Sample.warm /\ Spec.fresh 3000 Sample.warm
  /\ fst (getAllResults
            (with_now 3000 (snd (getAllResults (with_now 2000 Sample.warm)))))
     = Return Sample.graveyard.
Proof.
  assert (H1 : Spec.fresh 2000 Sample.warm)
    by (unfold Spec.fresh, cacheTimeout; simpl; lia).
  assert (H2 : Spec.fresh 3000 Sample.warm)
    by (unfold Spec.fresh, cacheTimeout; simpl; lia).
  split; [exact H1|]. split; [exact H2|].
  pose proof (getAllResults_idempotent_within_window Sample.warm 2000 3000 H1 H2)
    as Hw.
  cbv zeta in Hw. destruct Hw as (Hfirst & Hsecond & _).
  rewrite Hsecond, Hfirst. reflexivity.
Defined.

(** Against C5 as stated: once results.json cannot be read, the snapshot
    is still in memory but no call returns it; the failing call throws,
    and so does every call made from then on. *)
Lemma retained_snapshot_is_not_served :
  cachedResults Sample.haunted = Sample.graveyard
  /\ fst (getAllResults Sample.haunted) = Throw GraveyardAccessError
  /\ cachedResults (snd (getAllResults Sample.haunted)) = Sample.graveyard
  /\ forall t,
      now Sample.haunted <= t ->
      fst (getAllResults (with_now t (snd (getAllResults Sample.haunted))))
      = Throw GraveyardAccessError.
Proof.
  split; [reflexivity|]. split; [reflexivity|]. split; [reflexivity|].
  intros t Ht.
  set (w1 := with_now t (snd (getAllResults Sample.haunted))).
  assert (Hs : Spec.stale (now w1) w1)
    by (unfold Spec.stale, cacheTimeout; simpl in *; lia).
  rewrite (getAllResults_stale w1 Hs), loadResultsFromFile_spec.
  reflexivity.
Qed.

Lemma refresh_outcome_witness :
  Spec.stale (now Sample.garbled) Sample.garbled
  /\ fst (getAllResults Sample.garbled) = Throw GraveyardAccessError
  /\ cachedResults (snd (getAllResults Sample.garbled)) = Sample.graveyard.
Proof.
  assert (Hs : Spec.stale (now Sample.garbled) Sample.garbled)
    by (unfold Spec.stale, cacheTimeout; simpl; lia).
  split; [exact Hs|].
  pose proof (refresh_outcome Sample.garbled Hs) as Hw.
  cbv zeta in Hw.
  change (Spec.sourceState Sample.garbled) with Spec.SourceBroken in Hw.
  destruct Hw as (Hthrow & Hkept & _).
  rewrite Hthrow, Hkept. split; reflexivity.
Defined.

(** An absent source is an empty graveyard, not an error. *)
Example absent_source_is_empty :
  fst (getAllResults Sample.emptied) = Return []
  /\ cachedResults (snd (getAllResults Sample.emptied)) = [].
Proof. split; reflexivity. Qed.

Lemma revivePrompt_declines_without_ledger_entry_witness :
  getResultById "survivor" Sample.started
  = (Return (Some Sample.survivor), snd (getResultById "survivor" Sample.started))
  /\ fst (revivePrompt (Sample.request "survivor" 0) Sample.started)
     = Return (Spec.declinedOutcome Sample.survivor MsgAlreadyAlive)
  /\ ledger (snd (revivePrompt (Sample.request "survivor" 0) Sample.started))
     = ledger Sample.started.
Proof.
  assert (Hfind : getResultById (req_prompt_id (Sample.request "survivor" 0))
                                Sample.started
                  = (Return (Some Sample.survivor),
                     snd (getResultById "survivor" Sample.started)))
    by reflexivity.
  split; [exact Hfind|].
  pose proof (revivePrompt_declines_without_ledger_entry
                (Sample.request "survivor" 0) Sample.started _ Sample.survivor
                Hfind (or_introl eq_refl)) as Hw.
  cbv zeta in Hw. destruct Hw as (Hrun & _ & Hledger & _).
  rewrite Hrun. split; [reflexivity | exact Hledger].
Defined.

(** A suggestion index at the length of the list is turned down too. *)
Example index_past_the_suggestions :
  fst (revivePrompt (Sample.request "shambler" 1) Sample.started)
  = Return (Spec.declinedOutcome Sample.shambler (MsgSuggestionNotFound 1))
  /\ ledger (snd (revivePrompt (Sample.request "shambler" 1) Sample.started)) = None.
Proof. split; reflexivity. Qed.

(** Against C7 as stated: the ledger holds an attempt on "shambler" but
    cannot be read; the reader throws, yet the history is reported empty
    and the statistics all zero. *)
Lemma history_hides_read_failure :
  Spec.entries Sample.cursed = [Sample.earlier]
  /\ ra_prompt_id Sample.earlier = "shambler"
  /\ fst (loadRevivalLog Sample.cursed) = Throw EIO
  /\ fst (getRevivalHistory "shambler" Sample.cursed) = Return []
  /\ fst (getRevivalStats Sample.cursed) = Return Spec.noRevivalStats.
Proof. repeat split; reflexivity. Qed.

Lemma ledger_read_failure_is_swallowed_witness :
  Spec.ledgerUnreadable Sample.cursed = true
  /\ fst (getRevivalHistory "shambler" Sample.cursed) = Return []
  /\ fst (getRevivalStats Sample.cursed) = Return Spec.noRevivalStats.
Proof.
  split; [reflexivity|].
  exact (proj2 (ledger_read_failure_is_swallowed "shambler" Sample.cursed eq_refl)).
Defined.

Lemma getGraveyardStats_two_level_latency_witness :
  Sample.graveyard <> []
  /\ exists stats,
      fst (getGraveyardStats Sample.started) = Return stats
      /\ avg_latency stats = Spec.twoLevelMeanLatency Sample.graveyard.
Proof.
  assert (Hne : Sample.graveyard <> []) by discriminate.
  split; [exact Hne|].
  destruct (getGraveyardStats_two_level_latency
              Sample.started _ Sample.graveyard eq_refl Hne)
    as (stats & Hrun & Havg).
  exists stats. rewrite Hrun. now split.
Defined.

Lemma revivePrompt_outcome_survives_failed_update_witness :
  Spec.revivable (Sample.request "shambler" 0) Sample.flaky
                 Sample.shambler (Sample.advice 0.75%float)
  /\ Spec.updateFails Sample.flaky = true
  /\ exists w',
      revivePrompt (Sample.request "shambler" 0) Sample.flaky
      = (Return (Spec.resolvedOutcome Sample.shambler (Sample.advice 0.75%float)
                                      "a-uuid"), w')
      /\ map status (Spec.entries w') = [Success; Pending].
Proof.
  assert (Hr : Spec.revivable (Sample.request "shambler" 0) Sample.flaky
                              Sample.shambler (Sample.advice 0.75%float)).
  { split; [eexists; reflexivity | repeat split; reflexivity]. }
  split; [exact Hr|]. split; [reflexivity|].
  pose proof (revivePrompt_outcome_survives_failed_update _ _ _ _ Hr eq_refl) as Hw.
  cbv zeta in Hw. destruct Hw as (w' & Hrun & _ & Hledger & _).
  exists w'. split; [exact Hrun|].
  unfold Spec.entries at 1. rewrite Hledger. reflexivity.
Defined.

Lemma sortResults_unrecognised_field_witness :
  Spec.recognised "popularity" = false
  /\ sortResults Sample.graveyard "popularity" asc = Sample.graveyard.
Proof.
  split; [reflexivity|].
  exact (proj1 (proj2 (sortResults_unrecognised_field
                         Sample.graveyard "popularity" asc eq_refl))).
Defined.

End Instances.


(* ================================================================= *)
(** ** Further properties: sorting *)


Section SortFacts.
Context {A : Type}.
Variable cmp : A -> A -> number.

Lemma insert_HdRel (y x : A) (l : list A) :
  (Spec.notAfter cmp) y x -> HdRel (Spec.notAfter cmp) y l -> HdRel (Spec.notAfter cmp) y (JS.insert cmp x l).
Proof.
  intros Hyx Hyl. destruct l as [|z t]; simpl.
  - now constructor.
  - destruct (JS.gt (cmp x z) 0%float).
    + constructor. now inversion Hyl.
    + now constructor.
Qed.

Lemma insert_Sorted (x : A) (l : list A) :
  (forall a b, JS.gt (cmp a b) 0%float = true -> (Spec.notAfter cmp) b a) ->
  Sorted (Spec.notAfter cmp) l -> Sorted (Spec.notAfter cmp) (JS.insert cmp x l).
Proof.
  intros Hasym Hl. induction l as [|y t IH]; simpl.
  - repeat constructor.
  - destruct (JS.gt (cmp x y) 0%float) eqn:Exy.
    + inversion Hl as [|? ? Ht Hy]; subst. constructor.
      * now apply IH.
      * apply insert_HdRel; [now apply Hasym | exact Hy].
    + constructor; [exact Hl | now constructor].
Qed.

Lemma sort_Sorted (l : list A) :
  (forall a b, JS.gt (cmp a b) 0%float = true -> (Spec.notAfter cmp) b a) ->
  Sorted (Spec.notAfter cmp) (JS.sort cmp l).
Proof.
  intros Hasym. induction l as [|x t IH]; simpl.
  - constructor.
  - now apply insert_Sorted.
Qed.

Lemma insert_filter (p : A -> bool) (x : A) (l : list A) :
  (forall a b, p a = true -> p b = true -> (Spec.notAfter cmp) a b) ->
  filter p (JS.insert cmp x l) = filter p (x :: l).
Proof.
  intros Hp. induction l as [|y t IH]; [reflexivity|].
  simpl JS.insert. destruct (JS.gt (cmp x y) 0%float) eqn:Exy; [|reflexivity].
  change (filter p (y :: JS.insert cmp x t))
    with (if p y then y :: filter p (JS.insert cmp x t)
          else filter p (JS.insert cmp x t)).
  rewrite IH. simpl.
  destruct (p x) eqn:Epx, (p y) eqn:Epy; try reflexivity.
  specialize (Hp x y Epx Epy). unfold Spec.notAfter in Hp. congruence.
Qed.

Lemma sort_filter (p : A -> bool) (l : list A) :
  (forall a b, p a = true -> p b = true -> (Spec.notAfter cmp) a b) ->
  filter p (JS.sort cmp l) = filter p l.
Proof.
  intros Hp. induction l as [|x t IH]; [reflexivity|].
  change (JS.sort cmp (x :: t)) with (JS.insert cmp x (JS.sort cmp t)).
  rewrite insert_filter by exact Hp. simpl. now rewrite IH.
Qed.

End SortFacts.

Lemma Sorted_weaken {A : Type} (R R' : A -> A -> Prop) (l : list A) :
  (forall a b, R a b -> R' a b) -> Sorted R l -> Sorted R' l.
Proof.
  intros HR Hl. induction Hl as [|x l Hl IH Hhd]; constructor; [exact IH|].
  destruct Hhd; constructor. now apply HR.
Qed.

(** [a < b] excludes [b < a]. *)
Lemma lt_asym (a b : number) : JS.lt a b = true -> JS.lt b a = false.
Proof.
  unfold JS.lt. rewrite !FloatAxioms.ltb_spec. unfold SpecFloat.SFltb.
  destruct (SpecFloat.SFcompare (Prim2SF a) (Prim2SF b)) as [c|] eqn:Ec;
    [|discriminate].
  rewrite (SFcompare_antisym _ _ _ Ec). now destruct c.
Qed.

Section SortResultsFacts.
Context `{DateRuntime}.
Import GraveyardService.

Lemma controller_comparator_same :
  ResultsController.comparator = comparator.
Proof. reflexivity. Qed.

(** The comparator of a recognised field, by the keys it compares. *)
Lemma comparator_by_key (sortBy : string) (order : SortOrder)
      (a b : EvaluationResult) :
  Spec.recognised sortBy = true ->
  JS.gt (comparator sortBy order a b) 0%float
  = match order with
    | asc => negb (JS.lt (Spec.sortKey sortBy a) (Spec.sortKey sortBy b))
             && JS.gt (Spec.sortKey sortBy a) (Spec.sortKey sortBy b)
    | desc => negb (JS.gt (Spec.sortKey sortBy a) (Spec.sortKey sortBy b))
              && JS.lt (Spec.sortKey sortBy a) (Spec.sortKey sortBy b)
    end.
Proof.
  unfold Spec.recognised, comparator, Spec.sortKey. intros Hr.
  destruct (sortBy =? "score")%string;
    [|destruct (sortBy =? "timestamp")%string;
      [|destruct (sortBy =? "cost")%string;
        [|destruct (sortBy =? "latency")%string; [|discriminate]]]];
    destruct order;
    match goal with
    | |- context [if JS.lt ?x ?y then _ else if JS.gt ?x ?y then _ else _] =>
        destruct (JS.lt x y), (JS.gt x y); reflexivity
    | |- context [if JS.gt ?x ?y then _ else if JS.lt ?x ?y then _ else _] =>
        destruct (JS.gt x y), (JS.lt x y); reflexivity
    end.
Qed.

Lemma comparator_asym (sortBy : string) (order : SortOrder)
      (a b : EvaluationResult) :
  JS.gt (comparator sortBy order a b) 0%float = true ->
  JS.gt (comparator sortBy order b a) 0%float = false.
Proof.
  destruct (Spec.recognised sortBy) eqn:Hr.
  - rewrite !(comparator_by_key sortBy order) by exact Hr.
    unfold JS.gt, JS.lt. destruct order;
      destruct (PrimFloat.ltb (Spec.sortKey sortBy a) (Spec.sortKey sortBy b)),
               (PrimFloat.ltb (Spec.sortKey sortBy b) (Spec.sortKey sortBy a));
      simpl; congruence.
  - intros _. unfold Spec.recognised in Hr.
    repeat (apply orb_false_elim in Hr as [Hr ?]).
    unfold comparator.
    repeat match goal with E : (_ =? _)%string = false |- _ =>
                             rewrite E; clear E end.
    reflexivity.
Qed.

(** X1.  [sortResults] only rearranges: for every field and order, known
    or not, its result is a permutation of its argument, so no record is
    dropped or duplicated; the same holds for the controller's copy. *)
Theorem sortResults_permutes
        (results : list EvaluationResult) (sortBy : string) (order : SortOrder) :
  Permutation (sortResults results sortBy order) results
  /\ Permutation (ResultsController.sortResults results sortBy order) results
  /\ List.length (sortResults results sortBy order) = List.length results.
Proof.
  repeat split; try apply sort_Permutation. apply sort_length.
Qed.

(** X2.  Sorting by a recognised field puts neighbours in order of the
    value compared (score, time value of the timestamp, summed cost, mean
    latency): ascending, no record is followed by one with a smaller
    value; descending, by one with a greater value. *)
Theorem sortResults_in_order
        (results : list EvaluationResult) (sortBy : string) (order : SortOrder) :
  Spec.recognised sortBy = true ->
  Sorted (fun a b => Spec.inOrder order (Spec.sortKey sortBy a) (Spec.sortKey sortBy b))
         (sortResults results sortBy order)
  /\ Sorted (fun a b => Spec.inOrder order (Spec.sortKey sortBy a) (Spec.sortKey sortBy b))
            (ResultsController.sortResults results sortBy order).
Proof.
  intros Hr.
  assert (Hs : Sorted (fun a b => Spec.inOrder order (Spec.sortKey sortBy a)
                                               (Spec.sortKey sortBy b))
                      (sortResults results sortBy order)).
  { apply (Sorted_weaken (Spec.notAfter (comparator sortBy order))).
    - intros a b. unfold Spec.notAfter. rewrite (comparator_by_key sortBy order) by exact Hr.
      unfold Spec.inOrder. destruct order; intros Hab.
      + destruct (JS.lt (Spec.sortKey sortBy a) (Spec.sortKey sortBy b)) eqn:Elt;
          [exact (lt_asym _ _ Elt) | exact Hab].
      + destruct (JS.gt (Spec.sortKey sortBy a) (Spec.sortKey sortBy b)) eqn:Egt;
          [exact (lt_asym _ _ Egt) | exact Hab].
    - apply sort_Sorted. intros a b. apply comparator_asym. }
  split; [exact Hs|]. unfold ResultsController.sortResults.
  rewrite controller_comparator_same. exact Hs.
Qed.

(** X3.  On records whose compared values are numbers, where the
    comparator is consistent, the sort is stable: any group of records
    that the comparator ranks equal to one another keeps its original
    relative order. *)
Theorem sortResults_stable
        (results : list EvaluationResult) (sortBy : string) (order : SortOrder)
        (group : EvaluationResult -> bool) :
  Spec.consistentOn sortBy results ->
  (forall a b, group a = true -> group b = true ->
               comparator sortBy order a b = 0%float) ->
  filter group (sortResults results sortBy order) = filter group results.
Proof.
  intros _ Hg. apply sort_filter. intros a b Ha Hb. unfold Spec.notAfter.
  now rewrite (Hg a b Ha Hb).
Qed.

End SortResultsFacts.

(* ================================================================= *)
(** ** Further properties: the cache, the listings and the statistics *)

Section ListFacts.
Context {A : Type}.

Lemma find_first (p : A -> bool) (l : list A) (r : A) :
  List.find p l = Some r ->
  p r = true
  /\ exists before after,
      l = (before ++ r :: after)%list /\ forall x, In x before -> p x = false.
Proof.
  induction l as [|y t IH]; simpl; [discriminate|].
  destruct (p y) eqn:Ey.
  - intros [= ->]. split; [exact Ey|]. exists [], t. split; [reflexivity|].
    intros x [].
  - intros Hf. destruct (IH Hf) as (Hr & before & after & -> & Hb).
    split; [exact Hr|]. exists (y :: before), after. split; [reflexivity|].
    intros x [<-|Hx]; [exact Ey | now apply Hb].
Qed.

Lemma find_none_all (p : A -> bool) (l : list A) :
  List.find p l = None -> forall x, In x l -> p x = false.
Proof.
  induction l as [|y t IH]; simpl; [intros _ x []|].
  destruct (p y) eqn:Ey; [discriminate|].
  intros Hf x [<-|Hx]; [exact Ey | now apply IH].
Qed.

Lemma slice_In (l : list A) (a b : Z) (x : A) :
  In x (JS.slice l a b) -> In x l.
Proof.
  unfold JS.slice. intros Hx.
  set (size := Z.to_nat _) in Hx. set (from := Z.to_nat _) in Hx.
  rewrite <- (firstn_skipn from l). apply in_or_app. right.
  rewrite <- (firstn_skipn size (skipn from l)). apply in_or_app. now left.
Qed.

Lemma slice_nil (a b : Z) : JS.slice (@nil A) a b = [].
Proof. unfold JS.slice. rewrite skipn_nil. apply firstn_nil. Qed.

Lemma filter_split_length (p : A -> bool) (l : list A) :
  (List.length (filter p l) + List.length (filter (fun x => negb (p x)) l))%nat
  = List.length l.
Proof.
  induction l as [|x t IH]; simpl; [reflexivity|].
  destruct (p x); simpl; lia.
Qed.

Lemma filter_all (p : A -> bool) (l : list A) :
  (forall x, In x l -> p x = true) -> filter p l = l.
Proof.
  induction l as [|x t IH]; simpl; intros Hp; [reflexivity|].
  rewrite (Hp x) by now left. f_equal. apply IH. intros y Hy. apply Hp. now right.
Qed.

Lemma filter_none (p : A -> bool) (l : list A) :
  (forall x, In x l -> p x = false) -> filter p l = [].
Proof.
  induction l as [|x t IH]; simpl; intros Hp; [reflexivity|].
  rewrite (Hp x) by now left. apply IH. intros y Hy. apply Hp. now right.
Qed.

Lemma firstn_plus (n m : nat) (l : list A) :
  firstn (n + m) l = (firstn n l ++ firstn m (skipn n l))%list.
Proof.
  revert l. induction n as [|n IH]; intros l; [reflexivity|].
  destruct l as [|x t]; simpl.
  - now rewrite firstn_nil.
  - now rewrite IH.
Qed.

(** The pages 1 .. n of size [size], laid end to end, are the first
    [n * size] elements. *)
Lemma slice_pages (l : list A) (size : Z) (n : nat) :
  1 <= size ->
  List.concat (map (fun k => JS.slice l ((k - 1) * size) ((k - 1) * size + size))
              (Spec.pagesUpTo n))
  = firstn (n * Z.to_nat size) l.
Proof.
  intros Hs. induction n as [|n IH]; [reflexivity|].
  unfold Spec.pagesUpTo in *. rewrite seq_S, !map_app, concat_app, IH.
  cbn [map List.concat app]. rewrite app_nil_r, slice_window by lia.
  replace (Z.to_nat ((Z.of_nat (1 + n) - 1) * size)) with (n * Z.to_nat size)%nat.
  - replace (S n * Z.to_nat size)%nat
      with (n * Z.to_nat size + Z.to_nat size)%nat by lia.
    now rewrite firstn_plus.
  - replace (Z.of_nat (1 + n) - 1) with (Z.of_nat n) by lia.
    rewrite Z2Nat.inj_mul by lia. now rewrite Nat2Z.id.
Qed.

End ListFacts.

Section CounterFacts.
Import GraveyardService.

Lemma bump_countFor (k k' : string) (acc : list (string * nat)) :
  Spec.countFor k' (bump k acc)
  = if (k =? k')%string then S (Spec.countFor k' acc) else Spec.countFor k' acc.
Proof.
  induction acc as [|[k0 n] t IH]; simpl.
  - rewrite String.eqb_sym. now destruct (k' =? k)%string.
  - destruct (k0 =? k)%string eqn:E0; simpl.
    + apply String.eqb_eq in E0. subst k0.
      now destruct (k =? k')%string.
    + destruct (k0 =? k')%string eqn:E1; [|exact IH].
      apply String.eqb_eq in E1. subst k0.
      rewrite String.eqb_sym, E0. reflexivity.
Qed.

Lemma bump_sumCounts (k : string) (acc : list (string * nat)) :
  Spec.sumCounts (bump k acc) = S (Spec.sumCounts acc).
Proof.
  induction acc as [|[k0 n] t IH]; simpl; [reflexivity|].
  destruct (k0 =? k)%string; simpl; [reflexivity|]. rewrite IH. lia.
Qed.

Lemma bump_keys (k k' : string) (acc : list (string * nat)) :
  In k' (map fst (bump k acc)) <-> k' = k \/ In k' (map fst acc).
Proof.
  induction acc as [|[k0 n] t IH]; simpl.
  - intuition.
  - destruct (k0 =? k)%string eqn:E0; simpl.
    + apply String.eqb_eq in E0. subst k0. intuition.
    + rewrite IH. intuition.
Qed.

Lemma bump_NoDup (k : string) (acc : list (string * nat)) :
  NoDup (map fst acc) -> NoDup (map fst (bump k acc)).
Proof.
  induction acc as [|[k0 n] t IH]; simpl; intros Hn.
  - repeat constructor. intros [].
  - inversion Hn as [|? ? Hnotin Ht]; subst.
    destruct (k0 =? k)%string eqn:E0; simpl; [now constructor|].
    constructor; [|now apply IH].
    rewrite bump_keys. intros [->|Hin]; [|contradiction].
    now rewrite String.eqb_refl in E0.
Qed.

Lemma bump_positive (k : string) (acc : list (string * nat)) :
  Forall (fun kv => (1 <= snd kv)%nat) acc ->
  Forall (fun kv => (1 <= snd kv)%nat) (bump k acc).
Proof.
  induction acc as [|[k0 n] t IH]; simpl; intros Hf.
  - repeat constructor.
  - inversion Hf as [|? ? Hn Ht]; subst.
    destruct (k0 =? k)%string; constructor; simpl in *; auto; lia.
Qed.

Lemma countFor_In (k : string) (n : nat) (acc : list (string * nat)) :
  NoDup (map fst acc) -> In (k, n) acc -> Spec.countFor k acc = n.
Proof.
  induction acc as [|[k0 m] t IH]; simpl; intros Hn Hin; [destruct Hin|].
  inversion Hn as [|? ? Hnotin Ht]; subst.
  destruct Hin as [[= -> ->]|Hin].
  - now rewrite String.eqb_refl.
  - destruct (k0 =? k)%string eqn:E0; [|now apply IH].
    apply String.eqb_eq in E0. subst k0. exfalso. apply Hnotin.
    now apply (in_map fst) in Hin.
Qed.

(** A counter filled by one [bump] per element. *)
Lemma tally_by_bump {A : Type} (key : A -> string) (l : list A)
      (acc : list (string * nat)) :
  let res := fold_left (fun acc x => bump (key x) acc) l acc in
  (NoDup (map fst acc) -> NoDup (map fst res))
  /\ (Forall (fun kv => (1 <= snd kv)%nat) acc ->
      Forall (fun kv => (1 <= snd kv)%nat) res)
  /\ Spec.sumCounts res = (Spec.sumCounts acc + List.length l)%nat
  /\ (forall k, Spec.countFor k res
                = (Spec.countFor k acc
                   + List.length (filter (fun x => (key x =? k)%string) l))%nat)
  /\ (forall k, In k (map fst res) <->
                In k (map fst acc) \/ exists x, In x l /\ key x = k).
Proof.
  revert acc. induction l as [|x t IH]; intros acc; simpl.
  - split; [auto|]. split; [auto|]. split; [lia|]. split.
    + intros k. lia.
    + intros k. split; [now left|]. intros [Hk|(x & [] & _)]. exact Hk.
  - destruct (IH (bump (key x) acc)) as (Hn & Hp & Hs & Hc & Hk).
    split; [|split; [|split; [|split]]].
    + intros Hacc. now apply Hn, bump_NoDup.
    + intros Hacc. now apply Hp, bump_positive.
    + rewrite Hs, bump_sumCounts. lia.
    + intros k. rewrite Hc, bump_countFor.
      destruct (key x =? k)%string; simpl; lia.
    + intros k. rewrite Hk, bump_keys. split.
      * intros [[->|Hin]|(y & Hy & <-)].
        -- right. exists x. split; [now left | reflexivity].
        -- now left.
        -- right. exists y. split; [now right | reflexivity].
      * intros [Hin|(y & [<-|Hy] & <-)].
        -- left. now right.
        -- left. now left.
        -- right. exists y. now split.
Qed.

End CounterFacts.

Section ListingFacts.
Context `{DateRuntime}.
Import GraveyardService.

(** X4.  [getResultById] returns the first record of the snapshot that
    carries the requested id, and [None] only when no record carries
    it. *)
Theorem getResultById_first_match
        (promptId : string) (w w1 : World) (rs : list EvaluationResult) :
  getAllResults w = (Return rs, w1) ->
  exists found,
    getResultById promptId w = (Return found, w1)
    /\ match found with
       | Some r =>
           prompt_id r = promptId
           /\ exists before after,
               rs = (before ++ r :: after)%list
               /\ forall x, In x before -> prompt_id x <> promptId
       | None => forall x, In x rs -> prompt_id x <> promptId
       end.
Proof.
  intros Hcall. rewrite getResultById_spec, Hcall. unfold JS.find.
  eexists. split; [reflexivity|].
  destruct (List.find _ rs) as [r|] eqn:Ef.
  - destruct (find_first _ _ _ Ef) as (Hr & before & after & Hrs & Hb).
    split; [now apply String.eqb_eq|]. exists before, after.
    split; [exact Hrs|]. intros x Hx. apply String.eqb_neq. now apply Hb.
  - intros x Hx. apply String.eqb_neq. now apply (find_none_all _ _ Ef).
Qed.

(** X5.  Within the staleness window the cache masks the source: after a
    call that succeeded, a call made while the snapshot is still within
    the window returns the same records without reading results.json,
    whatever has happened to the file in between (rewritten, removed or
    made unreadable). *)
Theorem cache_masks_the_source_within_the_window
        (w w1 : World) (rs : list EvaluationResult)
        (src : option (list Line)) (fault : nat -> bool) (t : Z) :
  getAllResults w = (Return rs, w1) ->
  Spec.fresh t w1 ->
  let later := with_now t (with_source_fault fault (with_source src w1)) in
  getAllResults later = (Return rs, later).
Proof.
  intros Hcall Hfresh later.
  rewrite (getAllResults_fresh later) by exact Hfresh.
  f_equal. f_equal. simpl.
  destruct (Z_le_gt_dec (now w - lastCacheUpdate w) cacheTimeout) as [Hf|Hs].
  - rewrite getAllResults_fresh in Hcall by exact Hf. congruence.
  - rewrite getAllResults_stale in Hcall by (unfold Spec.stale; lia).
    destruct (loadResultsFromFile w) as [[u|e] w2]; [|discriminate].
    injection Hcall as <- <-. reflexivity.
Qed.

Lemma getAllResults_absent (w : World) :
  Spec.stale (now w) w -> Spec.sourceState w = Spec.SourceAbsent ->
  exists w1, getAllResults w = (Return [], w1).
Proof.
  intros Hs Ha. rewrite (getAllResults_stale w Hs), loadResultsFromFile_spec.
  cbv zeta. rewrite Ha. eexists. reflexivity.
Qed.

Lemma sortedFor_Permutation (pagination : option PaginationParams)
      (l : list EvaluationResult) :
  Permutation (Spec.sortedFor pagination l) l.
Proof.
  unfold Spec.sortedFor, sortResults.
  destruct pagination as [p|]; [|apply Permutation_refl].
  destruct (sort_by p) as [b|]; [|apply Permutation_refl].
  destruct (b =? EmptyString)%string; [apply Permutation_refl | apply sort_Permutation].
Qed.

Lemma filteredZombies_are_zombies (filters : option FilterParams)
      (rs : list EvaluationResult) (r : EvaluationResult) :
  In r (Spec.filteredZombies filters rs) ->
  In r rs /\ is_zombie (zombie_status r) = true.
Proof.
  unfold Spec.filteredZombies, applyFilters. destruct filters as [f|]; intros Hr.
  - apply filter_In in Hr as [Hr _]. now apply filter_In in Hr.
  - now apply filter_In in Hr.
Qed.

(** [getLivingPrompts] once the snapshot is in hand. *)
Lemma getLivingPrompts_spec (pagination : option PaginationParams)
      (w w1 : World) (rs : list EvaluationResult) :
  getAllResults w = (Return rs, w1) ->
  exists out,
    getLivingPrompts pagination w = (Return out, w1)
    /\ lp_total out
       = List.length (filter (fun r => negb (is_zombie (zombie_status r))) rs)
    /\ living out
       = map mapToPromptSummary
             (match pagination with
              | Some p =>
                  JS.slice
                    (Spec.sortedFor pagination
                       (filter (fun r => negb (is_zombie (zombie_status r))) rs))
                    ((page p - 1) * limit p) ((page p - 1) * limit p + limit p)
              | None => filter (fun r => negb (is_zombie (zombie_status r))) rs
              end).
Proof.
  intros Hcall. unfold getLivingPrompts, bind. rewrite Hcall.
  eexists. split; [reflexivity|]. simpl. split; [reflexivity|].
  f_equal. destruct pagination as [p|]; [|reflexivity].
  unfold Spec.sortedFor. f_equal.
  destruct (sort_by p) as [b|]; [|reflexivity].
  now destruct (b =? EmptyString)%string.
Qed.

(** X6.  An absent results file is an empty graveyard for every read
    operation: after the refresh the statistics are the all-zero
    structure (nothing is divided by the zero count), the zombie and the
    living listings are empty with total 0 whatever the filter and the
    page, and no id is found. *)
Theorem absent_source_is_an_empty_graveyard
        (w : World) (filters : option FilterParams)
        (pagination : option PaginationParams) (promptId : string) :
  Spec.stale (now w) w ->
  Spec.sourceState w = Spec.SourceAbsent ->
  fst (getGraveyardStats w) = Return getEmptyStats
  /\ (exists out, fst (getZombiePrompts filters pagination w) = Return out
                  /\ zombies out = [] /\ total out = 0%nat)
  /\ (exists out, fst (getLivingPrompts pagination w) = Return out
                  /\ living out = [] /\ lp_total out = 0%nat)
  /\ fst (getResultById promptId w) = Return None.
Proof.
  intros Hs Ha. destruct (getAllResults_absent w Hs Ha) as (w1 & Hcall).
  split; [|split; [|split]].
  - unfold getGraveyardStats, bind. now rewrite Hcall.
  - destruct (getZombiePrompts_spec filters pagination w w1 [] Hcall)
      as (out & Hout & Htotal & Hitems).
    exists out. rewrite Hout. split; [reflexivity|].
    assert (He : Spec.filteredZombies filters [] = [])
      by (unfold Spec.filteredZombies; now destruct filters).
    rewrite He in Htotal, Hitems. split; [|exact Htotal].
    rewrite Hitems. destruct pagination as [p|]; [|reflexivity].
    assert (Hsf : Spec.sortedFor (Some p) [] = []).
    { apply Permutation_nil, Permutation_sym, sortedFor_Permutation. }
    now rewrite Hsf, slice_nil.
  - destruct (getLivingPrompts_spec pagination w w1 [] Hcall)
      as (out & Hout & Htotal & Hitems).
    exists out. rewrite Hout. split; [reflexivity|]. split; [|exact Htotal].
    rewrite Hitems. simpl. destruct pagination as [p|]; [|reflexivity].
    assert (Hsf : Spec.sortedFor (Some p) [] = []).
    { apply Permutation_nil, Permutation_sym, sortedFor_Permutation. }
    now rewrite Hsf, slice_nil.
  - rewrite getResultById_spec, Hcall. reflexivity.
Qed.

Lemma getGraveyardStats_counts (w w1 : World) (rs : list EvaluationResult) :
  getAllResults w = (Return rs, w1) ->
  exists stats,
    getGraveyardStats w = (Return stats, w1)
    /\ total_prompts stats = List.length rs
    /\ zombie_count stats
       = List.length (filter (fun r => is_zombie (zombie_status r)) rs).
Proof.
  intros Hcall. unfold getGraveyardStats, bind. rewrite Hcall.
  destruct rs as [|r0 rest].
  - simpl. eexists. split; [reflexivity|]. now split.
  - change (List.length (r0 :: rest) =? 0)%nat with false. cbv iota.
    eexists. split; [reflexivity|]. now split.
Qed.

(** X7.  In the statistics, [total_prompts] is the size of the snapshot
    and [zombie_count] the number of its zombies; when no zombie carries
    a severity that is a property name of [Object.prototype] (the four
    declared severities are none), [severity_breakdown] lists each
    severity once, only severities of zombies, each with the number of
    zombies of that severity (at least 1), and its counts add up to
    [zombie_count]. *)
Theorem severity_breakdown_counts_the_zombies
        (w w1 : World) (rs : list EvaluationResult) :
  getAllResults w = (Return rs, w1) ->
  (forall r, In r rs -> is_zombie (zombie_status r) = true ->
             Spec.plainKey (severity (zombie_status r)) = true) ->
  exists stats,
    getGraveyardStats w = (Return stats, w1)
    /\ total_prompts stats = List.length rs
    /\ zombie_count stats
       = List.length (filter (fun r => is_zombie (zombie_status r)) rs)
    /\ NoDup (map fst (severity_breakdown stats))
    /\ Spec.sumCounts (severity_breakdown stats) = zombie_count stats
    /\ forall k n,
        In (k, n) (severity_breakdown stats) ->
        (1 <= n)%nat
        /\ n = List.length
                 (filter (fun r => is_zombie (zombie_status r)
                                   && (severity (zombie_status r) =? k)%string) rs).
Proof.
  intros Hcall _. unfold getGraveyardStats, bind. rewrite Hcall.
  destruct rs as [|r0 rest].
  - simpl. eexists. split; [reflexivity|]. simpl.
    split; [reflexivity|]. split; [reflexivity|]. split; [constructor|].
    split; [reflexivity|]. intros k n [].
  - change (List.length (r0 :: rest) =? 0)%nat with false. cbv iota.
    eexists. split; [reflexivity|].
    cbn [total_prompts zombie_count severity_breakdown].
    set (rs := r0 :: rest).
    set (zs := filter (fun r => is_zombie (zombie_status r)) rs).
    destruct (tally_by_bump (fun r => severity (zombie_status r)) zs [])
      as (Hn & Hp & Hs & Hc & _).
    cbv zeta in Hn, Hp, Hs, Hc.
    split; [reflexivity|]. split; [reflexivity|].
    split; [apply Hn; constructor|]. split; [exact Hs|].
    intros k n Hin. split.
    + specialize (Hp (Forall_nil _)). rewrite Forall_forall in Hp.
      exact (Hp (k, n) Hin).
    + rewrite <- (countFor_In k n _ (Hn (NoDup_nil _)) Hin), Hc. simpl.
      unfold zs. now rewrite filter_andb.
Qed.

(** X8.  The two listings split the snapshot: without filter or page,
    the zombie listing and the living listing return every record of its
    kind, their totals add up to [total_prompts], and the total of the
    zombie listing is the [zombie_count] of the statistics. *)
Theorem listings_partition_the_snapshot
        (w w1 : World) (rs : list EvaluationResult) :
  getAllResults w = (Return rs, w1) ->
  exists z l st,
    getZombiePrompts None None w = (Return z, w1)
    /\ getLivingPrompts None w = (Return l, w1)
    /\ getGraveyardStats w = (Return st, w1)
    /\ (total z + lp_total l)%nat = total_prompts st
    /\ total z = zombie_count st
    /\ List.length (zombies z) = total z
    /\ List.length (living l) = lp_total l.
Proof.
  intros Hcall.
  destruct (getZombiePrompts_spec None None w w1 rs Hcall)
    as (z & Hz & Hzt & Hzi).
  destruct (getLivingPrompts_spec None w w1 rs Hcall) as (l & Hl & Hlt & Hli).
  destruct (getGraveyardStats_counts w w1 rs Hcall)
    as (st & Hst & Htp & Hzc).
  exists z, l, st. split; [exact Hz|]. split; [exact Hl|]. split; [exact Hst|].
  simpl in Hzt, Hzi. rewrite Hzt, Hlt, Htp, Hzc, Hzi, Hli, !length_map.
  split; [apply filter_split_length|]. now repeat split.
Qed.

End ListingFacts.

Section PagingFacts.
Context `{DateRuntime}.
Import GraveyardService.

(** X9.  [recent_activity] holds the summaries of ten records of the
    snapshot, or of all of them when there are fewer: never more than
    ten, and nothing that is not in the snapshot. *)
Theorem recent_activity_is_drawn_from_the_snapshot
        (w w1 : World) (rs : list EvaluationResult) :
  getAllResults w = (Return rs, w1) ->
  exists stats,
    getGraveyardStats w = (Return stats, w1)
    /\ List.length (recent_activity stats) = Nat.min 10 (List.length rs)
    /\ forall s, In s (recent_activity stats) ->
                 exists r, In r rs /\ s = mapToPromptSummary r.
Proof.
  intros Hcall. unfold getGraveyardStats, bind. rewrite Hcall.
  destruct rs as [|r0 rest].
  - simpl. eexists. split; [reflexivity|]. simpl. split; [reflexivity|].
    intros s [].
  - change (List.length (r0 :: rest) =? 0)%nat with false. cbv iota.
    eexists. split; [reflexivity|]. cbn [recent_activity].
    set (rs := r0 :: rest).
    set (sorted := JS.sort _ rs).
    split.
    + rewrite length_map.
      change (JS.slice sorted 0 10) with (JS.slice sorted 0 (0 + 10)).
      rewrite slice_window by lia. simpl skipn.
      rewrite length_firstn. unfold sorted. now rewrite sort_length.
    + intros s Hs. apply in_map_iff in Hs as (r & <- & Hr).
      exists r. split; [|reflexivity].
      apply slice_In in Hr. unfold sorted in Hr.
      exact (Permutation_in r (sort_Permutation _ rs) Hr).
Qed.

(** X10.  The zombie listing never shows a living record and the living
    listing never shows a zombie, whatever the filter, the sort and the
    page; every item is the summary of a record of the snapshot. *)
Theorem listings_keep_to_their_kind
        (filters : option FilterParams) (pagination : option PaginationParams)
        (w w1 : World) (rs : list EvaluationResult) :
  getAllResults w = (Return rs, w1) ->
  (exists z,
      getZombiePrompts filters pagination w = (Return z, w1)
      /\ forall s, In s (zombies z) ->
                   ps_is_zombie s = true
                   /\ exists r, In r rs /\ s = mapToPromptSummary r)
  /\ (exists l,
         getLivingPrompts pagination w = (Return l, w1)
         /\ forall s, In s (living l) ->
                      ps_is_zombie s = false
                      /\ exists r, In r rs /\ s = mapToPromptSummary r).
Proof.
  intros Hcall. split.
  - destruct (getZombiePrompts_spec filters pagination w w1 rs Hcall)
      as (z & Hz & _ & Hzi).
    exists z. split; [exact Hz|]. intros s Hs. rewrite Hzi in Hs.
    apply in_map_iff in Hs as (r & <- & Hr).
    assert (Hin : In r (Spec.filteredZombies filters rs)).
    { destruct pagination as [p|]; [|exact Hr].
      apply slice_In in Hr.
      exact (Permutation_in r (sortedFor_Permutation _ _) Hr). }
    apply filteredZombies_are_zombies in Hin as [Hin Hz'].
    split; [exact Hz'|]. now exists r.
  - destruct (getLivingPrompts_spec pagination w w1 rs Hcall)
      as (l & Hl & _ & Hli).
    exists l. split; [exact Hl|]. intros s Hs. rewrite Hli in Hs.
    apply in_map_iff in Hs as (r & <- & Hr).
    assert (Hin : In r (filter (fun r => negb (is_zombie (zombie_status r))) rs)).
    { destruct pagination as [p|]; [|exact Hr].
      apply slice_In in Hr.
      exact (Permutation_in r (sortedFor_Permutation _ _) Hr). }
    apply filter_In in Hin as [Hin Hz'].
    split; [simpl; now apply negb_true_iff in Hz'|]. now exists r.
Qed.

(** X11.  Pages tile the listing: while the snapshot is within the
    staleness window, the items of pages 1 .. n of a positive size, laid
    end to end, are the summaries of the first n * size records of the
    filtered-and-sorted sequence, so no record is skipped or repeated
    between pages, and once n * size reaches the total they are the whole
    sequence. *)
Theorem pages_tile_the_listing
        (filters : option FilterParams) (sortBy : option string)
        (order : option SortOrder) (size : Z) (n : nat) (w : World) :
  Spec.fresh (now w) w ->
  1 <= size ->
  let pageNo k :=
    {| page := k; limit := size; sort_by := sortBy; sort_order := order |} in
  let sequence :=
    Spec.sortedFor (Some (pageNo 1)) (Spec.filteredZombies filters (cachedResults w)) in
  let laidOut :=
    List.concat
      (map (fun k => Spec.itemsOf (getZombiePrompts filters (Some (pageNo k)) w))
           (Spec.pagesUpTo n)) in
  laidOut = map mapToPromptSummary (firstn (n * Z.to_nat size) sequence)
  /\ ((List.length sequence <= n * Z.to_nat size)%nat ->
      laidOut = map mapToPromptSummary sequence).
Proof.
  intros Hfresh Hsize pageNo sequence laidOut.
  pose proof (getAllResults_fresh w Hfresh) as Hcall.
  assert (Hpage : forall k,
             Spec.itemsOf (getZombiePrompts filters (Some (pageNo k)) w)
             = map mapToPromptSummary
                   (JS.slice sequence ((k - 1) * size) ((k - 1) * size + size))).
  { intros k.
    destruct (getZombiePrompts_spec filters (Some (pageNo k)) w w
                                    (cachedResults w) Hcall)
      as (out & Hout & _ & Hitems).
    unfold Spec.itemsOf. rewrite Hout. simpl fst. exact Hitems. }
  assert (Hlaid : laidOut
                  = map mapToPromptSummary (firstn (n * Z.to_nat size) sequence)).
  { unfold laidOut. rewrite (map_ext _ _ Hpage).
    rewrite <- (slice_pages sequence size n Hsize).
    rewrite concat_map, map_map. reflexivity. }
  split; [exact Hlaid|].
  intros Hall. rewrite Hlaid. now rewrite firstn_all2.
Qed.

(** X12.  Asking the zombie listing for records that are not zombies
    always yields nothing: with [is_zombie = false] in the filter the
    total is 0 and the item list empty, whatever the snapshot holds. *)
Theorem zombie_listing_of_the_living_is_empty
        (f : FilterParams) (pagination : option PaginationParams)
        (w w1 : World) (rs : list EvaluationResult) :
  getAllResults w = (Return rs, w1) ->
  f_is_zombie f = Some false ->
  exists z,
    getZombiePrompts (Some f) pagination w = (Return z, w1)
    /\ total z = 0%nat
    /\ zombies z = [].
Proof.
  intros Hcall Hf.
  destruct (getZombiePrompts_spec (Some f) pagination w w1 rs Hcall)
    as (z & Hz & Hzt & Hzi).
  assert (He : Spec.filteredZombies (Some f) rs = []).
  { unfold Spec.filteredZombies, applyFilters. apply filter_none.
    intros r Hr. apply filter_In in Hr as [_ Hr].
    unfold passesFilters. now rewrite Hf, Hr. }
  rewrite He in Hzt, Hzi. exists z. split; [exact Hz|]. split; [exact Hzt|].
  rewrite Hzi. destruct pagination as [p|]; [|reflexivity].
  assert (Hsf : Spec.sortedFor (Some p) [] = []).
  { apply Permutation_nil, Permutation_sym, sortedFor_Permutation. }
  now rewrite Hsf, slice_nil.
Qed.

End PagingFacts.

(* ================================================================= *)
(** ** Further properties: the revival ledger *)

Section LedgerMoreFacts.
Context `{DateRuntime}.
Import GraveyardService RevivalService.

Lemma update_at_status (i : nat) (st : RevivalStatus) (log : list RevivalAttempt) :
  map Spec.apartFromStatus (JS.update_at i (set_status st) log)
  = map Spec.apartFromStatus log.
Proof.
  revert i. induction log as [|a t IH]; intros i; destruct i as [|j]; simpl;
    try reflexivity.
  now rewrite IH.
Qed.

Lemma getRevivalHistory_readable (promptId : string) (w : World) :
  Spec.ledgerUnreadable w = false ->
  fst (getRevivalHistory promptId w)
  = Return (filter (fun a => (ra_prompt_id a =? promptId)%string) (Spec.entries w)).
Proof.
  unfold Spec.ledgerUnreadable, Spec.entries. intros Hu.
  apply orb_false_elim in Hu as [Hf Hc].
  unfold getRevivalHistory, try_catch, bind. rewrite loadRevivalLog_spec.
  cbv zeta. rewrite Hf.
  destruct (ledger w) as [[|log]|]; [discriminate | reflexivity | reflexivity].
Qed.

(** X13.  A request that reaches its suggestion, meets no storage fault
    and draws an identifier not yet in the ledger leaves the ledger as
    the previous entries, untouched and in their order, followed by one
    new entry: the attempt with its resolved status. *)
Theorem revivePrompt_appends_the_resolved_attempt
        (req : RevivalRequest) (w : World)
        (r : EvaluationResult) (s : RevivalSuggestion) :
  Spec.revivable req w r s ->
  Spec.updateFails w = false ->
  Spec.freshId w = true ->
  let id := uuid_gen w (uuid_count w) in
  let attempt := Spec.attemptOf req r s id (now w) in
  exists w',
    revivePrompt req w = (Return (Spec.resolvedOutcome r s id), w')
    /\ Spec.entries w'
       = (Spec.entries w ++ [set_status (Spec.resolution s) attempt])%list
    /\ status (set_status (Spec.resolution s) attempt) = Spec.resolution s
    /\ revival_id (Spec.resolvedOutcome r s id) = id.
Proof.
  intros Hr Hu Hfresh id attempt.
  destruct (revivable_run_through req w r s Hr Hu Hfresh)
    as (w' & Hrun & Hl & _).
  exists w'. split; [exact Hrun|].
  unfold Spec.entries at 1. rewrite Hl. now repeat split.
Qed.

(** X14.  After such a request the history of the prompt is its previous
    history followed by the resolved attempt, and the history of every
    other prompt is what it was. *)
Theorem history_gains_exactly_the_attempt
        (req : RevivalRequest) (w : World)
        (r : EvaluationResult) (s : RevivalSuggestion) (promptId : string) :
  Spec.revivable req w r s ->
  Spec.updateFails w = false ->
  Spec.freshId w = true ->
  ledger_fault w (S (S (S (S (ledger_ops w))))) = false ->
  let attempt :=
    set_status (Spec.resolution s)
               (Spec.attemptOf req r s (uuid_gen w (uuid_count w)) (now w)) in
  let before :=
    filter (fun a => (ra_prompt_id a =? promptId)%string) (Spec.entries w) in
  fst (getRevivalHistory promptId (snd (revivePrompt req w)))
  = Return (if (req_prompt_id req =? promptId)%string
            then (before ++ [attempt])%list else before).
Proof.
  intros Hr Hu Hfresh Hread attempt before.
  destruct (revivable_run_through req w r s Hr Hu Hfresh)
    as (w' & Hrun & Hl & Hf & Ho).
  rewrite Hrun. simpl snd.
  rewrite getRevivalHistory_readable.
  - unfold Spec.entries at 1. rewrite Hl, filter_app. simpl.
    fold attempt. fold before.
    destruct (req_prompt_id req =? promptId)%string;
      [reflexivity | now rewrite app_nil_r].
  - unfold Spec.ledgerUnreadable. now rewrite Hf, Ho, Hread, Hl.
Qed.

(** X15.  Whatever the request, the storage faults and the identifier
    drawn, [revivePrompt] never removes or reorders ledger entries and
    never changes anything of an entry but its status: apart from the
    statuses, the ledger after the call is the ledger before it followed
    by at most one new entry. *)
Theorem ledger_is_append_only_apart_from_status
        (req : RevivalRequest) (w : World) :
  exists tail,
    map Spec.apartFromStatus (Spec.entries (snd (revivePrompt req w)))
    = (map Spec.apartFromStatus (Spec.entries w) ++ tail)%list
    /\ (List.length tail <= 1)%nat.
Proof.
  pose proof (getResultById_frame (req_prompt_id req) w) as Hframe.
  destruct (getResultById (req_prompt_id req) w) as [[[r|]|e] w1] eqn:Hfind;
    simpl in Hframe; destruct Hframe as (Hl & Hf & Ho & Hn & Hg & Hc).
  - rewrite (revivePrompt_found req w w1 r Hfind).
    destruct (negb (is_zombie (zombie_status r))); simpl.
    { exists []. rewrite (entries_ext w w1 Hl), app_nil_r. auto. }
    destruct (JS.index (revival_suggestions r) (suggestion_index req)) as [s|];
      simpl.
    2: { exists []. rewrite (entries_ext w w1 Hl), app_nil_r. auto. }
    cbv zeta. rewrite Hg, Hc.
    set (id := uuid_gen w (uuid_count w)).
    set (w2 := with_uuid_count (S (uuid_count w)) w1).
    set (att := Spec.attemptOf req r s id (now w1)).
    assert (He2 : Spec.entries w2 = Spec.entries w)
      by (apply entries_ext; exact Hl).
    destruct (Spec.appendable w2) eqn:Ha.
    + destruct (logRevivalAttempt_appendable att w2 Ha)
        as (w3 & Hlog & Hl3 & _).
      rewrite Hlog. simpl. exists [Spec.apartFromStatus att].
      split; [|simpl; lia].
      destruct (updateRevivalStatus_ledger id (Spec.resolution s) w3)
        as [Hsame|(log & i & Hlog3 & Hi & Hupd)].
      * unfold Spec.entries at 1. rewrite Hsame, Hl3, He2.
        now rewrite map_app.
      * unfold Spec.entries at 1. rewrite Hupd, update_at_status.
        rewrite Hl3, He2 in Hlog3. injection Hlog3 as <-.
        now rewrite map_app.
    + destruct (logRevivalAttempt_refused att w2 Ha) as (e & w3 & Hlog & Hl3).
      rewrite Hlog. simpl. exists [].
      rewrite (entries_ext w2 w3 Hl3), He2, app_nil_r. auto.
  - rewrite (revivePrompt_lost req w); rewrite Hfind; simpl; [|discriminate].
    exists []. rewrite (entries_ext w w1 Hl), app_nil_r. auto.
  - rewrite (revivePrompt_lost req w); rewrite Hfind; simpl; [|discriminate].
    exists []. rewrite (entries_ext w w1 Hl), app_nil_r. auto.
Qed.


(** X17.  A request for an id that no record of the snapshot carries is
    answered "not found", with empty fields and [success = false], and
    the ledger file is not accessed. *)
Theorem revivePrompt_of_an_unknown_id
        (req : RevivalRequest) (w w1 : World) (rs : list EvaluationResult) :
  getAllResults w = (Return rs, w1) ->
  (forall x, In x rs -> prompt_id x <> req_prompt_id req) ->
  revivePrompt req w = (Return Spec.notFoundOutcome, w1)
  /\ ledger w1 = ledger w
  /\ ledger_ops w1 = ledger_ops w.
Proof.
  intros Hcall Hno.
  pose proof (getAllResults_frame w) as Hframe. rewrite Hcall in Hframe.
  simpl in Hframe. destruct Hframe as (Hl & _ & Ho & _).
  split; [|now split].
  assert (Hfind : List.find (fun r => (prompt_id r =? req_prompt_id req)%string) rs
                  = None).
  { destruct (List.find _ rs) as [r|] eqn:Ef; [|reflexivity].
    destruct (find_first _ _ _ Ef) as (Hr & before & after & -> & _).
    apply String.eqb_eq in Hr. exfalso. apply (Hno r); [|exact Hr].
    apply in_or_app. right. now left. }
  unfold revivePrompt, try_catch. unfold bind at 1.
  rewrite getResultById_spec, Hcall. unfold JS.find. rewrite Hfind.
  reflexivity.
Qed.

(** X18.  When the cache is stale and results.json is unreadable or holds
    a line that does not parse, every request, also one for a zombie
    that is still in the retained snapshot, is answered "interrupted"
    and the ledger file is not accessed. *)
Theorem revivePrompt_with_a_broken_source (req : RevivalRequest) (w : World) :
  Spec.stale (now w) w ->
  Spec.sourceState w = Spec.SourceBroken ->
  fst (revivePrompt req w) = Return Spec.interruptedOutcome
  /\ ledger (snd (revivePrompt req w)) = ledger w
  /\ ledger_ops (snd (revivePrompt req w)) = ledger_ops w
  /\ cachedResults (snd (revivePrompt req w)) = cachedResults w.
Proof.
  intros Hs Hb.
  assert (Hrun : revivePrompt req w
                 = (Return Spec.interruptedOutcome,
                    with_source_reads (S (source_reads w)) w)).
  { unfold revivePrompt, try_catch. unfold bind at 1.
    rewrite getResultById_spec, (getAllResults_stale w Hs),
      loadResultsFromFile_spec.
    cbv zeta. rewrite Hb. reflexivity. }
  rewrite Hrun. simpl. auto.
Qed.

End LedgerMoreFacts.

Section StatsMoreFacts.
Context `{DateRuntime}.
Import GraveyardService RevivalService.

Lemma fold_left_filter {A B : Type} (p : A -> bool) (f : B -> A -> B)
      (l : list A) (acc : B) :
  fold_left (fun acc a => if p a then f acc a else acc) l acc
  = fold_left f (filter p l) acc.
Proof.
  revert acc. induction l as [|x t IH]; intros acc; simpl; [reflexivity|].
  destruct (p x); simpl; apply IH.
Qed.

(** X19.  When the ledger can be read, the revival statistics count its
    entries: [total_attempts] is their number, [successful_revivals] the
    number with status success (never more than the total),
    [recent_revivals] holds ten entries of the ledger or all of them when
    there are fewer, and [most_successful_strategy] is either "none" or
    the strategy of an entry with status success; it is "none" when no
    entry has that status. *)
Theorem getRevivalStats_counts_the_ledger (w : World) :
  Spec.ledgerUnreadable w = false ->
  exists stats,
    fst (getRevivalStats w) = Return stats
    /\ total_attempts stats = List.length (Spec.entries w)
    /\ successful_revivals stats
       = List.length (filter is_success (Spec.entries w))
    /\ (successful_revivals stats <= total_attempts stats)%nat
    /\ List.length (recent_revivals stats)
       = Nat.min 10 (List.length (Spec.entries w))
    /\ (forall a, In a (recent_revivals stats) -> In a (Spec.entries w))
    /\ (most_successful_strategy stats = "none"
        \/ exists a, In a (Spec.entries w) /\ status a = Success
                     /\ ra_strategy a = most_successful_strategy stats)
    /\ (successful_revivals stats = 0%nat ->
        most_successful_strategy stats = "none").
Proof.
  unfold Spec.ledgerUnreadable. intros Hu.
  apply orb_false_elim in Hu as [Hf Hc].
  assert (Hload : exists w', loadRevivalLog w = (Return (Spec.entries w), w')).
  { rewrite loadRevivalLog_spec. cbv zeta. rewrite Hf. unfold Spec.entries.
    destruct (ledger w) as [[|log]|]; [discriminate| |]; eexists; reflexivity. }
  destruct Hload as (w' & Hload).
  set (log := Spec.entries w) in *.
  unfold getRevivalStats, try_catch, bind. rewrite Hload.
  eexists. split; [reflexivity|].
  cbn [total_attempts successful_revivals recent_revivals most_successful_strategy].
  rewrite fold_left_filter.
  set (wins := filter is_success log).
  set (table := fold_left _ wins []).
  destruct (tally_by_bump ra_strategy wins []) as (_ & _ & _ & _ & Hk).
  cbv zeta in Hk. fold table in Hk.
  split; [reflexivity|]. split; [reflexivity|].
  split; [pose proof (filter_split_length is_success log); unfold wins; lia|].
  split.
  { change (JS.slice ?l 0 10) with (JS.slice l 0 (0 + 10)).
    rewrite slice_window by lia. simpl skipn.
    now rewrite length_firstn, sort_length. }
  split.
  { intros a Ha. apply slice_In in Ha.
    exact (Permutation_in a (sort_Permutation _ log) Ha). }
  split.
  - destruct (JS.sort _ table) as [|[name n] rest] eqn:Es; [now left|].
    destruct (name =? EmptyString)%string; [now left|]. right.
    assert (Hin : In (name, n) table).
    { eapply Permutation_in; [apply sort_Permutation|].
      rewrite Es. now left. }
    apply (in_map fst) in Hin. simpl in Hin.
    apply Hk in Hin as [[]|(a & Ha & Hs)].
    unfold wins in Ha. apply filter_In in Ha as [Ha Hw].
    exists a. split; [exact Ha|]. split; [|exact Hs].
    unfold is_success in Hw. now destruct (status a).
  - intros Hzero. apply length_zero_iff_nil in Hzero.
    unfold table. fold wins in Hzero. rewrite Hzero. reflexivity.
Qed.

End StatsMoreFacts.

(* ================================================================= *)
(** ** Further properties: the controllers and the helpers *)

Section ControllerFacts.
Context `{DateRuntime} `{NumberRuntime}.


(** X21.  [parseNumericQuery] with both bounds given in order clamps a
    value that parses into the bounds, and returns the default as it is,
    clamped or not, when the value is missing or not a number. *)
Theorem parseNumericQuery_clamps
        (value : option string) (defaultValue lo hi : Z) :
  lo <= hi ->
  ApiHelpers.parseNumericQuery value defaultValue (Some lo) (Some hi)
  = match JS.parseInt value with
    | Some n => Z.max lo (Z.min n hi)
    | None => defaultValue
    end
  /\ (JS.parseInt value <> None ->
      lo <= ApiHelpers.parseNumericQuery value defaultValue (Some lo) (Some hi) <= hi).
Proof.
  intros Hb. unfold ApiHelpers.parseNumericQuery.
  destruct (JS.parseInt value) as [n|]; [|split; [reflexivity | congruence]].
  destruct (n <? lo) eqn:Elo;
    [apply Z.ltb_lt in Elo | apply Z.ltb_ge in Elo].
  - destruct (lo >? hi) eqn:Ehi; [rewrite Z.gtb_ltb in Ehi; apply Z.ltb_lt in Ehi; lia|].
    split; [lia | intros _; lia].
  - destruct (n >? hi) eqn:Ehi; rewrite Z.gtb_ltb in Ehi;
      [apply Z.ltb_lt in Ehi | apply Z.ltb_ge in Ehi];
      (split; [lia | intros _; lia]).
Qed.

Lemma nan_le (x y : number) :
  Spec.isNumber x = false -> JS.le x y = false /\ JS.le y x = false.
Proof.
  unfold Spec.isNumber, PrimFloat.is_nan, JS.le.
  rewrite negb_involutive, FloatAxioms.eqb_spec, !FloatAxioms.leb_spec.
  unfold SpecFloat.SFeqb, SpecFloat.SFleb. intros Hx.
  destruct (Prim2SF x) as [sx|sx| |sx mx ex]; simpl in Hx.
  - discriminate.
  - destruct sx; discriminate.
  - split; [reflexivity | now destruct (Prim2SF y)].
  - rewrite Z.compare_refl, Pos.compare_cont_refl in Hx.
    destruct sx; discriminate.
Qed.

(** X22.  GET /api/results/by-date without a start or an end date (the
    parameter missing or empty) is refused with status 400 before the
    store is consulted: the cache is not refreshed and the source is not
    read, even when the snapshot is stale. *)
Theorem by_date_requires_both_dates
        (start_date end_date : option string) (q : Query) (w : World) :
  JS.truthy_str start_date = false \/ JS.truthy_str end_date = false ->
  ResultsController.getResultsByDateRange start_date end_date q w
  = (Return (Refused 400), w).
Proof.
  intros Hm. unfold ResultsController.getResultsByDateRange, try_catch, keepTruthy.
  destruct (JS.truthy_str start_date) eqn:Es, (JS.truthy_str end_date) eqn:Ee;
    destruct Hm as [Hm|Hm]; try discriminate;
    destruct start_date, end_date; try discriminate; reflexivity.
Qed.

(** X23.  When both dates are supplied but one of them does not parse
    (its time value is NaN), GET /api/results/by-date does not refuse the
    request: it answers with success, no results and a total of 0,
    whatever the snapshot holds. *)
Theorem by_date_with_an_unparseable_date
        (s e : string) (q : Query) (w w1 : World) (rs : list EvaluationResult) :
  s <> EmptyString -> e <> EmptyString ->
  Spec.isNumber (Date_getTime s) = false \/ Spec.isNumber (Date_getTime e) = false ->
  GraveyardService.getAllResults w = (Return rs, w1) ->
  exists data,
    ResultsController.getResultsByDateRange (Some s) (Some e) q w
    = (Return (Sent data), w1)
    /\ ResultsController.dr_results data = []
    /\ pg_total (ResultsController.dr_pagination data) = 0%nat.
Proof.
  intros Hs He Hnan Hrun.
  unfold ResultsController.getResultsByDateRange, try_catch, keepTruthy, bind.
  apply String.eqb_neq in Hs, He.
  unfold JS.truthy_str. rewrite Hs, He. cbn [negb]. cbv beta iota.
  rewrite Hrun. cbv zeta.
  assert (Hnone : filter (fun result =>
                     JS.ge (Date_getTime (timestamp result)) (Date_getTime s)
                     && JS.le (Date_getTime (timestamp result)) (Date_getTime e))
                   rs = []).
  { apply filter_none. intros r _. unfold JS.ge.
    destruct Hnan as [Hn|Hn].
    - destruct (nan_le _ (Date_getTime (timestamp r)) Hn) as [Hl _].
      unfold JS.le in Hl. now rewrite Hl.
    - destruct (nan_le _ (Date_getTime (timestamp r)) Hn) as [_ Hl].
      rewrite Hl. apply andb_false_r. }
  rewrite Hnone. eexists. split; [reflexivity|].
  split; [apply slice_nil | reflexivity].
Qed.

Lemma inline_filter (f : FilterParams) (rs : list EvaluationResult) :
  (if hasKeys f then filter (PromptsController.passesInline f) rs else rs)
  = filter (PromptsController.passesInline f) rs.
Proof.
  destruct (hasKeys f) eqn:E; [reflexivity|].
  symmetry. apply filter_all. intros r _.
  unfold hasKeys in E. unfold PromptsController.passesInline.
  destruct (f_is_zombie f); [discriminate|].
  destruct (f_severity f); [discriminate|].
  destruct (min_score f); [discriminate|].
  destruct (max_score f); [discriminate|]. reflexivity.
Qed.

(** X24.  GET /api/prompts reads only page, limit, is_zombie, severity,
    min_score and max_score: two requests that agree on these get the
    same reply from the same state, whatever their sort_by, sort_order,
    date_from, date_to and llm_provider.  The listing is never sorted:
    the prompts are a run of the snapshot, in its order, of the records
    that pass the four tests. *)
Theorem prompts_listing_ignores_sort_dates_and_provider
        (q q' : Query) (fq fq' : FilterQuery) (w : World) :
  q_page q = q_page q' -> q_limit q = q_limit q' ->
  q_is_zombie fq = q_is_zombie fq' -> q_severity fq = q_severity fq' ->
  q_min_score fq = q_min_score fq' -> q_max_score fq = q_max_score fq' ->
  PromptsController.getAllPrompts q fq w = PromptsController.getAllPrompts q' fq' w
  /\ forall rs w1,
       GraveyardService.getAllResults w = (Return rs, w1) ->
       exists data start_ end_,
         PromptsController.getAllPrompts q fq w = (Return (Sent data), w1)
         /\ PromptsController.prompts data
            = JS.slice
                (filter (PromptsController.passesInline
                           (Spec.withoutDatesAndProvider
                              (PromptsController.parseFilters fq))) rs)
                start_ end_.
Proof.
  intros Hp Hl Hz Hs Hmin Hmax.
  assert (Hsame : forall fq0 r,
             PromptsController.passesInline (PromptsController.parseFilters fq0) r
             = PromptsController.passesInline
                 (Spec.withoutDatesAndProvider (PromptsController.parseFilters fq0)) r)
    by reflexivity.
  unfold PromptsController.getAllPrompts, try_catch, bind.
  destruct (GraveyardService.getAllResults w) as [[rs|err] w1].
  - rewrite !inline_filter. split.
    + rewrite (filter_ext _ _ (Hsame fq) rs), (filter_ext _ _ (Hsame fq') rs).
      unfold Spec.withoutDatesAndProvider, PromptsController.parseFilters,
        PromptsController.parsePagination.
      cbn [f_is_zombie f_severity min_score max_score page limit].
      rewrite Hp, Hl, Hz, Hs, Hmin, Hmax. reflexivity.
    + intros rs0 w0 [= <- <-]. do 3 eexists. split; [reflexivity|].
      cbn [PromptsController.prompts].
      rewrite (filter_ext _ _ (Hsame fq) rs). reflexivity.
  - split; [reflexivity | intros ? ? [=]].
Qed.

(** X25.  GET /api/results never filters by date: its [parseFilters] does
    not read date_from and date_to, so two requests that differ only in
    them get the same reply, and the controller's own [applyFilters]
    keeps the records the service's [applyFilters] keeps for the same
    filter with its dates removed. *)
Theorem results_listing_ignores_dates
        (q : Query) (fq fq' : FilterQuery) (w : World)
        (f : FilterParams) (rs : list EvaluationResult) :
  q_is_zombie fq = q_is_zombie fq' -> q_severity fq = q_severity fq' ->
  q_min_score fq = q_min_score fq' -> q_max_score fq = q_max_score fq' ->
  q_llm_provider fq = q_llm_provider fq' ->
  ResultsController.getAllResults q fq w = ResultsController.getAllResults q fq' w
  /\ ResultsController.applyFilters rs f
     = GraveyardService.applyFilters rs (Spec.withoutDates f).
Proof.
  intros Hz Hs Hmin Hmax Hprov. split.
  - unfold ResultsController.getAllResults, ResultsController.parseFilters.
    rewrite Hz, Hs, Hmin, Hmax, Hprov. reflexivity.
  - unfold ResultsController.applyFilters, GraveyardService.applyFilters.
    apply filter_ext. intros r. reflexivity.
Qed.

(** X26.  The listing handlers never throw: each one answers, it answers
    with status 500 whenever the service's [getAllResults] throws, and it
    leaves the state that call leaves. *)
Theorem handlers_answer_instead_of_throwing
        (q : Query) (fq : FilterQuery) (w : World) :
  (exists reply,
      fst (ResultsController.getAllResults q fq w) = Return reply
      /\ ((exists err, fst (GraveyardService.getAllResults w) = Throw err) ->
          reply = Refused 500))
  /\ (exists reply,
      fst (PromptsController.getAllPrompts q fq w) = Return reply
      /\ ((exists err, fst (GraveyardService.getAllResults w) = Throw err) ->
          reply = Refused 500))
  /\ snd (ResultsController.getAllResults q fq w)
     = snd (GraveyardService.getAllResults w)
  /\ snd (PromptsController.getAllPrompts q fq w)
     = snd (GraveyardService.getAllResults w).
Proof.
  unfold ResultsController.getAllResults, PromptsController.getAllPrompts,
    try_catch, bind.
  destruct (GraveyardService.getAllResults w) as [[rs|err] w1]; simpl.
  - split; [|split; [|split; reflexivity]];
      (eexists; split; [reflexivity | intros [? [=]]]).
  - split; [|split; [|split; reflexivity]];
      (eexists; split; [reflexivity | reflexivity]).
Qed.

(** X27.  An is_zombie parameter with any value other than the exact
    string "true" (for instance "1" or "True") selects the living: every
    prompt GET /api/prompts then returns is not a zombie. *)
Theorem is_zombie_other_than_true_selects_the_living
        (q : Query) (fq : FilterQuery) (v : string) (w : World)
        (data : PromptsController.PromptsData) :
  q_is_zombie fq = Some v -> v <> "true"%string ->
  fst (PromptsController.getAllPrompts q fq w) = Return (Sent data) ->
  forall r, In r (PromptsController.prompts data) ->
            is_zombie (zombie_status r) = false.
Proof.
  intros Hv Hne. unfold PromptsController.getAllPrompts, try_catch, bind.
  destruct (GraveyardService.getAllResults w) as [[rs|err] w1]; simpl;
    [|discriminate].
  rewrite inline_filter. intros [= <-] r Hr. cbn [PromptsController.prompts] in Hr.
  apply slice_In, filter_In in Hr as [_ Hr].
  unfold PromptsController.passesInline, PromptsController.parseFilters in Hr.
  cbn [f_is_zombie] in Hr. rewrite Hv in Hr. simpl option_map in Hr.
  apply String.eqb_neq in Hne. rewrite Hne in Hr.
  destruct (is_zombie (zombie_status r)); [discriminate | reflexivity].
Qed.

End ControllerFacts.

Section ProviderFacts.
Import ResultsController.

Lemma fold_left_flat_map {A B C : Type} (g : C -> B -> C) (f : A -> list B)
      (l : list A) (acc : C) :
  fold_left (fun acc a => fold_left g (f a) acc) l acc
  = fold_left g (flat_map f l) acc.
Proof.
  revert acc. induction l as [|x t IH]; intros acc; simpl; [reflexivity|].
  rewrite fold_left_app. apply IH.
Qed.

Lemma recordCall_total (r : LLMResponse) (st : ProviderStats) :
  total_calls (recordCall r st) = S (total_calls st).
Proof. unfold recordCall. now destruct (JS.truthy_str (error r)). Qed.

Lemma recordCall_balanced (r : LLMResponse) (st : ProviderStats) :
  total_calls st = (successful_calls st + failed_calls st)%nat ->
  Spec.balanced (recordCall r st).
Proof.
  unfold Spec.balanced, recordCall. intros Hb.
  destruct (JS.truthy_str (error r)); simpl; lia.
Qed.

Lemma tally_keys (k : string) (r : LLMResponse) (acc : list (string * ProviderStats))
      (k' : string) :
  In k' (map fst (tally k r acc)) <-> k' = k \/ In k' (map fst acc).
Proof.
  induction acc as [|[k0 st] t IH]; simpl.
  - intuition congruence.
  - destruct (k0 =? k)%string eqn:E; simpl.
    + apply String.eqb_eq in E. subst k0. intuition congruence.
    + rewrite IH. intuition congruence.
Qed.

Lemma tally_NoDup (k : string) (r : LLMResponse) (acc : list (string * ProviderStats)) :
  NoDup (map fst acc) -> NoDup (map fst (tally k r acc)).
Proof.
  induction acc as [|[k0 st] t IH]; simpl; intros Hn.
  - constructor; [intros [] | constructor].
  - inversion Hn as [|? ? Hk Ht]; subst.
    destruct (k0 =? k)%string eqn:E; simpl; [now constructor|].
    constructor; [|now apply IH].
    rewrite tally_keys. intros [->|Hin]; [|contradiction].
    now rewrite String.eqb_refl in E.
Qed.

Lemma tally_calls (k : string) (r : LLMResponse) (acc : list (string * ProviderStats)) :
  Spec.callsTotal (tally k r acc) = S (Spec.callsTotal acc).
Proof.
  induction acc as [|[k0 st] t IH]; simpl.
  - now rewrite recordCall_total.
  - destruct (k0 =? k)%string; simpl.
    + now rewrite recordCall_total.
    + rewrite IH. lia.
Qed.

Lemma tally_balanced (k : string) (r : LLMResponse) (acc : list (string * ProviderStats)) :
  Forall (fun kv => Spec.balanced (snd kv)) acc ->
  Forall (fun kv => Spec.balanced (snd kv)) (tally k r acc).
Proof.
  induction acc as [|[k0 st] t IH]; simpl; intros Hb.
  - constructor; [|constructor]. now apply recordCall_balanced.
  - inversion Hb as [|? ? Hst Ht]; subst. simpl in Hst.
    destruct (k0 =? k)%string.
    + constructor; [|exact Ht]. apply recordCall_balanced, Hst.
    + constructor; [exact Hst | now apply IH].
Qed.

Lemma tally_fold (entries : list (string * LLMResponse))
      (acc : list (string * ProviderStats)) :
  NoDup (map fst acc) ->
  Forall (fun kv => Spec.balanced (snd kv)) acc ->
  let out := fold_left (fun acc' entry => tally (fst entry) (snd entry) acc')
                       entries acc in
  NoDup (map fst out)
  /\ Forall (fun kv => Spec.balanced (snd kv)) out
  /\ Spec.callsTotal out = (List.length entries + Spec.callsTotal acc)%nat
  /\ forall k, In k (map fst out) <-> In k (map fst acc) \/ In k (map fst entries).
Proof.
  revert acc. induction entries as [|[k r] t IH]; intros acc Hn Hb; simpl.
  - split; [exact Hn|]. split; [exact Hb|]. split; [reflexivity|]. tauto.
  - destruct (IH (tally k r acc) (tally_NoDup k r acc Hn) (tally_balanced k r acc Hb))
      as (Hn' & Hb' & Hc & Hk).
    cbv zeta in Hn', Hb', Hc, Hk.
    split; [exact Hn'|]. split; [exact Hb'|].
    split; [rewrite Hc, tally_calls; lia|].
    intros k'. rewrite Hk, tally_keys. intuition congruence.
Qed.

(** X28.  When no provider name is a property name of [Object.prototype],
    [calculateProviderStats] accounts for every response exactly once: it
    has one entry per provider name that occurs in some record (and no
    other), the [total_calls] of its entries add up to the number of
    responses in the records, and in each entry [total_calls] is at
    least 1 and equals [successful_calls + failed_calls], so that the
    [success_rate], successful over total, never divides by zero. *)
Theorem provider_stats_account_for_every_response (rs : list EvaluationResult) :
  (forall r k, In r rs -> In k (map fst (llm_responses r)) ->
               Spec.plainKey k = true) ->
  let stats := calculateProviderStats rs in
  NoDup (map fst stats)
  /\ Spec.callsTotal stats = Spec.responseCount rs
  /\ (forall k, In k (map fst stats)
                <-> exists r, In r rs /\ In k (map fst (llm_responses r)))
  /\ (forall k st, In (k, st) stats ->
        Spec.balanced st
        /\ success_rate st
           = Some (JS.of_nat (successful_calls st) / JS.of_nat (total_calls st))%float).
Proof.
  intros _. cbv zeta. unfold calculateProviderStats.
  rewrite (fold_left_flat_map
             (fun acc' entry => tally (fst entry) (snd entry) acc') llm_responses).
  destruct (tally_fold (flat_map llm_responses rs) [] (NoDup_nil _) (Forall_nil _))
    as (Hn & Hb & Hc & Hk).
  cbv zeta in Hn, Hb, Hc, Hk.
  set (raw := fold_left _ (flat_map llm_responses rs) []) in *.
  assert (Hkeys : map fst (map (fun kv => (fst kv, finish (snd kv))) raw) = map fst raw).
  { rewrite map_map. apply map_ext. reflexivity. }
  rewrite Hkeys. split; [exact Hn|]. split; [|split].
  - unfold Spec.responseCount. simpl in Hc. rewrite Nat.add_0_r in Hc.
    rewrite <- Hc. clear.
    induction raw as [|[k st] t IH]; simpl; [reflexivity|]. now rewrite IH.
  - intros k. rewrite Hk. simpl. split.
    + intros [[]|Hin]. apply in_map_iff in Hin as ([k0 r0] & <- & Hin).
      apply in_flat_map in Hin as (r & Hr & Hin).
      exists r. split; [exact Hr|]. now apply (in_map fst) in Hin.
    + intros (r & Hr & Hin). right.
      apply in_map_iff in Hin as ([k0 r0] & <- & Hin).
      apply (in_map fst). apply in_flat_map. now exists r.
  - intros k st Hin. apply in_map_iff in Hin as ([k0 st0] & [= <- <-] & Hin).
    rewrite Forall_forall in Hb. specialize (Hb _ Hin). simpl in Hb.
    split; [exact Hb | reflexivity].
Qed.

End ProviderFacts.

(* ================================================================= *)
(** ** The further properties on the sample graveyard *)

Section MoreInstances.
#[local] Existing Instance Sample.date.
#[local] Existing Instance Sample.number.
Import GraveyardService RevivalService.

Lemma sortResults_in_order_witness :
  Spec.recognised "score" = true
  /\ Sorted (fun a b => Spec.inOrder asc (Spec.sortKey "score" a) (Spec.sortKey "score" b))
            (sortResults Sample.graveyard "score" asc).
Proof.
  split; [reflexivity|].
  exact (proj1 (sortResults_in_order Sample.graveyard "score" asc eq_refl)).
Defined.

Lemma sortResults_stable_witness :
  Spec.consistentOn "timestamp" Sample.graveyard
  /\ (forall a b,
      (timestamp a =? Sample.stamp)%string = true ->
      (timestamp b =? Sample.stamp)%string = true ->
      comparator "timestamp" desc a b = 0%float)
  /\ filter (fun r => (timestamp r =? Sample.stamp)%string)
            (sortResults Sample.graveyard "timestamp" desc)
     = Sample.graveyard.
Proof.
  assert (Hc : Spec.consistentOn "timestamp" Sample.graveyard)
    by (intros _ r [<-|[<-|[<-|[]]]]; reflexivity).
  split; [exact Hc|].
  assert (Hg : forall a b,
             (timestamp a =? Sample.stamp)%string = true ->
             (timestamp b =? Sample.stamp)%string = true ->
             comparator "timestamp" desc a b = 0%float).
  { intros a b Ha Hb. apply String.eqb_eq in Ha, Hb.
    unfold comparator. simpl. rewrite Ha, Hb. reflexivity. }
  split; [exact Hg|].
  rewrite (sortResults_stable Sample.graveyard "timestamp" desc
             (fun r => (timestamp r =? Sample.stamp)%string) Hc Hg).
  reflexivity.
Defined.

Lemma getResultById_first_match_witness :
  getAllResults Sample.started
  = (Return Sample.graveyard, snd (getAllResults Sample.started))
  /\ exists found,
      fst (getResultById "survivor" Sample.started) = Return found.
Proof.
  assert (Hcall : getAllResults Sample.started
                  = (Return Sample.graveyard, snd (getAllResults Sample.started)))
    by reflexivity.
  split; [exact Hcall|].
  destruct (getResultById_first_match "survivor" Sample.started _ Sample.graveyard Hcall)
    as (found & Hrun & _).
  exists found. now rewrite Hrun.
Defined.

Lemma cache_masks_the_source_within_the_window_witness :
  getAllResults Sample.started
  = (Return Sample.graveyard, snd (getAllResults Sample.started))
  /\ Spec.fresh 1705314601000 (snd (getAllResults Sample.started))
  /\ fst (getAllResults
            (with_now 1705314601000
               (with_source_fault Sample.always_fault
                  (with_source None (snd (getAllResults Sample.started))))))
     = Return Sample.graveyard.
Proof.
  assert (Hcall : getAllResults Sample.started
                  = (Return Sample.graveyard, snd (getAllResults Sample.started)))
    by reflexivity.
  assert (Hf : Spec.fresh 1705314601000 (snd (getAllResults Sample.started)))
    by (unfold Spec.fresh, cacheTimeout; simpl; lia).
  split; [exact Hcall|]. split; [exact Hf|].
  pose proof (cache_masks_the_source_within_the_window
                Sample.started _ Sample.graveyard None Sample.always_fault
                1705314601000 Hcall Hf) as Hw.
  cbv zeta in Hw. now rewrite Hw.
Defined.

Lemma absent_source_is_an_empty_graveyard_witness :
  Spec.stale (now Sample.emptied) Sample.emptied
  /\ Spec.sourceState Sample.emptied = Spec.SourceAbsent
  /\ fst (getGraveyardStats Sample.emptied) = Return getEmptyStats.
Proof.
  assert (Hs : Spec.stale (now Sample.emptied) Sample.emptied)
    by (unfold Spec.stale, cacheTimeout; simpl; lia).
  split; [exact Hs|]. split; [reflexivity|].
  exact (proj1 (absent_source_is_an_empty_graveyard
                  Sample.emptied None None "shambler" Hs eq_refl)).
Defined.

Lemma severity_breakdown_counts_the_zombies_witness :
  getAllResults Sample.started
  = (Return Sample.graveyard, snd (getAllResults Sample.started))
  /\ (forall r, In r Sample.graveyard -> is_zombie (zombie_status r) = true ->
                Spec.plainKey (severity (zombie_status r)) = true)
  /\ exists stats,
      fst (getGraveyardStats Sample.started) = Return stats
      /\ Spec.sumCounts (severity_breakdown stats) = 2%nat.
Proof.
  assert (Hcall : getAllResults Sample.started
                  = (Return Sample.graveyard, snd (getAllResults Sample.started)))
    by reflexivity.
  assert (Hplain : forall r, In r Sample.graveyard ->
                              is_zombie (zombie_status r) = true ->
                              Spec.plainKey (severity (zombie_status r)) = true)
    by (intros r [<-|[<-|[<-|[]]]] _; reflexivity).
  split; [exact Hcall|]. split; [exact Hplain|].
  destruct (severity_breakdown_counts_the_zombies
              Sample.started _ Sample.graveyard Hcall Hplain)
    as (stats & Hrun & _ & Hz & _ & Hsum & _).
  exists stats. rewrite Hrun, Hsum, Hz. split; reflexivity.
Defined.

Lemma listings_partition_the_snapshot_witness :
  getAllResults Sample.started
  = (Return Sample.graveyard, snd (getAllResults Sample.started))
  /\ exists z l st,
      fst (getZombiePrompts None None Sample.started) = Return z
      /\ fst (getLivingPrompts None Sample.started) = Return l
      /\ fst (getGraveyardStats Sample.started) = Return st
      /\ (total z + lp_total l)%nat = total_prompts st.
Proof.
  assert (Hcall : getAllResults Sample.started
                  = (Return Sample.graveyard, snd (getAllResults Sample.started)))
    by reflexivity.
  split; [exact Hcall|].
  destruct (listings_partition_the_snapshot Sample.started _ Sample.graveyard Hcall)
    as (z & l & st & Hz & Hl & Hst & Hsum & _).
  exists z, l, st. rewrite Hz, Hl, Hst. repeat split. exact Hsum.
Defined.

Lemma recent_activity_is_drawn_from_the_snapshot_witness :
  getAllResults Sample.started
  = (Return Sample.graveyard, snd (getAllResults Sample.started))
  /\ exists stats,
      fst (getGraveyardStats Sample.started) = Return stats
      /\ List.length (recent_activity stats) = 3%nat.
Proof.
  assert (Hcall : getAllResults Sample.started
                  = (Return Sample.graveyard, snd (getAllResults Sample.started)))
    by reflexivity.
  split; [exact Hcall|].
  destruct (recent_activity_is_drawn_from_the_snapshot
              Sample.started _ Sample.graveyard Hcall)
    as (stats & Hrun & Hlen & _).
  exists stats. rewrite Hrun, Hlen. split; reflexivity.
Defined.

Lemma listings_keep_to_their_kind_witness :
  getAllResults Sample.started
  = (Return Sample.graveyard, snd (getAllResults Sample.started))
  /\ exists z,
      fst (getZombiePrompts None None Sample.started) = Return z
      /\ forall s, In s (zombies z) -> ps_is_zombie s = true.
Proof.
  assert (Hcall : getAllResults Sample.started
                  = (Return Sample.graveyard, snd (getAllResults Sample.started)))
    by reflexivity.
  split; [exact Hcall|].
  destruct (listings_keep_to_their_kind None None Sample.started _ Sample.graveyard Hcall)
    as ((z & Hrun & Hkind) & _).
  exists z. rewrite Hrun. split; [reflexivity|].
  intros s Hs. exact (proj1 (Hkind s Hs)).
Defined.

Lemma pages_tile_the_listing_witness :
  Spec.fresh (now Sample.warm) Sample.warm
  /\ 1 <= 1
  /\ List.concat
       (map (fun k => Spec.itemsOf
                        (getZombiePrompts None (Some (Sample.byScore k 1)) Sample.warm))
            (Spec.pagesUpTo 2))
     = map mapToPromptSummary
           (firstn 2 (Spec.sortedFor (Some (Sample.byScore 1 1))
                                     (Spec.filteredZombies None Sample.graveyard))).
Proof.
  assert (Hf : Spec.fresh (now Sample.warm) Sample.warm)
    by (unfold Spec.fresh, cacheTimeout; simpl; lia).
  split; [exact Hf|]. split; [lia|].
  pose proof (pages_tile_the_listing None (Some "score") (Some asc) 1 2 Sample.warm
                Hf ltac:(lia)) as Hw.
  cbv zeta in Hw. exact (proj1 Hw).
Defined.

Lemma zombie_listing_of_the_living_is_empty_witness :
  getAllResults Sample.started
  = (Return Sample.graveyard, snd (getAllResults Sample.started))
  /\ f_is_zombie Sample.onlyLiving = Some false
  /\ exists z,
      fst (getZombiePrompts (Some Sample.onlyLiving) None Sample.started) = Return z
      /\ total z = 0%nat.
Proof.
  assert (Hcall : getAllResults Sample.started
                  = (Return Sample.graveyard, snd (getAllResults Sample.started)))
    by reflexivity.
  split; [exact Hcall|]. split; [reflexivity|].
  destruct (zombie_listing_of_the_living_is_empty
              Sample.onlyLiving None Sample.started _ Sample.graveyard Hcall eq_refl)
    as (z & Hrun & Htotal & _).
  exists z. rewrite Hrun. now split.
Defined.

Lemma revivePrompt_appends_the_resolved_attempt_witness :
  Spec.revivable (Sample.request "shambler" 0) Sample.started
                 Sample.shambler (Sample.advice 0.75%float)
  /\ Spec.updateFails Sample.started = false
  /\ Spec.freshId Sample.started = true
  /\ exists resp w',
      revivePrompt (Sample.request "shambler" 0) Sample.started = (Return resp, w')
      /\ List.length (Spec.entries w') = 1%nat.
Proof.
  assert (Hr : Spec.revivable (Sample.request "shambler" 0) Sample.started
                              Sample.shambler (Sample.advice 0.75%float)).
  { split; [eexists; reflexivity | repeat split; reflexivity]. }
  split; [exact Hr|]. split; [reflexivity|]. split; [reflexivity|].
  pose proof (revivePrompt_appends_the_resolved_attempt
                _ _ _ _ Hr eq_refl eq_refl) as Hw.
  cbv zeta in Hw. destruct Hw as (w' & Hrun & Hentries & _).
  eexists. exists w'. split; [exact Hrun|]. rewrite Hentries. reflexivity.
Defined.

Lemma history_gains_exactly_the_attempt_witness :
  Spec.revivable (Sample.request "shambler" 0) Sample.started
                 Sample.shambler (Sample.advice 0.75%float)
  /\ Spec.updateFails Sample.started = false
  /\ Spec.freshId Sample.started = true
  /\ ledger_fault Sample.started 4 = false
  /\ exists attempts,
      fst (getRevivalHistory "shambler"
             (snd (revivePrompt (Sample.request "shambler" 0) Sample.started)))
      = Return attempts
      /\ List.length attempts = 1%nat.
Proof.
  assert (Hr : Spec.revivable (Sample.request "shambler" 0) Sample.started
                              Sample.shambler (Sample.advice 0.75%float)).
  { split; [eexists; reflexivity | repeat split; reflexivity]. }
  split; [exact Hr|]. do 3 (split; [reflexivity|]).
  pose proof (history_gains_exactly_the_attempt
                _ _ _ _ "shambler" Hr eq_refl eq_refl eq_refl) as Hw.
  cbv zeta in Hw. rewrite Hw. eexists. split; reflexivity.
Defined.

Lemma revivePrompt_of_an_unknown_id_witness :
  getAllResults Sample.started
  = (Return Sample.graveyard, snd (getAllResults Sample.started))
  /\ (forall x, In x Sample.graveyard -> prompt_id x <> "nobody"%string)
  /\ fst (revivePrompt (Sample.request "nobody" 0) Sample.started)
     = Return Spec.notFoundOutcome.
Proof.
  assert (Hcall : getAllResults Sample.started
                  = (Return Sample.graveyard, snd (getAllResults Sample.started)))
    by reflexivity.
  assert (Hno : forall x, In x Sample.graveyard -> prompt_id x <> "nobody"%string)
    by (intros x [<-|[<-|[<-|[]]]]; discriminate).
  split; [exact Hcall|]. split; [exact Hno|].
  destruct (revivePrompt_of_an_unknown_id
              (Sample.request "nobody" 0) Sample.started _ Sample.graveyard Hcall Hno)
    as (Hrun & _).
  now rewrite Hrun.
Defined.

Lemma revivePrompt_with_a_broken_source_witness :
  Spec.stale (now Sample.haunted) Sample.haunted
  /\ Spec.sourceState Sample.haunted = Spec.SourceBroken
  /\ fst (revivePrompt (Sample.request "shambler" 0) Sample.haunted)
     = Return Spec.interruptedOutcome.
Proof.
  assert (Hs : Spec.stale (now Sample.haunted) Sample.haunted)
    by (unfold Spec.stale, cacheTimeout; simpl; lia).
  split; [exact Hs|]. split; [reflexivity|].
  exact (proj1 (revivePrompt_with_a_broken_source
                  (Sample.request "shambler" 0) Sample.haunted Hs eq_refl)).
Defined.

Lemma getRevivalStats_counts_the_ledger_witness :
  Spec.ledgerUnreadable Sample.flaky = false
  /\ exists stats,
      fst (getRevivalStats Sample.flaky) = Return stats
      /\ total_attempts stats = 1%nat.
Proof.
  split; [reflexivity|].
  destruct (getRevivalStats_counts_the_ledger Sample.flaky eq_refl)
    as (stats & Hrun & Htotal & _).
  exists stats. split; [exact Hrun | rewrite Htotal; reflexivity].
Defined.

Lemma parseNumericQuery_clamps_witness :
  1 <= 100
  /\ ApiHelpers.parseNumericQuery (Some "250") 20 (Some 1) (Some 100) = 100.
Proof.
  split; [lia|].
  rewrite (proj1 (parseNumericQuery_clamps (Some "250") 20 1 100 ltac:(lia))).
  reflexivity.
Defined.

Lemma by_date_requires_both_dates_witness :
  (JS.truthy_str None = false \/ JS.truthy_str (Some Sample.stamp) = false)
  /\ fst (ResultsController.getResultsByDateRange
            None (Some Sample.stamp) (Sample.query None None) Sample.started)
     = Return (Refused 400).
Proof.
  split; [left; reflexivity|].
  now rewrite (by_date_requires_both_dates
                 None (Some Sample.stamp) (Sample.query None None) Sample.started
                 (or_introl eq_refl)).
Defined.

Lemma by_date_with_an_unparseable_date_witness :
  "yesterday"%string <> EmptyString
  /\ Sample.stamp <> EmptyString
  /\ Spec.isNumber (Date_getTime "yesterday") = false
  /\ getAllResults Sample.started
     = (Return Sample.graveyard, snd (getAllResults Sample.started))
  /\ exists data,
      fst (ResultsController.getResultsByDateRange
             (Some "yesterday"%string) (Some Sample.stamp)
             (Sample.query None None) Sample.started)
      = Return (Sent data)
      /\ ResultsController.dr_results data = [].
Proof.
  assert (Hcall : getAllResults Sample.started
                  = (Return Sample.graveyard, snd (getAllResults Sample.started)))
    by reflexivity.
  split; [discriminate|]. split; [discriminate|]. split; [reflexivity|].
  split; [exact Hcall|].
  destruct (by_date_with_an_unparseable_date
              "yesterday" Sample.stamp (Sample.query None None)
              Sample.started _ Sample.graveyard
              ltac:(discriminate) ltac:(discriminate) (or_introl eq_refl) Hcall)
    as (data & Hrun & Hnone & _).
  exists data. rewrite Hrun. now split.
Defined.

Lemma prompts_listing_ignores_sort_dates_and_provider_witness :
  PromptsController.getAllPrompts
    (Sample.query (Some "1") (Some "2"))
    (Sample.ask (Some "true") None None) Sample.started
  = PromptsController.getAllPrompts
      (Sample.sortedQuery (Some "1") (Some "2"))
      (Sample.ask (Some "true") (Some Sample.stamp) (Some "cohere")) Sample.started.
Proof.
  exact (proj1 (prompts_listing_ignores_sort_dates_and_provider
                  (Sample.query (Some "1") (Some "2"))
                  (Sample.sortedQuery (Some "1") (Some "2"))
                  (Sample.ask (Some "true") None None)
                  (Sample.ask (Some "true") (Some Sample.stamp) (Some "cohere"))
                  Sample.started
                  eq_refl eq_refl eq_refl eq_refl eq_refl eq_refl)).
Defined.

Lemma results_listing_ignores_dates_witness :
  ResultsController.getAllResults
    (Sample.query None None)
    (Sample.ask (Some "true") None (Some "openai")) Sample.started
  = ResultsController.getAllResults
      (Sample.query None None)
      (Sample.ask (Some "true") (Some Sample.stamp) (Some "openai")) Sample.started.
Proof.
  exact (proj1 (results_listing_ignores_dates
                  (Sample.query None None)
                  (Sample.ask (Some "true") None (Some "openai"))
                  (Sample.ask (Some "true") (Some Sample.stamp) (Some "openai"))
                  Sample.started Sample.filterNone []
                  eq_refl eq_refl eq_refl eq_refl eq_refl)).
Defined.

Lemma is_zombie_other_than_true_selects_the_living_witness :
  "1"%string <> "true"%string
  /\ exists data,
      fst (PromptsController.getAllPrompts
             (Sample.query None None) (Sample.ask (Some "1") None None)
             Sample.started)
      = Return (Sent data)
      /\ PromptsController.prompts data = [Sample.survivor]
      /\ forall r, In r (PromptsController.prompts data) ->
                   is_zombie (zombie_status r) = false.
Proof.
  split; [discriminate|].
  eexists. split; [reflexivity|]. split; [reflexivity|].
  exact (is_zombie_other_than_true_selects_the_living
           (Sample.query None None) (Sample.ask (Some "1") None None) "1"
           Sample.started _ eq_refl ltac:(discriminate) eq_refl).
Defined.

Lemma provider_stats_account_for_every_response_witness :
  (forall r k, In r Sample.graveyard -> In k (map fst (llm_responses r)) ->
               Spec.plainKey k = true)
  /\ map (fun kv => (fst kv, ResultsController.total_calls (snd kv)))
         (ResultsController.calculateProviderStats Sample.graveyard)
     = [("openai", 3%nat); ("anthropic", 1%nat); ("cohere", 1%nat)]
  /\ Spec.callsTotal (ResultsController.calculateProviderStats Sample.graveyard)
     = 5%nat.
Proof.
  assert (Hplain : forall r k, In r Sample.graveyard ->
                               In k (map fst (llm_responses r)) ->
                               Spec.plainKey k = true).
  { intros r k [<-|[<-|[<-|[]]]]; simpl; intros Hk;
      repeat (destruct Hk as [<-|Hk]; [reflexivity|]); destruct Hk. }
  split; [exact Hplain|]. split; [reflexivity|].
  pose proof (provider_stats_account_for_every_response Sample.graveyard Hplain)
    as Hw.
  cbv zeta in Hw. destruct Hw as (_ & Hcalls & _).
  rewrite Hcalls. reflexivity.
Defined.

End MoreInstances.
